(** * RefactorIQ proposal core: patch utilities, apply gate and git workflow

    A shallow embedding of
      - [apps/backend/utils/patch_utils.py]      (PatchParser, PatchValidator, is_safe_patch,
                                                  PatchApplier, ConflictResolver, DiffGenerator),
      - [apps/backend/services/proposal_service.py] (validate_proposal_safety, apply_proposal_direct,
                                                  score_proposal_confidence),
      - [apps/backend/services/git_operations.py] (GitOperationsService),
      - [apps/backend/services/github_service.py] (webhook check, pull-request path),
      - [apps/backend/services/gitlab_service.py] (webhook token check, merge-request path),
      - [apps/backend/api/v1/proposals.py]        (the apply and reject endpoints),
      - [apps/backend/api/v1/webhooks.py]         (the signature check of the endpoint),
    followed by the properties established about them. *)

From Stdlib Require Import String Ascii List ZArith Bool Arith Lia.
From Stdlib Require Import Floats DecimalString QArith Qabs Qminmax.
Import ListNotations.

Set Warnings "-inexact-float".

Local Open Scope list_scope.
Local Open Scope string_scope.
Local Open Scope nat_scope.

(* ===================================================================== *)
(** ** Python text primitives *)
(* ===================================================================== *)

(** A Python [str] is modelled by [string], one [ascii] per code point;
    the model therefore covers texts whose code points are below 256. *)
Module Py.

(** [str.isspace] on one code point below 256: TAB..CR, FS..US, SPACE,
    NEL (0x85) and NBSP (0xA0).  The same set is matched by [\s]. *)
Definition isspace (c : ascii) : bool :=
  let n := nat_of_ascii c in
  ((9 <=? n) && (n <=? 13)) || ((28 <=? n) && (n <=? 32)) || (n =? 133) || (n =? 160).

(** Decimal digits: below 256 only [0-9] are matched by [\d]. *)
Definition isdigit (c : ascii) : bool :=
  let n := nat_of_ascii c in (48 <=? n) && (n <=? 57).

(** Simple case folding as applied by [re.IGNORECASE] to code points
    below 128; the patterns of this program contain ASCII letters only. *)
Definition lower (c : ascii) : ascii :=
  let n := nat_of_ascii c in
  if (65 <=? n) && (n <=? 90) then ascii_of_nat (n + 32) else c.

Fixpoint lstrip (s : string) : string :=
  match s with
  | EmptyString => EmptyString
  | String c s' => if isspace c then lstrip s' else s
  end.

Fixpoint rstrip (s : string) : string :=
  match s with
  | EmptyString => EmptyString
  | String c s' =>
      match rstrip s' with
      | EmptyString => if isspace c then EmptyString else String c EmptyString
      | t => String c t
      end
  end.

(** [s.strip()] *)
Definition strip (s : string) : string := rstrip (lstrip s).

(** [s.split(sep)] for a one-character separator: never the empty list. *)
Fixpoint split (sep : ascii) (s : string) : list string :=
  match s with
  | EmptyString => [EmptyString]
  | String c s' =>
      if Ascii.eqb c sep then EmptyString :: split sep s'
      else match split sep s' with
           | l :: ls => String c l :: ls
           | [] => [String c EmptyString]
           end
  end.

Definition newline : ascii := "010"%char.

(** [s.startswith(p)] *)
Definition startswith (s p : string) : bool := String.prefix p s.

(** [s[n:]] *)
Fixpoint drop (n : nat) (s : string) : string :=
  match n, s with
  | O, _ => s
  | S n', String _ s' => drop n' s'
  | S _, EmptyString => EmptyString
  end.

(** [sep.join(l)] *)
Fixpoint join (sep : string) (l : list string) : string :=
  match l with
  | [] => EmptyString
  | [x] => x
  | x :: rest => x ++ sep ++ join sep rest
  end.

(** [str(n)] for a non-negative [int]. *)
Definition str_of_nat (n : nat) : string := NilEmpty.string_of_uint (Nat.to_uint n).

(** [str(z)] for an [int]. *)
Definition str_of_Z (z : Z) : string := NilEmpty.string_of_int (Z.to_int z).

(** [int(s)] on a string of ASCII digits. *)
Fixpoint int_of_digits_acc (acc : N) (s : string) : N :=
  match s with
  | EmptyString => acc
  | String c s' => int_of_digits_acc (acc * 10 + (N_of_ascii c - 48))%N s'
  end.

Definition int_of_digits (s : string) : N := int_of_digits_acc 0%N s.

(** [sys.int_max_str_digits], at its default. *)
Definition max_str_digits : nat := 4300.

(** [int(s)] on a string of ASCII digits: the number, or [None] for
    the [ValueError] raised when [s] has more than
    [sys.int_max_str_digits] digits, leading zeros counted. *)
Definition int_of_str (s : string) : option N :=
  if max_str_digits <? String.length s then None else Some (int_of_digits s).

(** The double quote, written by its code. *)
Definition dquote : ascii := "034"%char.
Definition squote : ascii := "039"%char.
Definition backslash : ascii := "092"%char.

(** Empty or made of whitespace only. *)
Fixpoint is_blank (s : string) : bool :=
  match s with
  | EmptyString => true
  | String c s' => isspace c && is_blank s'
  end.

(** [x in s] for strings: [x] occurs in [s] as a contiguous piece. *)
Definition contains (s x : string) : Prop :=
  exists pre post, s = pre ++ x ++ post.

End Py.

(* ===================================================================== *)
(** ** Regular expressions ([re.match], [re.search]) *)
(* ===================================================================== *)

(** The fragment of Python's [re] syntax used by the program: literals,
    [\s], [\d], bracket sets and their complements, concatenation,
    alternation, [*], [+] and [?].  None of the patterns has a
    back-reference, an anchor or a look-around, so whether [re.match] or
    [re.search] finds a match is membership in the regular language. *)
Module Re.

Inductive cclass : Type :=
  | CChar (c : ascii)            (* a literal character *)
  | CSpace                       (* \s *)
  | CDigit                       (* \d *)
  | CSet (l : list ascii)        (* [...] *)
  | CNotSet (l : list ascii).    (* [^...] *)

Inductive regex : Type :=
  | Void
  | Eps
  | Cls (c : cclass)
  | Cat (r1 r2 : regex)
  | Alt (r1 r2 : regex)
  | Star (r : regex).

(** [r+], [r?], a literal word and a sequence of pieces. *)
Definition Plus (r : regex) : regex := Cat r (Star r).
Definition Opt (r : regex) : regex := Alt r Eps.

Fixpoint Lit (s : string) : regex :=
  match s with
  | EmptyString => Eps
  | String c EmptyString => Cls (CChar c)
  | String c s' => Cat (Cls (CChar c)) (Lit s')
  end.

Fixpoint Seq (l : list regex) : regex :=
  match l with
  | [] => Eps
  | [r] => r
  | r :: rest => Cat r (Seq rest)
  end.

Section Matching.

(** The [re.IGNORECASE] flag of the call. *)
Variable ignorecase : bool.

Definition fold (c : ascii) : ascii := if ignorecase then Py.lower c else c.

Definition cmatch (cl : cclass) (a : ascii) : bool :=
  match cl with
  | CChar c => Ascii.eqb (fold a) (fold c)
  | CSpace => Py.isspace a
  | CDigit => Py.isdigit a
  | CSet l => existsb (fun c => Ascii.eqb (fold a) (fold c)) l
  | CNotSet l => negb (existsb (fun c => Ascii.eqb (fold a) (fold c)) l)
  end.

Fixpoint nullable (r : regex) : bool :=
  match r with
  | Void => false
  | Eps => true
  | Cls _ => false
  | Cat r1 r2 => nullable r1 && nullable r2
  | Alt r1 r2 => nullable r1 || nullable r2
  | Star _ => true
  end.

(** Brzozowski derivative of [r] by the character [a]. *)
Fixpoint deriv (a : ascii) (r : regex) : regex :=
  match r with
  | Void => Void
  | Eps => Void
  | Cls cl => if cmatch cl a then Eps else Void
  | Cat r1 r2 =>
      if nullable r1 then Alt (Cat (deriv a r1) r2) (deriv a r2)
      else Cat (deriv a r1) r2
  | Alt r1 r2 => Alt (deriv a r1) (deriv a r2)
  | Star r1 => Cat (deriv a r1) (Star r1)
  end.

(** [re.fullmatch(r, s) is not None] *)
Fixpoint fullmatch (r : regex) (s : string) : bool :=
  match s with
  | EmptyString => nullable r
  | String a s' => fullmatch (deriv a r) s'
  end.

(** [re.match(r, s) is not None]: some prefix of [s] is matched. *)
Fixpoint match_ (r : regex) (s : string) : bool :=
  nullable r ||
  match s with
  | EmptyString => false
  | String a s' => match_ (deriv a r) s'
  end.

(** [re.search(r, s) is not None]: a match starts at some position. *)
Fixpoint search (r : regex) (s : string) : bool :=
  match_ r s ||
  match s with
  | EmptyString => false
  | String _ s' => search r s'
  end.

(** The language of a pattern. *)
Inductive Matches : regex -> string -> Prop :=
  | MEps : Matches Eps EmptyString
  | MCls cl a : cmatch cl a = true -> Matches (Cls cl) (String a EmptyString)
  | MCat r1 r2 w1 w2 :
      Matches r1 w1 -> Matches r2 w2 -> Matches (Cat r1 r2) (w1 ++ w2)
  | MAltL r1 r2 w : Matches r1 w -> Matches (Alt r1 r2) w
  | MAltR r1 r2 w : Matches r2 w -> Matches (Alt r1 r2) w
  | MStar0 r : Matches (Star r) EmptyString
  | MStarS r w1 w2 :
      Matches r w1 -> Matches (Star r) w2 -> Matches (Star r) (w1 ++ w2).

End Matching.

End Re.

(* ===================================================================== *)
(** ** [patch_utils.PatchParser] *)
(* ===================================================================== *)

Module PatchParser.

Inductive line_type : Type := addition | deletion | context.

(** [{"type": ..., "content": ...}] *)
Record diff_line : Type := mk_line {
  l_type : line_type;
  l_content : string
}.

(** The dictionary returned by [_parse_chunk_header]. *)
Record chunk_info : Type := mk_chunk_info {
  ci_old_start : N;
  ci_old_count : N;
  ci_new_start : N;
  ci_new_count : N
}.

Record chunk : Type := mk_chunk {
  header : string;
  old_start : N;
  old_count : N;
  new_start : N;
  new_count : N;
  lines : list diff_line
}.

Record file_diff : Type := mk_file {
  old_path : string;
  new_path : option string;
  chunks : list chunk;
  additions : nat;
  deletions : nat
}.

Record parsed_diff : Type := mk_parsed {
  files : list file_diff;
  total_additions : nat;
  total_deletions : nat;
  total_files : nat
}.

(** The pattern [@@ -(\d+)(?:,(\d+))? \+(\d+)(?:,(\d+))? @@]; the groups
    do not change which strings are matched. *)
Definition chunk_header_re : Re.regex :=
  Re.Seq [ Re.Lit "@@ -"; Re.Plus (Re.Cls Re.CDigit);
           Re.Opt (Re.Cat (Re.Lit ",") (Re.Plus (Re.Cls Re.CDigit)));
           Re.Lit " +"; Re.Plus (Re.Cls Re.CDigit);
           Re.Opt (Re.Cat (Re.Lit ",") (Re.Plus (Re.Cls Re.CDigit)));
           Re.Lit " @@" ].

(** Reading the groups of that pattern.  Every [\d+] is followed in the
    pattern by a character that is not a digit, so a match takes the
    longest run of digits and the groups are determined by one pass. *)
Fixpoint eat (p s : string) : option string :=
  match p with
  | EmptyString => Some s
  | String c p' =>
      match s with
      | String d s' => if Ascii.eqb c d then eat p' s' else None
      | EmptyString => None
      end
  end.

Fixpoint digits (s : string) : string * string :=
  match s with
  | String c s' =>
      if Py.isdigit c then let (d, r) := digits s' in (String c d, r)
      else (EmptyString, s)
  | EmptyString => (EmptyString, EmptyString)
  end.

(** [(\d+)] *)
Definition number (s : string) : option (string * string) :=
  match digits s with
  | (EmptyString, _) => None
  | (d, r) => Some (d, r)
  end.

(** [(?:,(\d+))?] : the group, when it takes part in the match. *)
Definition opt_count (s : string) : option string * string :=
  match eat "," s with
  | Some r =>
      match number r with
      | Some (d, r') => (Some d, r')
      | None => (None, s)
      end
  | None => (None, s)
  end.

(** [int(match.group(k)) if match.group(k) else 1] *)
Definition count_of (g : option string) : option N :=
  match g with
  | Some d => Py.int_of_str d
  | None => Some 1%N
  end.

Definition _parse_chunk_header (header : string) : option chunk_info :=
  match eat "@@ -" header with
  | None => None
  | Some r1 =>
  match number r1 with
  | None => None
  | Some (g1, r2) =>
  let (g2, r3) := opt_count r2 in
  match eat " +" r3 with
  | None => None
  | Some r4 =>
  match number r4 with
  | None => None
  | Some (g3, r5) =>
  let (g4, r6) := opt_count r5 in
  match eat " @@" r6 with
  | None => None
  | Some _ =>
      match Py.int_of_str g1, count_of g2, Py.int_of_str g3, count_of g4 with
      | Some a, Some b, Some c, Some d =>
          Some {| ci_old_start := a; ci_old_count := b;
                  ci_new_start := c; ci_new_count := d |}
      | _, _, _, _ => None                       (* ValueError, caught *)
      end
  end end end end end.

(** [l[-1] = f(l[-1])] on a non-empty list. *)
Fixpoint update_last {A : Type} (f : A -> A) (l : list A) : list A :=
  match l with
  | [] => []
  | [x] => [f x]
  | x :: rest => x :: update_last f rest
  end.

Definition append_line (dl : diff_line) (c : chunk) : chunk :=
  {| header := header c; old_start := old_start c; old_count := old_count c;
     new_start := new_start c; new_count := new_count c;
     lines := lines c ++ [dl] |}.

(** The loop state: [parsed] (without [total_files], set after the loop)
    and [current_file]. *)
Record loop_state : Type := mk_state {
  st_files : list file_diff;
  st_additions : nat;
  st_deletions : nat;
  current_file : option file_diff
}.

Definition flush (st : loop_state) : list file_diff :=
  match current_file st with
  | Some f => st_files st ++ [f]
  | None => st_files st
  end.

(** One iteration of [for line in lines]. *)
Definition parse_line (st : loop_state) (line : string) : loop_state :=
  if Py.startswith line "--- a/" then
    {| st_files := flush st;
       st_additions := st_additions st; st_deletions := st_deletions st;
       current_file := Some {| old_path := Py.drop 6 line; new_path := None;
                               chunks := []; additions := 0; deletions := 0 |} |}
  else if Py.startswith line "+++ b/" then
    match current_file st with
    | Some f =>
        {| st_files := st_files st;
           st_additions := st_additions st; st_deletions := st_deletions st;
           current_file := Some {| old_path := old_path f;
                                   new_path := Some (Py.drop 6 line);
                                   chunks := chunks f;
                                   additions := additions f;
                                   deletions := deletions f |} |}
    | None => st
    end
  else if Py.startswith line "@@" then
    match current_file st, _parse_chunk_header line with
    | Some f, Some ci =>
        {| st_files := st_files st;
           st_additions := st_additions st; st_deletions := st_deletions st;
           current_file :=
             Some {| old_path := old_path f; new_path := new_path f;
                     chunks := chunks f ++
                       [ {| header := line;
                            old_start := ci_old_start ci;
                            old_count := ci_old_count ci;
                            new_start := ci_new_start ci;
                            new_count := ci_new_count ci;
                            lines := [] |} ];
                     additions := additions f;
                     deletions := deletions f |} |}
    | _, _ => st
    end
  else
    match current_file st with
    | Some f =>
        match chunks f with
        | [] => st
        | _ :: _ =>
            if Py.startswith line "+" then
              {| st_files := st_files st;
                 st_additions := st_additions st + 1;
                 st_deletions := st_deletions st;
                 current_file :=
                   Some {| old_path := old_path f; new_path := new_path f;
                           chunks := update_last
                                       (append_line (mk_line addition (Py.drop 1 line)))
                                       (chunks f);
                           additions := additions f + 1;
                           deletions := deletions f |} |}
            else if Py.startswith line "-" then
              {| st_files := st_files st;
                 st_additions := st_additions st;
                 st_deletions := st_deletions st + 1;
                 current_file :=
                   Some {| old_path := old_path f; new_path := new_path f;
                           chunks := update_last
                                       (append_line (mk_line deletion (Py.drop 1 line)))
                                       (chunks f);
                           additions := additions f;
                           deletions := deletions f + 1 |} |}
            else
              {| st_files := st_files st;
                 st_additions := st_additions st;
                 st_deletions := st_deletions st;
                 current_file :=
                   Some {| old_path := old_path f; new_path := new_path f;
                           chunks := update_last
                                       (append_line
                                          (mk_line context
                                             (if Py.startswith line " "
                                              then Py.drop 1 line else line)))
                                       (chunks f);
                           additions := additions f;
                           deletions := deletions f |} |}
        end
    | None => st
    end.

Definition initial_state : loop_state :=
  {| st_files := []; st_additions := 0; st_deletions := 0; current_file := None |}.

(** The value of the [except] clause. *)
Definition empty_parsed : parsed_diff :=
  {| files := []; total_additions := 0; total_deletions := 0; total_files := 0 |}.

(** [parse_unified_diff] on a [str]: no statement of the [try] body can
    raise then, so the [except] clause is not taken. *)
Definition parse_unified_diff (diff_content : string) : parsed_diff :=
  let lines := Py.split Py.newline (Py.strip diff_content) in
  let st := fold_left parse_line lines initial_state in
  let fs := flush st in
  {| files := fs;
     total_additions := st_additions st;
     total_deletions := st_deletions st;
     total_files := length fs |}.

(** A chunk keeps the counts its header declares: the lines of the old
    side are its context and deletion lines, those of the new side its
    context and addition lines. *)
Definition count_type (t : line_type) (c : chunk) : nat :=
  length (filter (fun dl => match l_type dl, t with
                            | addition, addition => true
                            | deletion, deletion => true
                            | context, context => true
                            | _, _ => false
                            end) (lines c)).

Definition counts_match (c : chunk) : bool :=
  (N.of_nat (count_type context c + count_type deletion c) =? old_count c)%N &&
  (N.of_nat (count_type context c + count_type addition c) =? new_count c)%N.

Definition all_counts_match (p : parsed_diff) : bool :=
  forallb (fun f => forallb counts_match (chunks f)) (files p).

(** The words of the chunk-header pattern, spelled out: a number is a
    non-empty run of digits, a count is absent or a comma and a number. *)
(** [\d] *)
Definition digit : Re.regex := Re.Cls Re.CDigit.

Fixpoint all_digits (s : string) : bool :=
  match s with
  | EmptyString => true
  | String c s' => Py.isdigit c && all_digits s'
  end.

(** A text that does not go on with a digit. *)
Definition no_digit_ahead (s : string) : Prop :=
  match s with
  | EmptyString => True
  | String c _ => Py.isdigit c = false
  end.

Definition is_number (d : string) : Prop := d <> "" /\ all_digits d = true.

Definition is_count (o : string) : Prop :=
  o = "" \/ exists d, o = ("," ++ d)%string /\ is_number d.

(** The words of the chunk-header pattern. *)
Definition header_word (w d1 o1 d2 o2 : string) : Prop :=
  w = ("@@ -" ++ d1 ++ o1 ++ " +" ++ d2 ++ o2 ++ " @@")%string
  /\ is_number d1 /\ is_count o1 /\ is_number d2 /\ is_count o2.

(** The group of an optional count, when it takes part in the match:
    the count without its comma. *)
Definition group_of (o : string) : option string :=
  match o with
  | EmptyString => None
  | String _ d => Some d
  end.

(** The numbers a chunk records are the ones its header line declares. *)
Definition header_agrees (c : chunk) : Prop :=
  _parse_chunk_header (header c) =
  Some {| ci_old_start := old_start c; ci_old_count := old_count c;
          ci_new_start := new_start c; ci_new_count := new_count c |}.

Definition file_agrees (f : file_diff) : Prop := Forall header_agrees (chunks f).

Definition state_agrees (st : loop_state) : Prop :=
  Forall file_agrees (st_files st) /\
  match current_file st with
  | Some f => file_agrees f
  | None => True
  end.

End PatchParser.

(* ===================================================================== *)
(** ** [patch_utils.PatchValidator] and [is_safe_patch] *)
(* ===================================================================== *)

(** An argument that is a [str], or [None]: a value on which the string
    operations of the validators raise, which is how their [except]
    clauses are reached. *)
Inductive pyobj : Type :=
  | PyStr (s : string)
  | PyNone.

Module PatchValidator.

(** An entry of [issues] or [warnings]; [i_pattern] is absent from the
    entries that are not produced by a pattern. *)
Record issue : Type := mk_issue {
  i_type : string;
  i_pattern : option string;
  i_description : string
}.

Record safety_result : Type := mk_safety {
  is_safe : bool;
  safety_score : float;
  issues : list issue;
  warnings : list issue;
  recommendation : string
}.

(** [{"valid": True, "format": ...}] or [{"valid": False, "error": ...}] *)
Inductive format_result : Type :=
  | FormatOk (format : string)
  | FormatError (error : string).

Definition valid (r : format_result) : bool :=
  match r with
  | FormatOk _ => true
  | FormatError _ => false
  end.

Definition sp : Re.regex := Re.Cls Re.CSpace.
Definition quote : Re.regex := Re.Cls (Re.CSet [Py.squote; Py.dquote]).
Definition not_quote : Re.regex := Re.Cls (Re.CNotSet [Py.squote; Py.dquote]).
Definition dq : string := String Py.dquote EmptyString.

(** The tail shared by three patterns: optional blanks, [=], optional
    blanks, and a non-empty run of non-quote characters between two
    quote characters (single or double). *)
Definition assigned_literal : list Re.regex :=
  [ Re.Star sp; Re.Lit "="; Re.Star sp; quote; Re.Plus not_quote; quote ].

(** Each entry: the pattern as written, the pattern as parsed, and the
    description. *)
Definition dangerous_patterns : list (string * Re.regex * string) :=
  [ ("rm\s+-rf", Re.Seq [Re.Lit "rm"; Re.Plus sp; Re.Lit "-rf"],
     "Dangerous file deletion command");
    ("sudo\s+", Re.Seq [Re.Lit "sudo"; Re.Plus sp],
     "Elevated privilege command");
    ("eval\s*\(", Re.Seq [Re.Lit "eval"; Re.Star sp; Re.Lit "("],
     "Dynamic code execution");
    ("exec\s*\(", Re.Seq [Re.Lit "exec"; Re.Star sp; Re.Lit "("],
     "Dynamic code execution");
    ("__import__", Re.Lit "__import__", "Dynamic import");
    ("open\s*\([\'" ++ dq ++ "][\/\\]",
     Re.Seq [Re.Lit "open"; Re.Star sp; Re.Lit "("; quote;
             Re.Cls (Re.CSet ["/"%char; Py.backslash])],
     "Absolute path file access");
    ("os\.system", Re.Lit "os.system", "System command execution");
    ("subprocess\.", Re.Lit "subprocess.", "Subprocess execution");
    ("shell=True", Re.Lit "shell=True", "Shell command injection risk") ].

Definition mistake_patterns : list (string * Re.regex * string) :=
  [ ("password\s*=\s*[\'" ++ dq ++ "][^\'" ++ dq ++ "]+[\'" ++ dq ++ "]",
     Re.Seq (Re.Lit "password" :: assigned_literal), "Hardcoded password");
    ("api_?key\s*=\s*[\'" ++ dq ++ "][^\'" ++ dq ++ "]+[\'" ++ dq ++ "]",
     Re.Seq (Re.Lit "api" :: Re.Opt (Re.Lit "_") :: Re.Lit "key" :: assigned_literal),
     "Hardcoded API key");
    ("secret\s*=\s*[\'" ++ dq ++ "][^\'" ++ dq ++ "]+[\'" ++ dq ++ "]",
     Re.Seq (Re.Lit "secret" :: assigned_literal), "Hardcoded secret");
    ("TODO|FIXME|HACK",
     Re.Alt (Re.Lit "TODO") (Re.Alt (Re.Lit "FIXME") (Re.Lit "HACK")),
     "TODO/FIXME comments");
    ("console\.log|print\s*\(",
     Re.Alt (Re.Lit "console.log") (Re.Seq [Re.Lit "print"; Re.Star sp; Re.Lit "("]),
     "Debug statements") ].

(** [for pattern, description in patterns:
       if re.search(pattern, patch_content, re.IGNORECASE): out.append(...)] *)
Fixpoint scan (kind : string) (patterns : list (string * Re.regex * string))
    (patch_content : string) : list issue :=
  match patterns with
  | [] => []
  | (pattern, r, description) :: rest =>
      if Re.search true r patch_content
      then {| i_type := kind; i_pattern := Some pattern;
              i_description := description |} :: scan kind rest patch_content
      else scan kind rest patch_content
  end.

(** [len(l)] as the [float] it becomes in a product with a [float]. *)
Definition float_of_len (n : nat) : float :=
  PrimFloat.of_uint63 (Uint63.of_Z (Z.of_nat n)).

(** [max(0.0, x)]: the second argument when it is greater, else the first. *)
Definition max0 (x : float) : float :=
  if PrimFloat.ltb 0%float x then x else 0%float.

(** [1.0 - (len(issues) * 0.3 + len(warnings) * 0.1)], then [max(0.0, _)]. *)
Definition score (n_issues n_warnings : nat) : float :=
  max0 (PrimFloat.sub 1%float
          (PrimFloat.add (PrimFloat.mul (float_of_len n_issues) 0.3%float)
                         (PrimFloat.mul (float_of_len n_warnings) 0.1%float))).

(** [str(e)] of the [TypeError] that [re.search] raises on [None]. *)
Definition search_type_error : string :=
  "expected string or bytes-like object, got 'NoneType'".

Definition validate_patch_safety (patch_content : pyobj) : safety_result :=
  match patch_content with
  | PyStr text =>
      let issues := scan "security" dangerous_patterns text in
      let warnings := scan "quality" mistake_patterns text in
      {| is_safe := length issues =? 0;
         safety_score := score (length issues) (length warnings);
         issues := issues;
         warnings := warnings;
         recommendation :=
           if length issues =? 0 then "safe" else "review_required" |}
  | PyNone =>
      {| is_safe := false;
         safety_score := 0%float;
         issues := [ {| i_type := "validation_error"; i_pattern := None;
                        i_description := search_type_error |} ];
         warnings := [];
         recommendation := "reject" |}
  end.

(** The pattern [@@ -\d+(?:,\d+)? \+\d+(?:,\d+)? @@] of the format check. *)
Definition chunk_header_re : Re.regex :=
  Re.Seq [ Re.Lit "@@ -"; Re.Plus (Re.Cls Re.CDigit);
           Re.Opt (Re.Cat (Re.Lit ",") (Re.Plus (Re.Cls Re.CDigit)));
           Re.Lit " +"; Re.Plus (Re.Cls Re.CDigit);
           Re.Opt (Re.Cat (Re.Lit ",") (Re.Plus (Re.Cls Re.CDigit)));
           Re.Lit " @@" ].

Definition chunk_error (i : nat) (line : string) : string :=
  "Invalid chunk header at line " ++ Py.str_of_nat (i + 1) ++ ": " ++ line.

(** [for i, line in enumerate(lines)], from index [i] on. *)
Fixpoint chunk_errors (i : nat) (lines : list string) : list string :=
  match lines with
  | [] => []
  | line :: rest =>
      if Py.startswith line "@@" then
        if negb (Re.match_ false chunk_header_re line)
        then chunk_error i line :: chunk_errors (S i) rest
        else chunk_errors (S i) rest
      else chunk_errors (S i) rest
  end.

(** [str(e)] of the [AttributeError] raised by [None.strip()]. *)
Definition strip_attribute_error : string :=
  "'NoneType' object has no attribute 'strip'".

Definition validate_patch_format (patch_content : pyobj) : format_result :=
  match patch_content with
  | PyStr text =>
      match Py.strip text with
      | EmptyString => FormatError "Empty patch content"
      | _ =>
          let lines := Py.split Py.newline (Py.strip text) in
          let has_file_headers := existsb (fun line => Py.startswith line "--- ") lines in
          let has_chunk_headers := existsb (fun line => Py.startswith line "@@") lines in
          if negb (has_file_headers && has_chunk_headers)
          then FormatError "Invalid diff format"
          else
            match chunk_errors 0 lines with
            | [] => FormatOk "unified_diff"
            | errs => FormatError ("Invalid chunk headers: " ++ Py.join "; " errs)
            end
      end
  | PyNone => FormatError strip_attribute_error
  end.

End PatchValidator.

(** [return validation["is_safe"] and validation["safety_score"] > 0.7] *)
Definition is_safe_patch (patch_content : pyobj) : bool :=
  let validation := PatchValidator.validate_patch_safety patch_content in
  PatchValidator.is_safe validation &&
  PrimFloat.ltb 0.7%float (PatchValidator.safety_score validation).

(* ===================================================================== *)
(** ** The scoring formula over the rationals *)
(* ===================================================================== *)

(** The specification gives the safety score as
    max(0, 1 - 0.3 * |issues| - 0.1 * |warnings|), a formula over the
    reals.  [spec_score] is that formula, to be compared with the
    binary64 value [PatchValidator.score] computed by the program. *)
Module Exact.

Definition spec_score (n_issues n_warnings : nat) : Q :=
  Qmax 0 (1 - (3 # 10) * inject_Z (Z.of_nat n_issues)
            - (1 # 10) * inject_Z (Z.of_nat n_warnings)).

(** The rational number a finite [float] stands for. *)
Definition Q_of_float (f : float) : option Q :=
  match Prim2SF f with
  | S754_zero _ => Some 0%Q
  | S754_finite s m e =>
      Some ((if s then -1 else 1) * inject_Z (Zpos m) * Qpower 2 e)%Q
  | S754_infinity _ | S754_nan => None
  end.

(** 2^-50 *)
Definition tolerance : Q := 1 # 1125899906842624.

Definition score_is_close (n_issues n_warnings : nat) : bool :=
  match Q_of_float (PatchValidator.score n_issues n_warnings) with
  | Some q => Qle_bool (Qabs (q - spec_score n_issues n_warnings)) tolerance
  | None => false
  end.

End Exact.

(* ===================================================================== *)
(** ** Records read by the services *)
(* ===================================================================== *)

Inductive RepositoryProvider : Type := GITHUB | GITLAB | BITBUCKET.

Inductive ProposalStatus : Type :=
  | PENDING | VALIDATING | APPLYING | APPLIED | REJECTED | FAILED | PR_CREATED.

Definition ProposalStatus_eqb (a b : ProposalStatus) : bool :=
  match a, b with
  | PENDING, PENDING | VALIDATING, VALIDATING | APPLYING, APPLYING
  | APPLIED, APPLIED | REJECTED, REJECTED | FAILED, FAILED
  | PR_CREATED, PR_CREATED => true
  | _, _ => false
  end.

(** Reading an attribute of an object: its value, or the
    [AttributeError] raised when the object has no such attribute,
    given by [str(e)]. *)
Inductive attr (A : Type) : Type :=
  | Has (a : A)
  | NoAttribute (e : string).

Arguments Has {A} a.
Arguments NoAttribute {A} e.

(** The attributes that the modelled functions read of the objects
    they are given.  [models/repository.py] and [models/proposal.py]
    declare the ones of [Repository] and [Proposal], [models/user.py]
    declares [id] and [email].  The functions also read
    [user.display_name], [user.github_access_token],
    [user.gitlab_access_token] and [finding.analysis.repository], which
    [models/user.py] and [models/analysis.py] do not declare: on an
    object of the declared class such a read raises. *)
Record Repository : Type := mk_repository {
  provider : RepositoryProvider;
  full_name : string;
  default_branch : string
}.

Record User : Type := mk_user {
  user_id : Z;
  email : string;
  display_name : attr (option string);
  github_access_token : attr (option string);
  gitlab_access_token : attr (option string)
}.

Record Finding : Type := mk_finding {
  finding_id : Z;
  repository : attr Repository       (* finding.analysis.repository *)
}.

Record Proposal : Type := mk_proposal {
  id : Z;
  title : string;
  description : string;
  patch_diff : string;
  confidence_score : float;
  status : ProposalStatus;
  finding : Finding
}.

(** [str(e)] of the [AttributeError] for a missing attribute. *)
Definition no_attribute (class_name attribute : string) : string :=
  "'" ++ class_name ++ "' object has no attribute '" ++ attribute ++ "'".


Definition declared_finding (f : Finding) : Prop :=
  repository f = NoAttribute (no_attribute "Analysis" "repository").

(* ===================================================================== *)
(** ** The outside world: processes, files, database, HTTP *)
(* ===================================================================== *)

(** What the [try] body of [_run_git_command] ends with: the process
    ran to completion, [asyncio.TimeoutError] was raised, or another
    exception [e] was raised, given by [str(e)]. *)
Inductive process_outcome : Type :=
  | Completed (returncode : Z) (stdout stderr : string)
  | RaisedTimeoutError
  | RaisedException (msg : string).

(** The JSON body sent to the hosting provider for a pull request. *)
Record pr_data : Type := mk_pr_data {
  pr_title : string;
  pr_body : string;
  pr_head : string;
  pr_base : string
}.

Record http_response : Type := mk_http_response {
  resp_status : nat;
  resp_html_url : option string;
  resp_number : option Z
}.

(** Everything the services ask of the outside, in the order they ask
    it.  A git command, a file operation, the removal of a tree and a
    request to the provider are recorded when they are called, whether
    or not they succeed; a database update and a commit are recorded
    when they went through. *)
Inductive event : Type :=
  | EvGit (cmd : list string) (cwd : option string) (timeout : Z)
  | EvWriteFile (path content : string)
  | EvRemoveFile (path : string)
  | EvRmtree (path : string)
  | EvDbUpdate (proposal_id : Z) (new_status : ProposalStatus)
               (applied_at : option string) (applied_by : option Z)
               (commit_sha : option string)
  | EvDbCommit
  | EvHttpPost (url : string) (token : option string) (data : pr_data).

(** The answers of the outside world; each may depend on what has
    happened so far.  Where an operation can raise, the answer is the
    exception, given by [str(e)], or what the operation returns. *)
Record world : Type := mk_world {
  work_dir : string;
  subprocess : list event -> list string -> option string -> Z -> process_outcome;
  uuid4_prefix : list event -> string;        (* str(uuid.uuid4())[:8] *)
  path_exists : list event -> string -> bool; (* os.path.exists *)
  (* [with open(path, 'w') as f: f.write(content)]: the exception, if any *)
  write_file : list event -> string -> string -> option string;
  (* [os.remove(path)]: the exception, if any *)
  remove_file : list event -> string -> option string;
  (* [await db.execute(...)] and [await db.commit()]: the exception, if any *)
  db_execute : list event -> option string;
  db_commit : list event -> option string;
  utcnow_isoformat : list event -> string;
  (* the [async with] block of the request: the exception, or the answer *)
  http_post : list event -> string -> option string -> pr_data -> string + http_response;
  (* [urlparse(url).path], or the [ValueError] of [urlparse] *)
  urlparse_path : string -> string + string;
  float_str : float -> string;                (* format(x, '') *)
  float_2f : float -> string;                 (* format(x, '.2f') *)
  (* the description built from the proposal, or the exception *)
  pr_description : Proposal -> string + string;
  (* [ProposalService()] and [GitHubService()]: the exception, if any *)
  services_start : list event -> option string;
  (* [ProposalResponse.from_orm(proposal)]: the exception, if any *)
  from_orm : Proposal -> option string
}.

(** Computations that act on the world: the events that happened before
    go in; the result and the events of the computation itself, in
    order, come out. *)
Definition M (A : Type) : Type := list event -> A * list event.

Definition ret {A : Type} (a : A) : M A := fun _ => (a, []).

Definition bind {A B : Type} (m : M A) (k : A -> M B) : M B :=
  fun h =>
    let (a, d1) := m h in
    let (b, d2) := k a (h ++ d1)%list in
    (b, (d1 ++ d2)%list).

Notation "x <- m ;; k" := (bind m (fun x => k))
  (at level 61, m at next level, right associativity).
Notation "m ;;; k" := (bind m (fun _ => k))
  (at level 61, right associativity).

(** Do something to the world. *)
Definition emit (e : event) : M unit := fun _ => (tt, [e]).

(** Read an answer of the world. *)
Definition ask {A : Type} (f : list event -> A) : M A := fun h => (f h, []).






(** More of Python. *)
Module PyMore.

(** [a or b] on optional strings. *)
Definition or_else (a b : option string) : option string :=
  match a with
  | Some (String _ _) => a
  | _ => b
  end.

(** An optional string inside an f-string. *)
Definition fmt (o : option string) : string :=
  match o with
  | Some s => s
  | None => "None"
  end.

(** [os.path.join(a, b)] for a relative [b] and an [a] without a
    trailing separator. *)
Definition path_join (a b : string) : string := a ++ "/" ++ b.

(** [s.replace(old, new)] for a non-empty [old]; [skip] characters of
    an occurrence already replaced are passed over. *)
Fixpoint replace_from (skip : nat) (old new s : string) : string :=
  match s with
  | EmptyString => EmptyString
  | String c s' =>
      match skip with
      | S k => replace_from k old new s'
      | O =>
          if String.prefix old s
          then new ++ replace_from (String.length old - 1) old new s'
          else String c (replace_from 0 old new s')
      end
  end.

Definition replace (s old new : string) : string := replace_from 0 old new s.

(** The emoji U+1F527 as git and the provider receive it, in UTF-8. *)
Definition wrench : string :=
  String "240"%char (String "159"%char (String "148"%char (String "167"%char EmptyString))).

Definition nl : string := String Py.newline EmptyString.

End PyMore.

(* ===================================================================== *)
(** ** [git_operations.GitOperationsService] *)
(* ===================================================================== *)

Module GitOperationsService.

(** The dictionary returned by [_run_git_command]. *)
Record git_result : Type := mk_git_result {
  success : bool;
  output : string;
  error : string;
  returncode : Z
}.

Definition timeout_error (timeout : Z) : string :=
  "Command timed out after " ++ Py.str_of_Z timeout ++ " seconds".

(** The default of the [timeout] parameter. *)
Definition default_timeout : Z := 30.

Inductive patch_result : Type :=
  | PatchApplied (backup_path : string)
  | PatchFailed (error : string).

Inductive commit_result : Type :=
  | Committed (commit_sha : option string)
  | CommitFailed (error : string).

Inductive push_result : Type :=
  | Pushed
  | PushFailed (error : string).

Section Service.

Variable W : world.

(** The dictionary built from what the [try] body of
    [_run_git_command] ended with. *)
Definition result_of (o : process_outcome) (timeout : Z) : git_result :=
  match o with
  | Completed rc out err =>
      {| success := Z.eqb rc 0; output := out; error := err; returncode := rc |}
  | RaisedTimeoutError =>
      {| success := false; output := ""; error := timeout_error timeout;
         returncode := (-1)%Z |}
  | RaisedException msg =>
      {| success := false; output := ""; error := msg; returncode := (-1)%Z |}
  end.

(** [_run_git_command]: [timeout] is handed to
    [asyncio.create_subprocess_exec] as a keyword and is otherwise only
    used in the message of the [asyncio.TimeoutError] handler. *)
Definition _run_git_command (cmd : list string) (cwd : option string)
    (timeout : Z) : M git_result :=
  o <- ask (fun h => subprocess W h cmd cwd timeout) ;;
  emit (EvGit cmd cwd timeout) ;;;
  ret (result_of o timeout).

Definition _prepare_clone_url (repository : Repository)
    (access_token : option string) : string :=
  match provider repository with
  | GITHUB =>
      "https://" ++ PyMore.fmt access_token ++ "@github.com/"
        ++ PyMore.replace (full_name repository) "github.com/" "" ++ ".git"
  | GITLAB =>
      "https://oauth2:" ++ PyMore.fmt access_token ++ "@gitlab.com/"
        ++ PyMore.replace (full_name repository) "gitlab.com/" "" ++ ".git"
  | BITBUCKET => full_name repository
  end.

(** [clone_repository]: the path of the clone, or [None]. *)
Definition clone_repository (repository : Repository) (branch : string)
    (access_token : option string) : M (option string) :=
  repo_id <- ask (uuid4_prefix W) ;;
  let clone_path := PyMore.path_join (work_dir W) ("repo_" ++ repo_id) in
  let clone_url := _prepare_clone_url repository access_token in
  let cmd := (["git"; "clone"]
              ++ (match branch with
                  | EmptyString => []
                  | _ => ["--branch"; branch]
                  end)
              ++ ["--depth"; "1"; clone_url; clone_path])%list in
  result <- _run_git_command cmd None default_timeout ;;
  ret (if success result then Some clone_path else None).

Definition create_branch (repo_path branch_name base_branch : string) : M bool :=
  checkout_result <- _run_git_command ["git"; "checkout"; base_branch]
                       (Some repo_path) default_timeout ;;
  if negb (success checkout_result) then ret false
  else
    branch_result <- _run_git_command ["git"; "checkout"; "-b"; branch_name]
                       (Some repo_path) default_timeout ;;
    ret (success branch_result).

(** Writing and removing a file; the result is the exception raised,
    if any. *)
Definition write (path content : string) : M (option string) :=
  raised <- ask (fun h => write_file W h path content) ;;
  emit (EvWriteFile path content) ;;;
  ret raised.

Definition remove (path : string) : M (option string) :=
  raised <- ask (fun h => remove_file W h path) ;;
  emit (EvRemoveFile path) ;;;
  ret raised.

(** [_validate_patch]: [(valid, error)] of the dry run; an exception
    of the file operations gives [(False, str(e))]. *)
Definition _validate_patch (repo_path patch_content : string)
    : M (bool * option string) :=
  let patch_file := PyMore.path_join repo_path "validate_patch.diff" in
  written <- write patch_file patch_content ;;
  match written with
  | Some e => ret (false, Some e)
  | None =>
      result <- _run_git_command ["git"; "apply"; "--check"; "validate_patch.diff"]
                  (Some repo_path) default_timeout ;;
      removed <- remove patch_file ;;
      match removed with
      | Some e => ret (false, Some e)
      | None =>
          ret (success result,
               if negb (success result) then Some (error result) else None)
      end
  end.

(** [_create_backup]: the stash command's result is not looked at; the
    returned [backup_path] names a directory that is never written. *)
Definition _create_backup (repo_path : string) : M (bool * string) :=
  backup_id <- ask (uuid4_prefix W) ;;
  let backup_path := PyMore.path_join (work_dir W) ("backup_" ++ backup_id) in
  _run_git_command ["git"; "stash"; "push"; "-m"; "refactoriq_backup_" ++ backup_id]
    (Some repo_path) default_timeout ;;;
  ret (true, backup_path).

(** [_rollback_from_backup]: a hard reset; [backup_path] is not used. *)
Definition _rollback_from_backup (repo_path backup_path : string) : M bool :=
  reset_result <- _run_git_command ["git"; "reset"; "--hard"; "HEAD"]
                    (Some repo_path) default_timeout ;;
  ret (success reset_result).

(** [apply_patch].  An exception of the file operations ends the
    function in its [except] clause, with [str(e)] as the error and
    without the rollback. *)
Definition apply_patch (repo_path patch_content : string) (validate : bool)
    : M patch_result :=
  v <- (if validate then _validate_patch repo_path patch_content
        else ret (true, None)) ;;
  if negb (fst v) then ret (PatchFailed ("Invalid patch: " ++ PyMore.fmt (snd v)))
  else
    backup_result <- _create_backup repo_path ;;
    if negb (fst backup_result) then ret (PatchFailed "Failed to create backup")
    else
      let patch_file := PyMore.path_join repo_path "temp_patch.diff" in
      written <- write patch_file patch_content ;;
      match written with
      | Some e => ret (PatchFailed e)
      | None =>
          apply_result <- _run_git_command
                            ["git"; "apply"; "--index"; "temp_patch.diff"]
                            (Some repo_path) default_timeout ;;
          removed <- remove patch_file ;;
          match removed with
          | Some e => ret (PatchFailed e)
          | None =>
              if success apply_result then ret (PatchApplied (snd backup_result))
              else
                _rollback_from_backup repo_path (snd backup_result) ;;;
                ret (PatchFailed ("Failed to apply patch: " ++ error apply_result))
          end
      end.

Definition commit_changes (repo_path commit_message author_name author_email : string)
    : M commit_result :=
  _run_git_command ["git"; "config"; "user.name"; author_name]
    (Some repo_path) default_timeout ;;;
  _run_git_command ["git"; "config"; "user.email"; author_email]
    (Some repo_path) default_timeout ;;;
  add_result <- _run_git_command ["git"; "add"; "."] (Some repo_path) default_timeout ;;
  if negb (success add_result) then ret (CommitFailed "Failed to stage changes")
  else
    commit_result <- _run_git_command ["git"; "commit"; "-m"; commit_message]
                       (Some repo_path) default_timeout ;;
    if success commit_result then
      sha_result <- _run_git_command ["git"; "rev-parse"; "HEAD"]
                      (Some repo_path) default_timeout ;;
      ret (Committed (if success sha_result
                      then Some (Py.strip (output sha_result)) else None))
    else ret (CommitFailed (error commit_result)).

Definition push_branch (repo_path branch_name remote : string) : M push_result :=
  push_result <- _run_git_command ["git"; "push"; "-u"; remote; branch_name]
                   (Some repo_path) default_timeout ;;
  if success push_result then ret Pushed
  else ret (PushFailed (error push_result)).

(** [cleanup_repository]: an exception of [shutil.rmtree] is logged
    and nothing else. *)
Definition cleanup_repository (repo_path : string) : M unit :=
  present <- ask (fun h => path_exists W h repo_path) ;;
  if present then emit (EvRmtree repo_path) else ret tt.

End Service.

End GitOperationsService.

(* ===================================================================== *)
(** ** [proposal_service.ProposalService] *)
(* ===================================================================== *)

Module ProposalService.

Import PatchValidator.

(** The dictionary returned by [validate_proposal_safety]. *)
Record proposal_validation : Type := mk_validation {
  v_is_safe : bool;
  v_confidence_score : float;
  v_safety_score : float;
  v_issues : list issue;
  v_warnings : list issue
}.

(** The threshold of the confidence check. *)
Definition confidence_threshold : float := 0.7%float.

Inductive direct_result : Type :=
  | DirectApplied (commit_sha : option string) (message : string)
  | DirectFailed (error : string) (issues : option (list issue)).

Definition direct_success (r : direct_result) : bool :=
  match r with
  | DirectApplied _ _ => true
  | DirectFailed _ _ => false
  end.

Section Service.

Variable W : world.

(** [validate_proposal_safety].  [patch_diff] is a [str] and
    [confidence_score] a [float], so nothing in the [try] body raises. *)
Definition validate_proposal_safety (proposal : Proposal) : proposal_validation :=
  let safety_result := validate_patch_safety (PyStr (patch_diff proposal)) in
  let format_result := validate_patch_format (PyStr (patch_diff proposal)) in
  let confidence_check :=
    PrimFloat.leb confidence_threshold (confidence_score proposal) in
  let is_safe' := is_safe safety_result && valid format_result && confidence_check in
  let issues1 := if negb (is_safe safety_result) then issues safety_result else [] in
  let issues2 :=
    match format_result with
    | FormatError err =>
        [ {| i_type := "format"; i_pattern := None; i_description := err |} ]
    | FormatOk _ => []
    end in
  let issues3 :=
    if negb confidence_check
    then [ {| i_type := "confidence"; i_pattern := None;
              i_description := "Low confidence score: "
                               ++ float_str W (confidence_score proposal) |} ]
    else [] in
  {| v_is_safe := is_safe';
     v_confidence_score := confidence_score proposal;
     v_safety_score := safety_score safety_result;
     v_issues := (issues1 ++ issues2 ++ issues3)%list;
     v_warnings := warnings safety_result |}.

Definition direct_commit_message (proposal : Proposal) : string :=
  "Fix: " ++ title proposal ++ PyMore.nl ++ PyMore.nl
  ++ "Applied RefactorIQ proposal #" ++ Py.str_of_Z (id proposal) ++ PyMore.nl
  ++ description proposal.

(** [user.github_access_token or user.gitlab_access_token]: the second
    attribute is read only when the first is empty or [None]. *)
Definition access_token (user : User) : string + option string :=
  match github_access_token user with
  | NoAttribute e => inl e
  | Has (Some (String c s)) => inr (Some (String c s))
  | Has _ =>
      match gitlab_access_token user with
      | NoAttribute e => inl e
      | Has token => inr token
      end
  end.

(** [user.display_name or fallback] *)
Definition name_or (user : User) (fallback : string) : string + string :=
  match display_name user with
  | NoAttribute e => inl e
  | Has (Some (String c s)) => inr (String c s)
  | Has _ => inr fallback
  end.

(** The update of the status after the push: [db.execute] and
    [db.commit], either of which may raise. *)
Definition record_applied (proposal : Proposal) (user : User)
    (sha : option string) : M direct_result :=
  now <- ask (utcnow_isoformat W) ;;
  executed <- ask (db_execute W) ;;
  match executed with
  | Some e => ret (DirectFailed e None)
  | None =>
      emit (EvDbUpdate (id proposal) APPLIED (Some now) (Some (user_id user)) sha) ;;;
      committed <- ask (db_commit W) ;;
      match committed with
      | Some e => ret (DirectFailed e None)
      | None =>
          emit EvDbCommit ;;;
          ret (DirectApplied sha "Proposal applied successfully")
      end
  end.

(** [apply_proposal_direct].  The statements after the clone are the
    body of [try: ... finally: cleanup_repository(repo_path)]; an
    exception anywhere ends in the outer [except] clause, which returns
    the failure with [str(e)], after the cleanup when the clone was
    made. *)
Definition apply_proposal_direct (proposal : Proposal) (user : User)
    : M direct_result :=
  let validation_result := validate_proposal_safety proposal in
  if negb (v_is_safe validation_result) then
    ret (DirectFailed "Proposal failed safety validation"
                      (Some (v_issues validation_result)))
  else
    match repository (finding proposal) with
    | NoAttribute e => ret (DirectFailed e None)
    | Has repository =>
    match access_token user with
    | inl e => ret (DirectFailed e None)
    | inr token =>
    cloned <- GitOperationsService.clone_repository W repository
                (default_branch repository) token ;;
    match cloned with
    | None => ret (DirectFailed "Failed to clone repository" None)
    | Some repo_path =>
        result <-
          (patch_result <- GitOperationsService.apply_patch W repo_path
                             (patch_diff proposal) true ;;
           match patch_result with
           | GitOperationsService.PatchFailed err => ret (DirectFailed err None)
           | GitOperationsService.PatchApplied _ =>
               match name_or user (email user) with
               | inl e => ret (DirectFailed e None)
               | inr author_name =>
               commit_result <- GitOperationsService.commit_changes W repo_path
                                  (direct_commit_message proposal)
                                  author_name (email user) ;;
               match commit_result with
               | GitOperationsService.CommitFailed err => ret (DirectFailed err None)
               | GitOperationsService.Committed sha =>
                   push_result <- GitOperationsService.push_branch W repo_path
                                    (default_branch repository) "origin" ;;
                   match push_result with
                   | GitOperationsService.Pushed => record_applied proposal user sha
                   | GitOperationsService.PushFailed err =>
                       ret (DirectFailed err None)
                   end
               end
               end
           end) ;;
        GitOperationsService.cleanup_repository W repo_path ;;;
        ret result
    end
    end
    end.

End Service.

End ProposalService.

(* ===================================================================== *)
(** ** [github_service.GitHubService]: the pull-request path *)
(* ===================================================================== *)

Module GitHubService.

Definition api_base : string := "https://api.github.com".

Inductive branch_result : Type :=
  | BranchPushed (branch_name : string) (commit_sha : option string)
  | BranchFailed (error : string).

Inductive pr_result : Type :=
  | PrCreated (pr_url : option string) (pr_number : option Z) (branch_name : string)
  | PrFailed (error : string).

(** [x or "main"] *)
Definition or_main (branch : string) : string :=
  match branch with
  | EmptyString => "main"
  | _ => branch
  end.

(** [s.strip('/')] *)
Fixpoint lstrip_slash (s : string) : string :=
  match s with
  | String "/" s' => lstrip_slash s'
  | _ => s
  end.

Fixpoint rstrip_slash (s : string) : string :=
  match s with
  | EmptyString => EmptyString
  | String c s' =>
      match rstrip_slash s' with
      | EmptyString => if Ascii.eqb c "/" then EmptyString else String c EmptyString
      | t => String c t
      end
  end.

Definition strip_slash (s : string) : string := rstrip_slash (lstrip_slash s).

(** [owner, repo_name = parts[:2]]: the unpacking raises [ValueError]
    when the slice has fewer than two elements. *)
Definition unpack2 (parts : list string) : string + (string * string) :=
  match parts with
  | owner :: repo_name :: _ => inr (owner, repo_name)
  | [_] => inl "not enough values to unpack (expected 2, got 1)"
  | [] => inl "not enough values to unpack (expected 2, got 0)"
  end.

Section Service.

Variable W : world.

Definition pr_commit_message (proposal : Proposal) : string :=
  PyMore.wrench ++ " RefactorIQ Fix: " ++ title proposal ++ PyMore.nl ++ PyMore.nl
  ++ description proposal ++ PyMore.nl ++ PyMore.nl
  ++ "Proposal ID: " ++ Py.str_of_Z (id proposal) ++ PyMore.nl
  ++ "Confidence: " ++ float_2f W (confidence_score proposal).

(** [_create_branch_with_proposal_changes]: clone, branch, apply,
    commit, push; then the clone is removed.  The token is read before
    the clone is called; an exception ends in the [except] clause. *)
Definition _create_branch_with_proposal_changes (repository : Repository)
    (branch_name : string) (proposal : Proposal) (user : User) : M branch_result :=
  match github_access_token user with
  | NoAttribute e => ret (BranchFailed e)
  | Has token =>
  cloned <- GitOperationsService.clone_repository W repository
              (or_main (default_branch repository)) token ;;
  match cloned with
  | None => ret (BranchFailed "Failed to clone repository")
  | Some repo_path =>
      result <-
        (created <- GitOperationsService.create_branch W repo_path branch_name
                      (or_main (default_branch repository)) ;;
         if negb created then ret (BranchFailed "Failed to create branch")
         else
           patch_result <- GitOperationsService.apply_patch W repo_path
                             (patch_diff proposal) true ;;
           match patch_result with
           | GitOperationsService.PatchFailed err => ret (BranchFailed err)
           | GitOperationsService.PatchApplied _ =>
               match ProposalService.name_or user
                       (hd EmptyString (Py.split "@" (email user))) with
               | inl e => ret (BranchFailed e)
               | inr author_name =>
               commit_result <- GitOperationsService.commit_changes W repo_path
                                  (pr_commit_message proposal)
                                  author_name (email user) ;;
               match commit_result with
               | GitOperationsService.CommitFailed err => ret (BranchFailed err)
               | GitOperationsService.Committed sha =>
                   push_result <- GitOperationsService.push_branch W repo_path
                                    branch_name "origin" ;;
                   match push_result with
                   | GitOperationsService.Pushed => ret (BranchPushed branch_name sha)
                   | GitOperationsService.PushFailed err => ret (BranchFailed err)
                   end
               end
               end
           end) ;;
      GitOperationsService.cleanup_repository W repo_path ;;;
      ret result
  end
  end.

(** [_generate_pr_description]: the caller's text when there is one. *)
Definition _generate_pr_description (proposal : Proposal)
    (custom_description : option string) : string + string :=
  match custom_description with
  | Some (String c s) => inr (String c s)
  | _ => pr_description W proposal
  end.

(** [owner, repo_name] of [repository.full_name]. *)
Definition owner_and_name (repository : Repository) : string + (string * string) :=
  if Py.startswith (full_name repository) "http"
  then match urlparse_path W (full_name repository) with
       | inl e => inl e
       | inr path => unpack2 (firstn 2 (Py.split "/" (strip_slash path)))
       end
  else unpack2 (firstn 2 (Py.split "/" (full_name repository))).

(** The request that opens the pull request. *)
Definition post_pull_request (url : string) (token : option string)
    (data : pr_data) (branch_name : string) : M pr_result :=
  answer <- ask (fun h => http_post W h url token data) ;;
  emit (EvHttpPost url token data) ;;;
  match answer with
  | inl e => ret (PrFailed e)
  | inr response =>
      if resp_status response =? 201
      then ret (PrCreated (resp_html_url response) (resp_number response) branch_name)
      else ret (PrFailed ("GitHub API error: " ++ Py.str_of_nat (resp_status response)))
  end.

(** [create_proposal_pr].  The proposal is not validated on this path,
    and its status is left as it is.  An exception anywhere ends in the
    [except] clause, which returns the failure with [str(e)]. *)
Definition create_proposal_pr (proposal : Proposal) (user : User)
    (pr_title pr_description : option string) : M pr_result :=
  match repository (finding proposal) with
  | NoAttribute e => ret (PrFailed e)
  | Has repository =>
  match owner_and_name repository with
  | inl err => ret (PrFailed err)
  | inr (owner, repo_name) =>
      let branch_name :=
        "refactoriq-fix-" ++ Py.str_of_Z (id proposal) ++ "-"
        ++ Py.str_of_Z (finding_id (finding proposal)) in
      clone_result <- _create_branch_with_proposal_changes repository branch_name
                        proposal user ;;
      match clone_result with
      | BranchFailed err => ret (PrFailed err)
      | BranchPushed _ _ =>
          match _generate_pr_description proposal pr_description with
          | inl e => ret (PrFailed e)
          | inr pr_body =>
          let data :=
            {| pr_title := match pr_title with
                           | Some (String c s) => String c s
                           | _ => PyMore.wrench ++ " Fix: " ++ title proposal
                           end;
               pr_body := pr_body;
               pr_head := branch_name;
               pr_base := or_main (default_branch repository) |} in
          let url := api_base ++ "/repos/" ++ owner ++ "/" ++ repo_name ++ "/pulls" in
          match github_access_token user with
          | NoAttribute e => ret (PrFailed e)
          | Has token => post_pull_request url token data branch_name
          end
          end
      end
  end
  end.

End Service.

End GitHubService.

(* ===================================================================== *)
(** ** [api/v1/proposals.py]: the apply and reject endpoints *)
(* ===================================================================== *)

Module Api.

Record ProposalApplyRequest : Type := mk_request {
  auto_apply : bool;
  create_pr : bool;
  req_pr_title : option string;
  req_pr_description : option string
}.

Record ProposalApplyResponse : Type := mk_response {
  resp_success : bool;
  resp_pr_url : option string;
  resp_message : string
}.

Inductive HTTPException : Type :=
  | HTTPError (status_code : nat) (detail : string).

(** The names bound in the module [proposals.py]: what it imports and
    what it defines. *)
Definition module_names : list string :=
  [ "APIRouter"; "Depends"; "HTTPException"; "status"; "BackgroundTasks";
    "AsyncSession"; "List"; "Optional"; "BaseModel";
    "get_current_user"; "get_db"; "User"; "AnalysisFinding";
    "Proposal"; "ProposalStatus"; "ProposalType";
    "ProposalCreate"; "ProposalResponse"; "ProposalUpdate";
    "ProposalService"; "GitHubService"; "logger"; "router";
    "ProposalApplyRequest"; "ProposalApplyResponse";
    "list_proposals"; "get_proposal"; "apply_proposal"; "reject_proposal";
    "preview_proposal"; "_get_proposal_by_id" ].

Definition is_bound (name : string) : bool := existsb (String.eqb name) module_names.

Section Endpoint.

Variable W : world.

(** What the query of [_get_proposal_by_id] gives when it is run: the
    exception of [db.execute], or the row found. *)
Variable query : list event -> string + option Proposal.

(** [_get_proposal_by_id].  Building the query looks up the name
    [Analysis]; a name that is not bound raises [NameError] inside the
    [try], and the [except] clause returns [None]. *)
Definition _get_proposal_by_id : M (option Proposal) :=
  if is_bound "Analysis" then
    found <- ask query ;;
    match found with
    | inl _ => ret None
    | inr row => ret row
    end
  else ret None.

Definition failed : HTTPException + ProposalApplyResponse :=
  inl (HTTPError 500 "Failed to apply proposal").

(** The answer with [proposal=ProposalResponse.from_orm(proposal)]. *)
Definition respond (proposal : Proposal) (pr_url : option string)
    (message : string) : M (HTTPException + ProposalApplyResponse) :=
  match from_orm W proposal with
  | Some _ => ret failed
  | None => ret (inr {| resp_success := true; resp_pr_url := pr_url;
                        resp_message := message |})
  end.

(** The body of [apply_proposal] from the point where
    [_get_proposal_by_id] has returned [loaded].  Every exception
    raised inside the [try], the [HTTPException]s 404 and 400
    included, is caught by its [except Exception] and becomes the 500
    answer. *)
Definition apply_loaded (loaded : option Proposal) (request : ProposalApplyRequest)
    (current_user : User) : M (HTTPException + ProposalApplyResponse) :=
  match loaded with
  | None => ret failed                        (* 404 raised, caught *)
  | Some proposal =>
      if negb (ProposalStatus_eqb (status proposal) PENDING)
      then ret failed                         (* 400 raised, caught *)
      else
        started <- ask (services_start W) ;;
        match started with
        | Some _ => ret failed
        | None =>
            if auto_apply request then
              ProposalService.apply_proposal_direct W proposal current_user ;;;
              respond proposal None "Proposal applied successfully"
            else if create_pr request then
              pr_result <- GitHubService.create_proposal_pr W proposal current_user
                             (req_pr_title request) (req_pr_description request) ;;
              respond proposal
                      match pr_result with
                      | GitHubService.PrCreated u _ _ => u
                      | GitHubService.PrFailed _ => None
                      end
                      "Pull request created successfully"
            else
              emit (EvDbUpdate (id proposal) APPLIED None None None) ;;;
              committed <- ask (db_commit W) ;;
              match committed with
              | Some _ => ret failed
              | None =>
                  emit EvDbCommit ;;;
                  respond proposal None "Proposal marked as applied"
              end
        end
  end.

(** [apply_proposal] *)
Definition apply_proposal (request : ProposalApplyRequest) (current_user : User)
    : M (HTTPException + ProposalApplyResponse) :=
  loaded <- _get_proposal_by_id ;;
  apply_loaded loaded request current_user.

(** [reject_proposal]: the status is not looked at. *)
Definition reject_loaded (loaded : option Proposal) : M (HTTPException + string) :=
  match loaded with
  | None => ret (inl (HTTPError 500 "Failed to reject proposal"))
  | Some proposal =>
      emit (EvDbUpdate (id proposal) REJECTED None None None) ;;;
      committed <- ask (db_commit W) ;;
      match committed with
      | Some _ => ret (inl (HTTPError 500 "Failed to reject proposal"))
      | None =>
          emit EvDbCommit ;;;
          ret (inr "Proposal rejected successfully")
      end
  end.

Definition reject_proposal : M (HTTPException + string) :=
  loaded <- _get_proposal_by_id ;;
  reject_loaded loaded.

End Endpoint.

End Api.

(* ===================================================================== *)
(** ** Webhook checks of [GitHubService] and [GitLabService] *)
(* ===================================================================== *)

Module Webhook.

Definition is_ascii (s : string) : bool :=
  forallb (fun c => nat_of_ascii c <? 128) (list_ascii_of_string s).

(** [hmac.compare_digest(a, b)] on two [str]: equality of the two, and
    a [TypeError] ([None] here) unless both are ASCII.  Its running time
    is a matter of the library and is not modelled. *)
Definition compare_digest (a b : string) : option bool :=
  if is_ascii a && is_ascii b then Some (String.eqb a b) else None.

Section Checks.

(** [hmac.new(key, payload, hashlib.sha256).hexdigest()] *)
Variable hmac_sha256_hexdigest : string -> string -> string.

Definition verify_webhook_signature (webhook_secret payload signature : string)
    : option bool :=
  match webhook_secret with
  | EmptyString => Some false
  | _ => compare_digest signature
           ("sha256=" ++ hmac_sha256_hexdigest webhook_secret payload)
  end.

Definition verify_webhook_token (webhook_secret token : string) : option bool :=
  match webhook_secret with
  | EmptyString => Some false
  | _ => compare_digest token webhook_secret
  end.

End Checks.

End Webhook.

(* ===================================================================== *)
(** ** Concrete inputs *)
(* ===================================================================== *)

Module Examples.

Definition text_of_lines (l : list string) : string := Py.join PyMore.nl l.

(** The example patch of the specification. *)
Definition sample_patch : string :=
  text_of_lines ["--- a/a.py"; "+++ b/a.py"; "@@ -1,1 +1,2 @@"; "-x=1"; "+x=1"; "+y=2"; ""].

(** A chunk that declares five old and five new lines and has one of each. *)
Definition short_chunk : string :=
  text_of_lines ["--- a/a.py"; "+++ b/a.py"; "@@ -1,5 +1,5 @@"; "-x=1"; "+x=2"].

(** The file header is indented: no line of the text starts with it. *)
Definition indented_header : string :=
  text_of_lines ["  --- a/a.py"; "@@ -1 +1 @@"].

(** Two blank lines come first: the bad header is the fourth line. *)
Definition leading_blank_lines : string :=
  text_of_lines [""; ""; "--- a/a.py"; "@@ bad"].

Definition bad_header : string :=
  text_of_lines ["--- a/a.py"; "@@ bad"].

Definition no_chunk_header : string :=
  text_of_lines ["--- a/a.py"; "+++ b/a.py"; "+x=1"].


(** A line that draws three issues ([rm -rf], [sudo], [eval(]) and one
    warning ([TODO]). *)
Definition three_issues : string := "+sudo rm -rf x; eval(y) # TODO".

(** Git commands that all succeed. *)
Definition git_ok (cmd : list string) : process_outcome :=
  match cmd with
  | "git" :: "rev-parse" :: _ => Completed 0 ("3f2a9c1" ++ PyMore.nl) ""
  | _ => Completed 0 "" ""
  end.

Definition world_of (run : list event -> list string -> option string -> Z -> process_outcome)
    : world :=
  {| work_dir := "/tmp/refactoriq_work";
     subprocess := run;
     uuid4_prefix := fun _ => "0a1b2c3d";
     path_exists := fun _ _ => true;
     write_file := fun _ _ _ => None;
     remove_file := fun _ _ => None;
     db_execute := fun _ => None;
     db_commit := fun _ => None;
     utcnow_isoformat := fun _ => "2024-05-01T12:00:00";
     http_post := fun _ _ _ _ =>
       inr {| resp_status := 201;
              resp_html_url := Some "https://github.com/octo/demo/pull/1";
              resp_number := Some 1%Z |};
     urlparse_path := fun s => inr s;
     float_str := fun f => if PrimFloat.eqb f 0.5%float then "0.5" else "0.9";
     float_2f := fun f => if PrimFloat.eqb f 0.5%float then "0.50" else "0.90";
     pr_description := fun _ => inr "Automated fix";
     services_start := fun _ => None;
     from_orm := fun _ => None |}.

(** A machine on which every git command succeeds, as the services
    expect it.  With the process interface of the Python library no
    command does: see [world_python] below. *)
Definition world_ok : world := world_of (fun _ cmd _ _ => git_ok cmd).

(** [str(e)] of the [TypeError] raised by [subprocess.Popen] when it is
    given the keyword [timeout]. *)
Definition popen_type_error : string :=
  "Popen.__init__() got an unexpected keyword argument 'timeout'".

(** The world as the Python library makes it:
    [asyncio.create_subprocess_exec] passes the keywords it does not
    know on to [subprocess.Popen], which has no [timeout] parameter, so
    the [try] body of [_run_git_command] always ends in that [TypeError],
    before any process is started. *)
Definition world_python : world := world_of (fun _ _ _ _ => RaisedException popen_type_error).




Definition demo_repository : Repository :=
  {| provider := GITHUB; full_name := "octo/demo"; default_branch := "main" |}.

(** A user object that carries the three attributes read by the
    services besides the declared ones, and a proposal whose analysis
    carries a repository. *)
Definition demo_user : User :=
  {| user_id := 7; email := "dev@example.org"; display_name := Has None;
     github_access_token := Has (Some "token"); gitlab_access_token := Has None |}.

Definition proposal_of (patch : string) (confidence : float) (st : ProposalStatus)
    : Proposal :=
  {| id := 42; title := "Fix x"; description := "Sets y";
     patch_diff := patch; confidence_score := confidence; status := st;
     finding := {| finding_id := 5; repository := Has demo_repository |} |}.



(** Safe and well formed, with confidence 0.5 and 0.9. *)
Definition low_confidence : Proposal := proposal_of sample_patch 0.5%float PENDING.
Definition good_proposal : Proposal := proposal_of sample_patch 0.9%float PENDING.




End Examples.

From Stdlib Require DecimalNat DecimalFacts.

(* ===================================================================== *)
(** ** [patch_utils.get_patch_summary] *)
(* ===================================================================== *)

Module PatchSummary.

Import PatchParser.

(** The dictionary returned by [get_patch_summary]; [net_change] is a
    Python integer and may be negative. *)
Record patch_summary : Type := mk_summary {
  files_changed : nat;
  summary_additions : nat;
  summary_deletions : nat;
  net_change : Z
}.

Definition get_patch_summary (patch_content : string) : patch_summary :=
  let parsed := parse_unified_diff patch_content in
  {| files_changed := total_files parsed;
     summary_additions := total_additions parsed;
     summary_deletions := total_deletions parsed;
     net_change := (Z.of_nat (total_additions parsed)
                    - Z.of_nat (total_deletions parsed))%Z |}.

(** The lines of a text as the parser and the format check see them. *)
Definition lines_of (text : string) : list string :=
  Py.split Py.newline (Py.strip text).

(** The lines that open a file record. *)
Definition file_header_lines (text : string) : list string :=
  filter (fun line => Py.startswith line "--- a/") (lines_of text).

(** The lines of one kind recorded in a file, over all its chunks. *)
Definition recorded (t : line_type) (f : file_diff) : nat :=
  list_sum (map (count_type t) (chunks f)).

Definition recorded_in (t : line_type) (fs : list file_diff) : nat :=
  list_sum (map (recorded t) fs).

(** What the loop keeps true: the running totals are the sums over the
    files, and each file counts the lines recorded in its chunks. *)
Definition file_counted (f : file_diff) : Prop :=
  additions f = recorded addition f /\ deletions f = recorded deletion f.

Definition all_files (st : loop_state) : list file_diff := flush st.

Definition state_counted (st : loop_state) : Prop :=
  st_additions st = list_sum (map additions (all_files st))
  /\ st_deletions st = list_sum (map deletions (all_files st))
  /\ Forall file_counted (all_files st).

End PatchSummary.

(* ===================================================================== *)
(** ** Texts up to the case of their letters *)
(* ===================================================================== *)

(** The text with its ASCII capital letters made small. *)
Fixpoint lower_text (s : string) : string :=
  match s with
  | EmptyString => EmptyString
  | String c s' => String (Py.lower c) (lower_text s')
  end.

(** The pairs of counts that [validate_patch_safety] can reach: nine
    patterns give issues and five give warnings. *)
Definition reachable_counts : list (nat * nat) :=
  list_prod (seq 0 10) (seq 0 6).

(* ===================================================================== *)
(** ** Reading the events of an attempt *)
(* ===================================================================== *)

Module Trace.

(** The steps of the pipeline, numbered in the order the services take
    them: clone, dry run, backup, real apply, commit, push. *)
Definition phase (e : event) : option nat :=
  match e with
  | EvGit ("git" :: sub :: rest) _ _ =>
      if String.eqb sub "clone" then Some 0
      else if String.eqb sub "apply" then
        match rest with
        | flag :: _ =>
            if String.eqb flag "--check" then Some 1
            else if String.eqb flag "--index" then Some 3
            else None
        | [] => None
        end
      else if String.eqb sub "stash" then Some 2
      else if String.eqb sub "commit" then Some 4
      else if String.eqb sub "push" then Some 5
      else None
  | _ => None
  end.

Fixpoint phases (d : list event) : list nat :=
  match d with
  | [] => []
  | e :: d' =>
      match phase e with
      | Some k => k :: phases d'
      | None => phases d'
      end
  end.

Definition is_rmtree (e : event) : bool :=
  match e with
  | EvRmtree _ => true
  | _ => false
  end.


(** The directory a clone made after the events [h] goes to. *)
Definition clone_path (W : world) (h : list event) : string :=
  PyMore.path_join (work_dir W) ("repo_" ++ uuid4_prefix W h).


End Trace.

(* ===================================================================== *)
(** ** [patch_utils.PatchApplier] *)
(* ===================================================================== *)

Module PatchApplier.

(** What is found at a path: a regular file with its content, or a
    directory. *)
Inductive entry : Type :=
  | File (content : string)
  | Directory.

(** The files of the machine. *)
Definition files : Type := string -> option entry.

Definition put (fs : files) (path : string) (e : option entry) : files :=
  fun p => if String.eqb p path then e else fs p.

(** What [shutil.copy2(src, dst)] ends with: the copy is made, or an
    exception [e] is raised, which leaves at the target what [remains] says
    (the copy may have begun). *)
Inductive copy_outcome : Type :=
  | Copied
  | CopyRaised (e : string) (remains : option entry).

Inductive apply_result : Type :=
  | ApplyOk (backup_path : option string) (files_modified additions deletions : nat)
  | ApplyError (error : string).

(** [f"{file_path}.backup.{os.getpid()}"] *)
Definition backup_name (file_path : string) (pid : Z) : string :=
  file_path ++ ".backup." ++ Py.str_of_Z pid.

Section Machine.

(** How the copies and removals of the machine end, given the files
    and the paths, and [str(e)] of the exception for a copy that is
    refused at once: the source is no regular file, or source and
    destination are the same file. *)
Variable copy_ends : files -> string -> string -> copy_outcome.
Variable remove_raises : files -> string -> option string.
Variable refused : string -> string -> string.

(** [os.path.basename(path)] *)
Definition basename (path : string) : string :=
  last (Py.split "/" path) EmptyString.

(** Where [shutil.copy2(src, dst)] writes: into [dst] when that is a
    directory. *)
Definition copy_target (fs : files) (src dst : string) : string :=
  match fs dst with
  | Some Directory => PyMore.path_join dst (basename src)
  | _ => dst
  end.

(** [shutil.copy2(src, dst)]: the exception raised, if any, and the
    files afterwards.  Only the target can change. *)
Definition copy2 (fs : files) (src dst : string) : option string * files :=
  let target := copy_target fs src dst in
  match fs src with
  | Some (File content) =>
      if String.eqb src target then (Some (refused src dst), fs)
      else
        match copy_ends fs src dst with
        | Copied => (None, put fs target (Some (File content)))
        | CopyRaised e remains => (Some e, put fs target remains)
        end
  | _ => (Some (refused src dst), fs)
  end.

(** [os.remove(path)]: when it raises, the files stay as they are. *)
Definition remove (fs : files) (path : string) : option string * files :=
  match remove_raises fs path with
  | Some e => (Some e, fs)
  | None => (None, put fs path None)
  end.

(** [apply_patch_safe]; [pid] is [os.getpid()].  The backup is made
    before the patch is looked at, and the patch is only parsed.  An
    exception of the copy ends in the [except] clause. *)
Definition apply_patch_safe (pid : Z) (file_path patch_content : string)
    (backup : bool) (fs : files) : apply_result * files :=
  match fs file_path with
  | None => (ApplyError "File does not exist", fs)
  | Some _ =>
      let backup_path := if backup then Some (backup_name file_path pid) else None in
      let (raised, fs') := match backup_path with
                           | Some b => copy2 fs file_path b
                           | None => (None, fs)
                           end in
      match raised with
      | Some e => (ApplyError e, fs')
      | None =>
          match PatchValidator.validate_patch_format (PyStr patch_content) with
          | PatchValidator.FormatError err => (ApplyError err, fs')
          | PatchValidator.FormatOk _ =>
              let parsed_patch := PatchParser.parse_unified_diff patch_content in
              if PatchParser.total_files parsed_patch =? 0
              then (ApplyError "No files in patch", fs')
              else (ApplyOk backup_path
                            (PatchParser.total_files parsed_patch)
                            (PatchParser.total_additions parsed_patch)
                            (PatchParser.total_deletions parsed_patch), fs')
          end
      end
  end.

(** [rollback_patch]: an exception of the copy or of the removal is
    turned into [False] by the [except] clause. *)
Definition rollback_patch (file_path backup_path : string) (fs : files)
    : bool * files :=
  match fs backup_path with
  | Some _ =>
      let (raised, fs1) := copy2 fs backup_path file_path in
      match raised with
      | Some _ => (false, fs1)
      | None =>
          let (raised', fs2) := remove fs1 backup_path in
          match raised' with
          | Some _ => (false, fs2)
          | None => (true, fs2)
          end
      end
  | None => (false, fs)
  end.

End Machine.

End PatchApplier.

(* ===================================================================== *)
(** ** [patch_utils.ConflictResolver] and [patch_utils.DiffGenerator] *)
(* ===================================================================== *)

Module ConflictResolver.

Section Conflicts.

(** The dictionaries that describe a conflict; the code builds none. *)
Variable conflict : Type.

Definition _check_chunk_conflict (base_content : string) (c : PatchParser.chunk)
    : option conflict := None.

(** [detect_conflicts]: the two nested loops, appending what the check
    returns when it returns something. *)
Definition detect_conflicts (base_content patch_content : string) : list conflict :=
  let parsed := PatchParser.parse_unified_diff patch_content in
  fold_left
    (fun conflicts file_info =>
       fold_left
         (fun conflicts chunk =>
            match _check_chunk_conflict base_content chunk with
            | Some c => (conflicts ++ [c])%list
            | None => conflicts
            end)
         (PatchParser.chunks file_info) conflicts)
    (PatchParser.files parsed) [].

End Conflicts.

End ConflictResolver.

Module DiffGenerator.

(** The line boundaries of [str.splitlines] among the code points
    below 256: LF, VT, FF, CR, FS, GS, RS and NEL. *)
Definition is_linebreak (c : ascii) : bool :=
  let n := nat_of_ascii c in
  ((10 <=? n) && (n <=? 13)) || ((28 <=? n) && (n <=? 30)) || (n =? 133).

Definition carriage_return : ascii := "013"%char.

(** [s.splitlines()]; [skip_lf] says that the character before was a
    CR, whose LF belongs to the same boundary. *)
Fixpoint splitlines_from (skip_lf : bool) (s : string) : list string :=
  match s with
  | EmptyString => []
  | String c s' =>
      if skip_lf && Ascii.eqb c Py.newline then splitlines_from false s'
      else if is_linebreak c
      then EmptyString :: splitlines_from (Ascii.eqb c carriage_return) s'
      else match splitlines_from false s' with
           | l :: ls => String c l :: ls
           | [] => [String c EmptyString]
           end
  end.

Definition splitlines (s : string) : list string := splitlines_from false s.

(** [apply_diff_to_content]: the loops over the chunks do nothing. *)
Definition apply_diff_to_content (original_content diff_content : string)
    : option string :=
  let parsed := PatchParser.parse_unified_diff diff_content in
  match PatchParser.files parsed with
  | [] => None
  | _ :: _ => Some (Py.join PyMore.nl (splitlines original_content))
  end.

(** The text without its last character when that is a line feed. *)
Fixpoint without_final_newline (s : string) : string :=
  match s with
  | EmptyString => EmptyString
  | String c EmptyString => if Ascii.eqb c Py.newline then EmptyString else s
  | String c s' => String c (without_final_newline s')
  end.

(** No line boundary but LF. *)
Fixpoint lf_only (s : string) : bool :=
  match s with
  | EmptyString => true
  | String c s' => (Ascii.eqb c Py.newline || negb (is_linebreak c)) && lf_only s'
  end.

End DiffGenerator.

(* ===================================================================== *)
(** ** [ProposalService.score_proposal_confidence] *)
(* ===================================================================== *)

Module AIService.

(** The attributes of an instance of [ai_service.AIService]: the four
    clients set by [__init__] and the methods of the class. *)
Definition attributes : list string :=
  [ "openai_client"; "anthropic_client"; "openai_llm"; "claude_llm";
    "analyze_code"; "refactor_code"; "generate_embeddings";
    "_create_analysis_prompt"; "_create_refactoring_prompt";
    "_parse_analysis_response"; "_parse_refactoring_response" ].

Definition hasattr (name : string) : bool := existsb (String.eqb name) attributes.

End AIService.

Module Confidence.

(** What the call [self.ai_service.analyze_text(prompt)] did: it raised,
    or it returned a dictionary with or without the key [response]. *)
Inductive ai_answer : Type :=
  | AiRaised
  | AiReturned (response : option string).

(** [min(1.0, x)]: the second argument when it is smaller, else the first. *)
Definition min1 (x : float) : float :=
  if PrimFloat.ltb x 1%float then x else 1%float.

(** [max(0.0, min(1.0, confidence))] *)
Definition clamp (confidence : float) : float := PatchValidator.max0 (min1 confidence).

Section Scoring.

(** [float(s)]: the number read, or [None] for [ValueError]. *)
Variable py_float : string -> option float.

(** The body of [score_proposal_confidence] from the answer of the
    call on. *)
Definition score_of_answer (answer : ai_answer) : float :=
  match answer with
  | AiRaised => 0.5%float
  | AiReturned response =>
      match py_float (match response with
                      | Some s => s
                      | None => "0.5"
                      end) with
      | Some confidence => clamp confidence
      | None => 0.5%float
      end
  end.

(** [score_proposal_confidence]; [analyze_text] is what a method of
    that name would do with the prompt.  Looking up an attribute that
    the instance does not have raises, inside the [try]. *)
Definition score_proposal_confidence (analyze_text : string -> ai_answer)
    (prompt : string) : float :=
  score_of_answer (if AIService.hasattr "analyze_text"
                   then analyze_text prompt
                   else AiRaised).

End Scoring.

End Confidence.

(* ===================================================================== *)
(** ** [api/v1/webhooks.py]: the signature check of the endpoint *)
(* ===================================================================== *)

Module WebhookEndpoint.

Section Checks.

Variable hmac_sha256_hexdigest : string -> string -> string.

(** [verify_github_signature]: a leading [sha256=] is removed before
    the comparison with the bare digest. *)
Definition verify_github_signature (secret payload signature : string)
    : option bool :=
  match secret with
  | EmptyString => Some false
  | _ =>
      let signature' := if Py.startswith signature "sha256="
                        then Py.drop 7 signature else signature in
      Webhook.compare_digest signature' (hmac_sha256_hexdigest secret payload)
  end.

End Checks.

End WebhookEndpoint.

(* ===================================================================== *)
(** ** [gitlab_service.GitLabService]: the merge-request path *)
(* ===================================================================== *)

Module GitLabService.

Definition api_base : string := "https://gitlab.com/api/v4".

(** The requests sent to the hosting provider, with the access token
    of the [Authorization] header. *)
Inductive request : Type :=
  | Get (url : string) (token : option string)
  | PostBranch (url : string) (token : option string) (branch ref : string)
  | PostMergeRequest (url : string) (token : option string)
      (source_branch target_branch title description : string).

(** Of the body of an answer, the fields that are read: [commit.id],
    [web_url] and [iid], each there or not. *)
Record body : Type := mk_body {
  commit_id : option string;
  web_url : option string;
  iid : option Z
}.

(** What a request ends with: it raised [e], or it was answered with a
    status and a body, which [response.json()] reads or fails to read. *)
Inductive answer : Type :=
  | Raised (e : string)
  | Answered (status : nat) (json : string + body).

Inductive mr_result : Type :=
  | MrCreated (mr_url : option string) (mr_iid : option Z)
  | MrFailed (error : string).

Section Service.

(** The provider's answers, given the requests sent before, and
    [urlparse(url).path] or the [ValueError] of [urlparse]. *)
Variable http : list request -> request -> answer.
Variable urlparse_path : string -> string + string.

(** [_create_branch_with_changes]: the base is the branch [main]; the
    patch of the proposal is not applied.  The result comes with the
    requests sent.  An exception, the one of reading the token
    included, gives [False]. *)
Definition _create_branch_with_changes (project_path branch_name : string)
    (proposal : Proposal) (user : User) (h : list request) : bool * list request :=
  match gitlab_access_token user with
  | NoAttribute _ => (false, [])
  | Has token =>
  let get := Get (api_base ++ "/projects/" ++ project_path
                           ++ "/repository/branches/main") token in
  match http h get with
  | Answered status json =>
      if status =? 200 then
        match json with
        | inr branch_data =>
            match commit_id branch_data with
            | Some base_sha =>
                let post := PostBranch (api_base ++ "/projects/" ++ project_path
                                                 ++ "/repository/branches")
                                       token branch_name base_sha in
                match http (h ++ [get])%list post with
                | Answered status' _ =>
                    if negb (status' =? 201) then (false, [get; post])
                    else (true, [get; post])
                | Raised _ => (false, [get; post])
                end
            | None => (false, [get])
            end
        | inl _ => (false, [get])
        end
      else (false, [get])
  | Raised _ => (false, [get])
  end
  end.

(** [x or y] on texts. *)
Definition or_text (x : option string) (y : string) : string :=
  match x with
  | Some (String c s) => String c s
  | _ => y
  end.

(** [create_proposal_mr]: the result of the branch step is not looked
    at.  An exception ends in the [except] clause, which returns the
    failure with [str(e)]. *)
Definition create_proposal_mr (proposal : Proposal) (user : User)
    (mr_title mr_description : option string) (h : list request)
    : mr_result * list request :=
  match repository (finding proposal) with
  | NoAttribute e => (MrFailed e, [])
  | Has repository =>
  match urlparse_path (full_name repository) with
  | inl e => (MrFailed e, [])
  | inr path =>
  let project_path := PyMore.replace (GitHubService.strip_slash path) "/" "%2F" in
  let branch_name := "refactoriq-fix-" ++ Py.str_of_Z (id proposal) in
  let (_, sent) := _create_branch_with_changes project_path branch_name proposal user h in
  match gitlab_access_token user with
  | NoAttribute e => (MrFailed e, sent)
  | Has token =>
  let post := PostMergeRequest
                (api_base ++ "/projects/" ++ project_path ++ "/merge_requests")
                token
                branch_name (default_branch repository)
                (or_text mr_title ("Fix: " ++ title proposal))
                (or_text mr_description (description proposal)) in
  (match http (h ++ sent)%list post with
   | Answered status json =>
       if status =? 201 then
         match json with
         | inr mr_info => MrCreated (web_url mr_info) (iid mr_info)
         | inl e => MrFailed e
         end
       else MrFailed "Failed to create merge request"
   | Raised e => MrFailed e
   end,
   (sent ++ [post])%list)
  end
  end
  end.

(** The proposal with another patch. *)
Definition with_patch (proposal : Proposal) (patch : string) : Proposal :=
  {| id := id proposal; title := title proposal; description := description proposal;
     patch_diff := patch; confidence_score := confidence_score proposal;
     status := status proposal; finding := finding proposal |}.

Definition is_get (r : request) : bool :=
  match r with
  | Get _ _ => true
  | _ => false
  end.

Definition is_merge_request (r : request) : bool :=
  match r with
  | PostMergeRequest _ _ _ _ _ _ => true
  | _ => false
  end.

End Service.

End GitLabService.

(* ===================================================================== *)
(** ** Further concrete inputs *)
(* ===================================================================== *)

Module MoreExamples.

(** A patch whose file header has no [a/] prefix. *)
Definition other_header : string :=
  Examples.text_of_lines ["--- old.py"; "+++ new.py"; "@@ -1 +1 @@"; "-x=1"; "+x=2"].

(** The sample patch with blank text around it. *)
Definition padding_before : string := "  " ++ PyMore.nl ++ PyMore.nl.
Definition padding_after : string := PyMore.nl ++ "   " ++ PyMore.nl.

(** One file, [a.py], with one line, on a machine where copies and
    removals succeed. *)
Definition one_file : PatchApplier.files :=
  fun p => if String.eqb p "a.py" then Some (PatchApplier.File "x=1") else None.

Definition copies : PatchApplier.files -> string -> string -> PatchApplier.copy_outcome :=
  fun _ _ _ => PatchApplier.Copied.

Definition removes : PatchApplier.files -> string -> option string :=
  fun _ _ => None.

Definition refused : string -> string -> string :=
  fun src _ => "[Errno 21] Is a directory: '" ++ src ++ "'".

Definition clone_path : string := "/tmp/refactoriq_work/repo_0a1b2c3d".

End MoreExamples.

(* ===================================================================== *)
(** * Properties *)
(* ===================================================================== *)

(** ** Strings *)

Lemma append_nil_r (s : string) : (s ++ "")%string = s.
Proof. induction s as [|c s IH]; simpl; [reflexivity | now rewrite IH]. Qed.

Lemma append_assoc (a b c : string) :
  ((a ++ b) ++ c)%string = (a ++ (b ++ c))%string.
Proof. induction a as [|x a IH]; simpl; [reflexivity | now rewrite IH]. Qed.

Lemma append_eq_nil (a b : string) :
  (a ++ b)%string = "" -> a = "" /\ b = "".
Proof. destruct a; simpl; intros H; [auto | discriminate]. Qed.

Lemma contains_refl (s : string) : Py.contains s s.
Proof. exists "", "". simpl. now rewrite append_nil_r. Qed.

Lemma contains_cons (c : ascii) (s x : string) :
  Py.contains s x -> Py.contains (String c s) x.
Proof. intros (pre & post & ->). now exists (String c pre), post. Qed.

(** ** Regular expressions: the matcher decides the language *)

Section RegexFacts.

Variable ic : bool.


Lemma nullable_Matches (r : Re.regex) :
  Re.nullable r = true -> Re.Matches ic r "".
Proof.
  induction r; simpl; intros H; try discriminate.
  - constructor.
  - apply andb_true_iff in H as [H1 H2].
    change ""%string with ("" ++ "")%string. constructor; auto.
  - apply orb_true_iff in H as [H | H]; [apply Re.MAltL | apply Re.MAltR]; auto.
  - constructor.
Qed.

Lemma Matches_nullable (r : Re.regex) (w : string) :
  Re.Matches ic r w -> w = "" -> Re.nullable r = true.
Proof.
  induction 1; intros E; simpl; try reflexivity; try discriminate.
  - apply append_eq_nil in E as [-> ->]. rewrite IHMatches1, IHMatches2; auto.
  - rewrite IHMatches; auto.
  - rewrite IHMatches; auto using orb_true_r.
Qed.

Lemma nullable_spec (r : Re.regex) : Re.nullable r = true <-> Re.Matches ic r "".
Proof.
  split; [apply nullable_Matches | intros H; now apply (Matches_nullable r "")].
Qed.

Lemma deriv_sound (a : ascii) (r : Re.regex) :
  forall w, Re.Matches ic (Re.deriv ic a r) w -> Re.Matches ic r (String a w).
Proof.
  induction r; simpl; intros w H.
  - inversion H.
  - inversion H.
  - destruct (Re.cmatch ic c a) eqn:E; inversion H; subst. now constructor.
  - destruct (Re.nullable r1) eqn:N.
    + inversion H as [| | | ? ? ? H1 | ? ? ? H1 | |]; subst.
      * inversion H1; subst.
        change (String a (w1 ++ w2)) with (String a w1 ++ w2)%string.
        constructor; auto.
      * change (String a w) with ("" ++ String a w)%string.
        constructor; auto using nullable_Matches.
    + inversion H; subst.
      change (String a (w1 ++ w2)) with (String a w1 ++ w2)%string.
      constructor; auto.
  - inversion H; subst; [apply Re.MAltL | apply Re.MAltR]; auto.
  - inversion H; subst.
    change (String a (w1 ++ w2)) with (String a w1 ++ w2)%string.
    constructor; auto.
Qed.

Lemma deriv_complete (a : ascii) (r : Re.regex) (s : string) :
  Re.Matches ic r s -> forall w, s = String a w -> Re.Matches ic (Re.deriv ic a r) w.
Proof.
  induction 1; intros u E; simpl; try discriminate.
  - injection E as -> <-. rewrite H. constructor.
  - destruct w1 as [|b w1]; simpl in E.
    + subst w2. rewrite (Matches_nullable _ _ H eq_refl).
      apply Re.MAltR. now apply IHMatches2.
    + injection E as -> <-.
      destruct (Re.nullable r1); [apply Re.MAltL |]; constructor; auto.
  - apply Re.MAltL; auto.
  - apply Re.MAltR; auto.
  - destruct w1 as [|b w1]; simpl in E.
    + now apply IHMatches2.
    + injection E as -> <-. constructor; auto.
Qed.

Lemma deriv_spec (a : ascii) (r : Re.regex) (w : string) :
  Re.Matches ic (Re.deriv ic a r) w <-> Re.Matches ic r (String a w).
Proof.
  split; [apply deriv_sound | intros H; now apply (deriv_complete a r _ H)].
Qed.

Lemma fullmatch_spec (w : string) :
  forall r, Re.fullmatch ic r w = true <-> Re.Matches ic r w.
Proof.
  induction w as [|a w IH]; intros r; simpl.
  - apply nullable_spec.
  - rewrite IH. apply deriv_spec.
Qed.

(** [re.match]: some prefix of the text is in the language. *)
Lemma match_spec (s : string) :
  forall r, Re.match_ ic r s = true <->
            exists w rest, s = (w ++ rest)%string /\ Re.Matches ic r w.
Proof.
  induction s as [|a s IH]; intros r; simpl.
  - rewrite orb_false_r, nullable_spec. split.
    + intros H. now exists "", "".
    + intros (w & rest & E & H). symmetry in E.
      apply append_eq_nil in E as [-> _]. exact H.
  - rewrite orb_true_iff, IH, nullable_spec. split.
    + intros [H | (w & rest & -> & H)].
      * now exists "", (String a s).
      * exists (String a w), rest. split; [reflexivity | now apply deriv_spec].
    + intros (w & rest & E & H). destruct w as [|b w]; simpl in E.
      * now left.
      * injection E as <- ->. right. exists w, rest.
        split; [reflexivity | now apply deriv_spec].
Qed.

(** [re.search]: some piece of the text is in the language. *)
Lemma search_spec (r : Re.regex) (s : string) :
  Re.search ic r s = true <->
  exists pre w post, s = (pre ++ w ++ post)%string /\ Re.Matches ic r w.
Proof.
  induction s as [|a s IH]; cbn [Re.search].
  - rewrite orb_false_r, match_spec. split.
    + intros (w & rest & E & H). now exists "", w, rest.
    + intros (pre & w & post & E & H). symmetry in E.
      apply append_eq_nil in E as [-> E]. now exists w, post.
  - rewrite orb_true_iff, IH, match_spec. split.
    + intros [(w & rest & E & H) | (pre & w & post & -> & H)].
      * now exists "", w, rest.
      * now exists (String a pre), w, post.
    + intros (pre & w & post & E & H). destruct pre as [|b pre]; simpl in E.
      * left. now exists w, post.
      * injection E as <- ->. right. now exists pre, w, post.
Qed.

(** A text that contains a word of the language is found by [re.search]. *)
Lemma search_contains (r : Re.regex) (s w : string) :
  Re.fullmatch ic r w = true -> Py.contains s w -> Re.search ic r s = true.
Proof.
  intros Hw (pre & post & ->). apply search_spec.
  exists pre, w, post. split; [reflexivity | now apply fullmatch_spec].
Qed.

End RegexFacts.

(** ** The safety validator *)

Lemma scan_length (kind : string) (patterns : list (string * Re.regex * string))
    (text : string) :
  length (PatchValidator.scan kind patterns text) <= length patterns.
Proof.
  induction patterns as [|[[p r] d] rest IH]; simpl; [lia |].
  destruct (Re.search true r text); simpl; lia.
Qed.

Lemma issues_bound (text : string) :
  length (PatchValidator.issues (PatchValidator.validate_patch_safety (PyStr text))) <= 9.
Proof. apply (scan_length "security" PatchValidator.dangerous_patterns). Qed.

Lemma warnings_bound (text : string) :
  length (PatchValidator.warnings (PatchValidator.validate_patch_safety (PyStr text))) <= 5.
Proof. apply (scan_length "quality" PatchValidator.mistake_patterns). Qed.

(** On every reachable pair of counts the binary64 score is within
    2^-50 of the formula over the rationals. *)
Lemma score_close_table :
  forallb (fun n => forallb (Exact.score_is_close n) (seq 0 6)) (seq 0 10) = true.
Proof. vm_compute. reflexivity. Qed.

Lemma score_close (n m : nat) :
  n <= 9 -> m <= 5 ->
  exists q, Exact.Q_of_float (PatchValidator.score n m) = Some q /\
            (Qabs (q - Exact.spec_score n m) <= Exact.tolerance)%Q.
Proof.
  intros Hn Hm.
  pose proof score_close_table as T.
  rewrite forallb_forall in T.
  specialize (T n). rewrite forallb_forall in T.
  assert (C : Exact.score_is_close n m = true).
  { apply T; apply in_seq; lia. }
  unfold Exact.score_is_close in C.
  destruct (Exact.Q_of_float (PatchValidator.score n m)) as [q|]; [| discriminate].
  exists q. split; [reflexivity | now apply Qle_bool_iff].
Qed.

(** A text with [rm -rf] in it is matched by the first dangerous pattern. *)
Lemma rm_rf_found (text : string) :
  Py.contains text "rm -rf" ->
  exists rest,
    PatchValidator.scan "security" PatchValidator.dangerous_patterns text =
    {| PatchValidator.i_type := "security";
       PatchValidator.i_pattern := Some "rm\s+-rf";
       PatchValidator.i_description := "Dangerous file deletion command" |} :: rest.
Proof.
  intros H. unfold PatchValidator.dangerous_patterns.
  cbn [PatchValidator.scan].
  match goal with
  | |- context [Re.search true ?R text] =>
      rewrite (search_contains true R text "rm -rf" eq_refl H)
  end.
  eexists. reflexivity.
Qed.

(** C3, as amended: for every patch text, [validate_patch_safety]
    returns as score the binary64 value of
    [max(0.0, 1.0 - (|issues| * 0.3 + |warnings| * 0.1))], which is
    within 2^-50 of max(0, 1 - 0.3|issues| - 0.1|warnings|) and not
    always equal to it, [is_safe] exactly when there is no issue, and
    the recommendation [safe] when [is_safe] and [review_required]
    otherwise; an internal error gives [reject], [is_safe] false and
    score 0; and a text that contains [rm -rf] is not safe and has a
    non-empty issue list. *)
Theorem validate_patch_safety_scoring (text : string) :
  let r := PatchValidator.validate_patch_safety (PyStr text) in
  let n := length (PatchValidator.issues r) in
  let m := length (PatchValidator.warnings r) in
  PatchValidator.safety_score r = PatchValidator.score n m
  /\ (exists q, Exact.Q_of_float (PatchValidator.safety_score r) = Some q /\
                (Qabs (q - Exact.spec_score n m) <= Exact.tolerance)%Q)
  /\ PatchValidator.is_safe r = (n =? 0)
  /\ PatchValidator.recommendation r =
       (if PatchValidator.is_safe r then "safe" else "review_required")
  /\ (let e := PatchValidator.validate_patch_safety PyNone in
      PatchValidator.recommendation e = "reject"
      /\ PatchValidator.is_safe e = false
      /\ PatchValidator.safety_score e = 0%float)
  /\ (Py.contains text "rm -rf" ->
      PatchValidator.is_safe r = false /\ PatchValidator.issues r <> []).
Proof.
  intros r n m.
  split; [reflexivity |].
  split; [apply score_close; [apply issues_bound | apply warnings_bound] |].
  split; [reflexivity |].
  split; [reflexivity |].
  split; [repeat split |].
  intros H. destruct (rm_rf_found text H) as [rest E].
  subst r. unfold PatchValidator.validate_patch_safety.
  cbn [PatchValidator.is_safe PatchValidator.issues].
  rewrite E. split; [reflexivity | discriminate].
Qed.

Lemma validate_patch_safety_scoring_witness :
  Py.contains "+rm -rf build" "rm -rf" /\
  PatchValidator.is_safe
    (PatchValidator.validate_patch_safety (PyStr "+rm -rf build")) = false /\
  PatchValidator.issues
    (PatchValidator.validate_patch_safety (PyStr "+rm -rf build")) <> [].
Proof.
  assert (H : Py.contains "+rm -rf build" "rm -rf").
  { exists "+", " build". reflexivity. }
  split; [exact H |].
  apply (validate_patch_safety_scoring "+rm -rf build"). exact H.
Defined.

(** The claim as stated fails: the score is computed in binary64.  A
    text that draws three issues and one warning gets the score 2^-53,
    about 1.1e-16, where max(0, 1 - 0.3*3 - 0.1*1) is 0. *)
Lemma validate_patch_safety_counterexample :
  let r := PatchValidator.validate_patch_safety (PyStr Examples.three_issues) in
  length (PatchValidator.issues r) = 3
  /\ length (PatchValidator.warnings r) = 1
  /\ (Exact.spec_score 3 1 == 0)%Q
  /\ PrimFloat.ltb 0%float (PatchValidator.safety_score r) = true
  /\ exists q, Exact.Q_of_float (PatchValidator.safety_score r) = Some q
               /\ (q == 1 # 9007199254740992)%Q.
Proof.
  split; [vm_compute; reflexivity |].
  split; [vm_compute; reflexivity |].
  split; [vm_compute; reflexivity |].
  split; [vm_compute; reflexivity |].
  eexists. split; [vm_compute; reflexivity | vm_compute; reflexivity].
Qed.

(** ** The quick check [is_safe_patch] *)

Lemma score_three_warnings (m : nat) :
  3 <= m -> m <= 5 ->
  PrimFloat.leb (PatchValidator.score 0 m) 0.7%float = true /\
  PrimFloat.ltb 0.7%float (PatchValidator.score 0 m) = false.
Proof.
  intros H3 H5.
  assert (C : m = 3 \/ m = 4 \/ m = 5) by lia.
  destruct C as [-> | [-> | ->]]; split; vm_compute; reflexivity.
Qed.

(** C10: [is_safe_patch] returns true only when the patch has no
    blocking issue and its safety score exceeds 0.7; so a patch with no
    issue but three or more warnings, whose score is at most 0.7, is
    judged unsafe. *)
Theorem is_safe_patch_needs_high_score (text : string) :
  let r := PatchValidator.validate_patch_safety (PyStr text) in
  (is_safe_patch (PyStr text) = true <->
     length (PatchValidator.issues r) = 0 /\
     PrimFloat.ltb 0.7%float (PatchValidator.safety_score r) = true)
  /\ (length (PatchValidator.issues r) = 0 ->
      3 <= length (PatchValidator.warnings r) ->
      PrimFloat.leb (PatchValidator.safety_score r) 0.7%float = true /\
      is_safe_patch (PyStr text) = false).
Proof.
  intros r. split.
  - unfold is_safe_patch. fold r.
    rewrite andb_true_iff.
    change (PatchValidator.is_safe r) with (length (PatchValidator.issues r) =? 0).
    now rewrite Nat.eqb_eq.
  - intros H0 H3.
    pose proof (warnings_bound text) as H5. fold r in H5.
    unfold is_safe_patch. fold r.
    change (PatchValidator.safety_score r)
      with (PatchValidator.score (length (PatchValidator.issues r))
                                 (length (PatchValidator.warnings r))).
    rewrite H0.
    destruct (score_three_warnings _ H3 H5) as [Hle Hlt].
    split; [exact Hle |]. rewrite Hlt. apply andb_false_r.
Qed.

Lemma is_safe_patch_needs_high_score_witness :
  is_safe_patch (PyStr "+password='x' # TODO print(") = false.
Proof.
  apply (is_safe_patch_needs_high_score "+password='x' # TODO print(").
  - vm_compute. reflexivity.
  - vm_compute. apply le_n.
Defined.

(** ** The format validator *)

Lemma lstrip_head (s : string) (c : ascii) (s' : string) :
  Py.lstrip s = String c s' -> Py.isspace c = false.
Proof.
  induction s as [|a s IH]; simpl; [discriminate |].
  destruct (Py.isspace a) eqn:E; [exact IH |].
  intros H. injection H as <- _. exact E.
Qed.

Lemma lstrip_blank (s : string) : Py.lstrip s = "" <-> Py.is_blank s = true.
Proof.
  induction s as [|a s IH]; simpl; [tauto |].
  destruct (Py.isspace a); simpl; [exact IH |].
  split; discriminate.
Qed.

Lemma rstrip_head (c : ascii) (s : string) :
  Py.isspace c = false -> Py.rstrip (String c s) <> "".
Proof.
  intros H. simpl. destruct (Py.rstrip s); [rewrite H |]; discriminate.
Qed.

(** [s.strip()] is empty exactly for the empty and whitespace-only texts. *)
Lemma strip_blank (s : string) : Py.strip s = "" <-> Py.is_blank s = true.
Proof.
  unfold Py.strip. rewrite <- lstrip_blank.
  destruct (Py.lstrip s) as [|c s'] eqn:E.
  - simpl. tauto.
  - split; [| discriminate].
    intros H. exfalso. revert H. apply rstrip_head. exact (lstrip_head s c s' E).
Qed.

Lemma contains_trans (a b c : string) :
  Py.contains a b -> Py.contains b c -> Py.contains a c.
Proof.
  intros (p1 & q1 & ->) (p2 & q2 & ->).
  exists (p1 ++ p2)%string, (q2 ++ q1)%string.
  now rewrite !append_assoc.
Qed.

Lemma join_contains (sep x : string) (l : list string) :
  In x l -> Py.contains (Py.join sep l) x.
Proof.
  induction l as [|y l IH]; [intros [] |].
  intros [-> | H].
  - destruct l as [|z l]; simpl.
    + apply contains_refl.
    + exists "", (sep ++ Py.join sep (z :: l))%string. reflexivity.
  - specialize (IH H). destruct l as [|z l]; [destruct H |].
    destruct IH as (pre & post & E).
    exists (y ++ sep ++ pre)%string, post.
    cbn [Py.join]. cbn [Py.join] in E. rewrite E.
    now rewrite !append_assoc.
Qed.

Lemma chunk_errors_In (lines : list string) :
  forall k i line,
    nth_error lines i = Some line ->
    Py.startswith line "@@" = true ->
    Re.match_ false PatchValidator.chunk_header_re line = false ->
    In (PatchValidator.chunk_error (k + i) line) (PatchValidator.chunk_errors k lines).
Proof.
  induction lines as [|l lines IH]; intros k i line Hn Hs Hm.
  - destruct i; discriminate.
  - destruct i as [|i]; cbn [nth_error] in Hn.
    + injection Hn as ->. cbn [PatchValidator.chunk_errors].
      rewrite Hs, Hm. simpl negb. cbv iota. left. now rewrite Nat.add_0_r.
    + specialize (IH (S k) i line Hn Hs Hm).
      replace (k + S i) with (S k + i) by lia.
      cbn [PatchValidator.chunk_errors].
      destruct (Py.startswith l "@@"); [| exact IH].
      destruct (negb (Re.match_ false PatchValidator.chunk_header_re l));
        [right |]; exact IH.
Qed.

Lemma chunk_errors_nil (lines : list string) :
  forall k,
    (forall line, In line lines -> Py.startswith line "@@" = true ->
                  Re.match_ false PatchValidator.chunk_header_re line = true) ->
    PatchValidator.chunk_errors k lines = [].
Proof.
  induction lines as [|l lines IH]; intros k H; [reflexivity |].
  cbn [PatchValidator.chunk_errors].
  destruct (Py.startswith l "@@") eqn:Hs.
  - rewrite (H l (or_introl eq_refl) Hs). simpl negb. cbv iota.
    apply IH. intros line Hin. apply H. now right.
  - apply IH. intros line Hin. apply H. now right.
Qed.

(** The shape of [validate_patch_format] once the text is not blank. *)
Lemma validate_patch_format_nonblank (text : string) :
  Py.strip text <> "" ->
  PatchValidator.validate_patch_format (PyStr text) =
  let lines := Py.split Py.newline (Py.strip text) in
  if negb (existsb (fun line => Py.startswith line "--- ") lines &&
           existsb (fun line => Py.startswith line "@@") lines)
  then PatchValidator.FormatError "Invalid diff format"
  else match PatchValidator.chunk_errors 0 lines with
       | [] => PatchValidator.FormatOk "unified_diff"
       | errs => PatchValidator.FormatError
                   ("Invalid chunk headers: " ++ Py.join "; " errs)
       end.
Proof.
  intros H. unfold PatchValidator.validate_patch_format.
  destruct (Py.strip text); [contradiction | reflexivity].
Qed.

(** C6, as amended: [validate_patch_format] works on the text with the
    surrounding whitespace removed and applies its rules in order.  An
    empty or whitespace-only text is invalid with the error
    [Empty patch content]; otherwise a text none of whose lines (after
    the trimming) starts with [--- ], or none of whose lines starts with
    [@@], is invalid; otherwise, if some line starting with [@@] is not
    matched by the chunk-header pattern, the text is invalid and the
    error holds the message naming the 1-based number of that line in
    the trimmed text; otherwise the text is valid. *)
Theorem validate_patch_format_rules (text : string) :
  let lines := Py.split Py.newline (Py.strip text) in
  let has_file := existsb (fun line => Py.startswith line "--- ") lines in
  let has_chunk := existsb (fun line => Py.startswith line "@@") lines in
  let r := PatchValidator.validate_patch_format (PyStr text) in
  (Py.is_blank text = true -> r = PatchValidator.FormatError "Empty patch content")
  /\ (Py.is_blank text = false -> has_file = false \/ has_chunk = false ->
      r = PatchValidator.FormatError "Invalid diff format")
  /\ (Py.is_blank text = false -> has_file = true -> has_chunk = true ->
      forall i line,
        nth_error lines i = Some line ->
        Py.startswith line "@@" = true ->
        Re.match_ false PatchValidator.chunk_header_re line = false ->
        exists err, r = PatchValidator.FormatError err /\
                    Py.contains err (PatchValidator.chunk_error i line))
  /\ (Py.is_blank text = false -> has_file = true -> has_chunk = true ->
      (forall line, In line lines -> Py.startswith line "@@" = true ->
                    Re.match_ false PatchValidator.chunk_header_re line = true) ->
      r = PatchValidator.FormatOk "unified_diff").
Proof.
  intros lines has_file has_chunk r.
  assert (NB : Py.is_blank text = false -> Py.strip text <> "").
  { intros B E. apply strip_blank in E. congruence. }
  repeat split.
  - intros B. apply strip_blank in B. subst r.
    unfold PatchValidator.validate_patch_format. now rewrite B.
  - intros B H. subst r. rewrite (validate_patch_format_nonblank text (NB B)).
    cbv zeta. fold lines. fold has_file. fold has_chunk.
    destruct H as [-> | ->]; [reflexivity | now rewrite andb_false_r].
  - intros B Hf Hc i line Hn Hs Hm. subst r.
    rewrite (validate_patch_format_nonblank text (NB B)).
    cbv zeta. fold lines. fold has_file. fold has_chunk.
    rewrite Hf, Hc. simpl negb. cbv iota.
    pose proof (chunk_errors_In lines 0 i line Hn Hs Hm) as Hin.
    simpl in Hin.
    destruct (PatchValidator.chunk_errors 0 lines) as [|e errs] eqn:E;
      [destruct Hin |].
    eexists. split; [reflexivity |].
    apply contains_trans with (b := Py.join "; " (e :: errs)).
    + exists "Invalid chunk headers: ", "". now rewrite append_nil_r.
    + now apply join_contains.
  - intros B Hf Hc H. subst r.
    rewrite (validate_patch_format_nonblank text (NB B)).
    cbv zeta. fold lines. fold has_file. fold has_chunk.
    rewrite Hf, Hc. simpl negb. cbv iota.
    now rewrite (chunk_errors_nil lines 0 H).
Qed.

Lemma validate_patch_format_rules_witness :
  PatchValidator.validate_patch_format (PyStr "   ") =
    PatchValidator.FormatError "Empty patch content"
  /\ PatchValidator.validate_patch_format (PyStr Examples.no_chunk_header) =
       PatchValidator.FormatError "Invalid diff format"
  /\ (exists err,
        PatchValidator.validate_patch_format (PyStr Examples.bad_header) =
          PatchValidator.FormatError err /\
        Py.contains err (PatchValidator.chunk_error 1 "@@ bad"))
  /\ PatchValidator.validate_patch_format (PyStr Examples.sample_patch) =
       PatchValidator.FormatOk "unified_diff".
Proof.
  split; [| split; [| split]].
  - apply (validate_patch_format_rules "   "). reflexivity.
  - apply (validate_patch_format_rules Examples.no_chunk_header).
    + reflexivity.
    + right. reflexivity.
  - apply (validate_patch_format_rules Examples.bad_header);
      solve [reflexivity | vm_compute; reflexivity].
  - apply (validate_patch_format_rules Examples.sample_patch);
      try solve [vm_compute; reflexivity].
    intros line H. vm_compute in H.
    repeat (destruct H as [<- | H]; [vm_compute; tauto |]). destruct H.
Defined.

(** The claim as stated fails on texts with surrounding whitespace: a
    text whose only file header is indented has no line that starts
    with [--- ] and is accepted; and after two leading blank lines the
    bad header that is the fourth line of the text is reported as
    line 2. *)
Lemma validate_patch_format_counterexample :
  (existsb (fun line => Py.startswith line "--- ")
           (Py.split Py.newline Examples.indented_header) = false
   /\ PatchValidator.validate_patch_format (PyStr Examples.indented_header) =
        PatchValidator.FormatOk "unified_diff")
  /\ (nth_error (Py.split Py.newline Examples.leading_blank_lines) 3 = Some "@@ bad"
      /\ PatchValidator.validate_patch_format (PyStr Examples.leading_blank_lines) =
           PatchValidator.FormatError
             "Invalid chunk headers: Invalid chunk header at line 2: @@ bad").
Proof. repeat split; vm_compute; reflexivity. Qed.

(** ** The chunk-header pattern and the reading of its groups *)

Section HeaderFacts.

Import PatchParser.

Lemma Matches_Cat_inv (r1 r2 : Re.regex) (w : string) :
  Re.Matches false (Re.Cat r1 r2) w ->
  exists w1 w2, w = (w1 ++ w2)%string /\ Re.Matches false r1 w1 /\ Re.Matches false r2 w2.
Proof. intros H. inversion H; subst. eauto. Qed.

Lemma Lit_spec (s : string) :
  forall w, Re.Matches false (Re.Lit s) w <-> w = s.
Proof.
  induction s as [|c s IH]; intros w.
  - cbn. split; [intros H; now inversion H | intros ->; constructor].
  - destruct s as [|c' s'].
    + cbn. split.
      * intros H. inversion H as [|cl a Hc| | | | |]; subst.
        cbn in Hc. apply Ascii.eqb_eq in Hc. now subst.
      * intros ->. constructor. cbn. apply Ascii.eqb_refl.
    + cbn [Re.Lit]. split.
      * intros H. apply Matches_Cat_inv in H as (w1 & w2 & -> & H1 & H2).
        apply IH in H2. subst w2.
        inversion H1 as [|cl a Hc| | | | |]; subst.
        cbn in Hc. apply Ascii.eqb_eq in Hc. now subst.
      * intros ->. change (String c (String c' s')) with (String c "" ++ String c' s')%string.
        constructor; [| now apply IH].
        constructor. cbn. apply Ascii.eqb_refl.
Qed.

Lemma Star_digit_sound (r : Re.regex) (w : string) :
  Re.Matches false r w -> r = Re.Star digit -> all_digits w = true.
Proof.
  induction 1; intros E; try discriminate.
  - reflexivity.
  - injection E as ->. specialize (IHMatches2 eq_refl).
    inversion H as [|cl a Hc| | | | |]; subst. cbn in Hc.
    cbn. now rewrite Hc.
Qed.

Lemma Star_digit_complete (w : string) :
  all_digits w = true -> Re.Matches false (Re.Star digit) w.
Proof.
  induction w as [|c w IH]; cbn; intros H; [constructor |].
  apply andb_true_iff in H as [Hc Hw].
  change (String c w) with (String c "" ++ w)%string.
  constructor; [now constructor | now apply IH].
Qed.

Lemma Plus_digit_spec (w : string) :
  Re.Matches false (Re.Plus digit) w <-> is_number w.
Proof.
  unfold Re.Plus, is_number. split.
  - intros H. apply Matches_Cat_inv in H as (w1 & w2 & -> & H1 & H2).
    inversion H1 as [|cl a Hc| | | | |]; subst. cbn in Hc.
    split; [discriminate |]. cbn. rewrite Hc.
    exact (Star_digit_sound _ _ H2 eq_refl).
  - intros [Hn Hd]. destruct w as [|c w]; [contradiction |].
    cbn in Hd. apply andb_true_iff in Hd as [Hc Hw].
    change (String c w) with (String c "" ++ w)%string.
    constructor; [now constructor | now apply Star_digit_complete].
Qed.

Lemma Opt_count_spec (w : string) :
  Re.Matches false (Re.Opt (Re.Cat (Re.Lit ",") (Re.Plus digit))) w <-> is_count w.
Proof.
  unfold Re.Opt, is_count. split.
  - intros H. inversion H as [| | |r1 r2 w0 H1|r1 r2 w0 H1| |]; subst.
    + right. apply Matches_Cat_inv in H1 as (w1 & w2 & -> & Ha & Hb).
      apply (Lit_spec ",") in Ha. subst w1. apply Plus_digit_spec in Hb. eauto.
    + left. now inversion H1.
  - intros [-> | (d & -> & Hd)].
    + apply Re.MAltR. constructor.
    + apply Re.MAltL. constructor; [now apply (Lit_spec ",") | now apply Plus_digit_spec].
Qed.

Lemma header_language (w : string) :
  Re.Matches false chunk_header_re w <-> exists d1 o1 d2 o2, header_word w d1 o1 d2 o2.
Proof.
  unfold chunk_header_re, header_word. cbn [Re.Seq]. split.
  - intros H.
    apply Matches_Cat_inv in H as (a & w1 & -> & Ha & H).
    apply Matches_Cat_inv in H as (d1 & w2 & -> & Hd1 & H).
    apply Matches_Cat_inv in H as (o1 & w3 & -> & Ho1 & H).
    apply Matches_Cat_inv in H as (b & w4 & -> & Hb & H).
    apply Matches_Cat_inv in H as (d2 & w5 & -> & Hd2 & H).
    apply Matches_Cat_inv in H as (o2 & c & -> & Ho2 & Hc).
    apply Lit_spec in Ha, Hb, Hc. subst a b c.
    apply Plus_digit_spec in Hd1, Hd2. apply Opt_count_spec in Ho1, Ho2.
    exists d1, o1, d2, o2.
    split; [reflexivity |]. split; [exact Hd1 |]. split; [exact Ho1 |].
    split; [exact Hd2 | exact Ho2].
  - intros (d1 & o1 & d2 & o2 & -> & Hd1 & Ho1 & Hd2 & Ho2).
    constructor; [now apply Lit_spec |].
    constructor; [now apply Plus_digit_spec |].
    constructor; [now apply Opt_count_spec |].
    constructor; [now apply Lit_spec |].
    constructor; [now apply Plus_digit_spec |].
    constructor; [now apply Opt_count_spec | now apply Lit_spec].
Qed.

(** *** The scanner *)

Lemma eat_app (p s : string) : eat p (p ++ s) = Some s.
Proof.
  induction p as [|c p IH]; cbn; [reflexivity |].
  now rewrite Ascii.eqb_refl.
Qed.

Lemma eat_Some (p : string) : forall s r, eat p s = Some r -> s = (p ++ r)%string.
Proof.
  induction p as [|c p IH]; cbn; intros s r H.
  - now injection H as ->.
  - destruct s as [|d s]; [discriminate |].
    destruct (Ascii.eqb c d) eqn:E; [| discriminate].
    apply Ascii.eqb_eq in E. subst d. now rewrite (IH s r H).
Qed.

Lemma digits_app (d r : string) :
  all_digits d = true -> no_digit_ahead r -> digits (d ++ r) = (d, r).
Proof.
  induction d as [|c d IH]; cbn; intros Hd Hr.
  - destruct r as [|c r]; [reflexivity |]. cbn in Hr. cbn. now rewrite Hr.
  - apply andb_true_iff in Hd as [Hc Hd]. rewrite Hc, (IH Hd Hr). reflexivity.
Qed.

Lemma digits_spec (s : string) :
  s = (fst (digits s) ++ snd (digits s))%string
  /\ all_digits (fst (digits s)) = true
  /\ no_digit_ahead (snd (digits s)).
Proof.
  induction s as [|c s (IH1 & IH2 & IH3)]; cbn; [auto |].
  destruct (Py.isdigit c) eqn:E.
  - destruct (digits s) as [d r]. cbn in *. rewrite E. subst s. auto.
  - cbn. auto.
Qed.

Lemma number_app (d r : string) :
  is_number d -> no_digit_ahead r -> number (d ++ r) = Some (d, r).
Proof.
  intros [Hn Hd] Hr. unfold number. rewrite (digits_app d r Hd Hr).
  destruct d; [contradiction | reflexivity].
Qed.

Lemma number_Some (s d r : string) :
  number s = Some (d, r) ->
  s = (d ++ r)%string /\ is_number d /\ no_digit_ahead r.
Proof.
  unfold number. destruct (digits_spec s) as (E & Hd & Hr).
  destruct (digits s) as [d' r']. cbn in *.
  destruct d' as [|c d']; [discriminate |].
  intros H. injection H as <- <-.
  repeat split; [exact E | discriminate | exact Hd | exact Hr].
Qed.

Lemma count_then (o rest : string) (a : ascii) :
  is_count o -> a <> ","%char -> Py.isdigit a = false ->
  opt_count (o ++ String a rest) =
  (match o with EmptyString => None | String _ d => Some d end, String a rest).
Proof.
  intros [-> | (d & -> & Hd)] Ha Hdig.
  - unfold opt_count. cbn [append eat].
    destruct (Ascii.eqb_spec ","%char a) as [E | _]; [now subst a | reflexivity].
  - unfold opt_count. cbn [append eat]. rewrite Ascii.eqb_refl.
    cbn [eat]. rewrite number_app; [reflexivity | exact Hd | exact Hdig].
Qed.

Lemma opt_count_Some (s : string) (g : option string) (r : string) :
  opt_count s = (g, r) ->
  exists o, s = (o ++ r)%string /\ is_count o /\
            g = match o with EmptyString => None | String _ d => Some d end.
Proof.
  unfold opt_count.
  destruct (eat "," s) as [r1|] eqn:E.
  - destruct (number r1) as [[d r']|] eqn:N.
    + intros H. injection H as <- <-.
      apply eat_Some in E. apply number_Some in N as (-> & Hd & _).
      exists ("," ++ d)%string. subst s. repeat split.
      right. now exists d.
    + intros H. injection H as <- <-. exists "". repeat split. now left.
  - intros H. injection H as <- <-. exists "". repeat split. now left.
Qed.

(** [int] refuses exactly the texts of more than 4300 digits. *)
Lemma int_of_str_Some (d : string) :
  String.length d <= Py.max_str_digits -> Py.int_of_str d = Some (Py.int_of_digits d).
Proof.
  intros H. unfold Py.int_of_str.
  destruct (Nat.ltb_spec Py.max_str_digits (String.length d)); [lia | reflexivity].
Qed.

Lemma int_of_str_None (d : string) :
  Py.int_of_str d = None <-> Py.max_str_digits < String.length d.
Proof.
  unfold Py.int_of_str.
  destruct (Nat.ltb_spec Py.max_str_digits (String.length d)); split;
    intros H'; solve [assumption | reflexivity | discriminate | lia].
Qed.

(** The groups of a matched header: the first and third hold the start
    numbers, the second and fourth the counts when they are written;
    the dictionary is built when [int] reads all of them. *)
Lemma parse_chunk_header_word (d1 o1 d2 o2 rest : string) :
  is_number d1 -> is_count o1 -> is_number d2 -> is_count o2 ->
  _parse_chunk_header ("@@ -" ++ d1 ++ o1 ++ " +" ++ d2 ++ o2 ++ " @@" ++ rest) =
  match Py.int_of_str d1, count_of (group_of o1),
        Py.int_of_str d2, count_of (group_of o2) with
  | Some a, Some b, Some c, Some d =>
      Some {| ci_old_start := a; ci_old_count := b;
              ci_new_start := c; ci_new_count := d |}
  | _, _, _, _ => None
  end.
Proof.
  intros Hd1 Ho1 Hd2 Ho2. unfold _parse_chunk_header.
  rewrite eat_app.
  assert (A1 : no_digit_ahead (o1 ++ " +" ++ d2 ++ o2 ++ " @@" ++ rest)).
  { destruct Ho1 as [-> | (d & -> & _)]; reflexivity. }
  rewrite (number_app d1 _ Hd1 A1).
  change (" +" ++ d2 ++ o2 ++ " @@" ++ rest)%string
    with (String " " ("+" ++ d2 ++ o2 ++ " @@" ++ rest))%string.
  rewrite (count_then o1 _ " "%char Ho1); [| discriminate | reflexivity].
  change (String " " ("+" ++ d2 ++ o2 ++ " @@" ++ rest))%string
    with (" +" ++ (d2 ++ o2 ++ " @@" ++ rest))%string.
  rewrite eat_app.
  assert (A2 : no_digit_ahead (o2 ++ " @@" ++ rest)).
  { destruct Ho2 as [-> | (d & -> & _)]; reflexivity. }
  rewrite (number_app d2 _ Hd2 A2).
  change (" @@" ++ rest)%string with (String " " ("@@" ++ rest))%string.
  rewrite (count_then o2 _ " "%char Ho2); [| discriminate | reflexivity].
  change (String " " ("@@" ++ rest))%string with (" @@" ++ rest)%string.
  rewrite eat_app. reflexivity.
Qed.

(** A line for which [_parse_chunk_header] returns a dictionary is one
    on which [re.match] finds the pattern. *)
Lemma parse_chunk_header_matches (line : string) :
  _parse_chunk_header line <> None -> Re.match_ false chunk_header_re line = true.
Proof.
  rewrite match_spec.
  intros H. unfold _parse_chunk_header in H.
  destruct (eat "@@ -" line) as [r1|] eqn:E1; [| contradiction].
  destruct (number r1) as [[g1 r2]|] eqn:N1; [| contradiction].
  destruct (opt_count r2) as [g2 r3] eqn:O1.
  destruct (eat " +" r3) as [r4|] eqn:E2; [| contradiction].
  destruct (number r4) as [[g3 r5]|] eqn:N2; [| contradiction].
  destruct (opt_count r5) as [g4 r6] eqn:O2.
  destruct (eat " @@" r6) as [r7|] eqn:E3; [| contradiction].
  apply eat_Some in E1, E2, E3.
  apply number_Some in N1 as (-> & Hd1 & _), N2 as (-> & Hd2 & _).
  apply opt_count_Some in O1 as (o1 & -> & Ho1 & _), O2 as (o2 & -> & Ho2 & _).
  subst.
  exists ("@@ -" ++ g1 ++ o1 ++ " +" ++ g3 ++ o2 ++ " @@")%string, r7.
  split.
  - cbn [append]. repeat (rewrite !append_assoc; cbn [append]). reflexivity.
  - apply header_language. exists g1, o1, g3, o2.
    split; [reflexivity |]. split; [exact Hd1 |]. split; [exact Ho1 |].
    split; [exact Hd2 | exact Ho2].
Qed.

Lemma length_append (a b : string) :
  String.length (a ++ b) = String.length a + String.length b.
Proof. induction a as [|c a IH]; cbn; [reflexivity | now rewrite IH]. Qed.

Lemma count_of_short (o : string) :
  String.length o <= Py.max_str_digits -> count_of (group_of o) <> None.
Proof.
  intros H. destruct o as [|c d]; cbn [group_of count_of]; [discriminate |].
  rewrite int_of_str_Some; [discriminate |]. cbn [String.length] in H. lia.
Qed.

(** A line on which [re.match] finds the pattern and which has at most
    4300 characters is read: no number in it is too long for [int]. *)
Lemma parse_chunk_header_short (line : string) :
  Re.match_ false chunk_header_re line = true ->
  String.length line <= Py.max_str_digits ->
  _parse_chunk_header line <> None.
Proof.
  rewrite match_spec. intros (w & rest & -> & H) L.
  apply header_language in H as (d1 & o1 & d2 & o2 & -> & Hd1 & Ho1 & Hd2 & Ho2).
  replace (("@@ -" ++ d1 ++ o1 ++ " +" ++ d2 ++ o2 ++ " @@") ++ rest)%string
    with ("@@ -" ++ d1 ++ o1 ++ " +" ++ d2 ++ o2 ++ " @@" ++ rest)%string in *.
  2:{ cbn [append]. repeat (rewrite !append_assoc; cbn [append]). reflexivity. }
  rewrite parse_chunk_header_word by assumption.
  rewrite !length_append in L.
  rewrite (int_of_str_Some d1) by lia. rewrite (int_of_str_Some d2) by lia.
  pose proof (count_of_short o1) as K1. pose proof (count_of_short o2) as K2.
  destruct (count_of (group_of o1)); [| exfalso; apply K1; [lia | reflexivity]].
  destruct (count_of (group_of o2)); [| exfalso; apply K2; [lia | reflexivity]].
  discriminate.
Qed.

(** The format check and the parser use the same pattern. *)
Lemma chunk_header_patterns_agree :
  PatchValidator.chunk_header_re = PatchParser.chunk_header_re.
Proof. reflexivity. Qed.

End HeaderFacts.

(** ** The parser *)

Section ParserFacts.

Import PatchParser.

Lemma append_line_agrees (dl : diff_line) (c : chunk) :
  header_agrees c -> header_agrees (append_line dl c).
Proof. intros H. exact H. Qed.

Lemma update_last_Forall {A : Type} (P : A -> Prop) (f : A -> A) (l : list A) :
  (forall x, P x -> P (f x)) -> Forall P l -> Forall P (update_last f l).
Proof.
  intros Hf. induction 1 as [|x l Hx Hl IH]; [constructor |].
  destruct l as [|y l]; cbn [update_last].
  - constructor; auto.
  - constructor; [exact Hx | exact IH].
Qed.

Lemma flush_agrees (st : loop_state) :
  state_agrees st -> Forall file_agrees (flush st).
Proof.
  intros [Hf Hc]. unfold flush.
  destruct (current_file st); [| exact Hf].
  apply Forall_app. split; [exact Hf | constructor; [exact Hc | constructor]].
Qed.

Lemma new_chunk_agrees (line : string) (ci : chunk_info) :
  _parse_chunk_header line = Some ci ->
  header_agrees {| header := line;
                   old_start := ci_old_start ci; old_count := ci_old_count ci;
                   new_start := ci_new_start ci; new_count := ci_new_count ci;
                   lines := [] |}.
Proof. intros H. unfold header_agrees. cbn. rewrite H. now destruct ci. Qed.

(** One iteration of the loop keeps the recorded numbers in agreement
    with the headers. *)
Lemma parse_line_agrees (st : loop_state) (line : string) :
  state_agrees st -> state_agrees (parse_line st line).
Proof.
  intros Hst. pose proof Hst as [Hf Hc]. unfold parse_line.
  destruct (Py.startswith line "--- a/").
  { split; cbn; [now apply flush_agrees | constructor]. }
  destruct (Py.startswith line "+++ b/").
  { destruct (current_file st) as [f|] eqn:E; [| exact Hst]. split; cbn; assumption. }
  destruct (Py.startswith line "@@").
  { destruct (current_file st) as [f|] eqn:E; [| exact Hst].
    destruct (_parse_chunk_header line) as [ci|] eqn:P;
      [| split; [exact Hf | now rewrite E]].
    split; cbn; [exact Hf |].
    apply Forall_app. split; [exact Hc |].
    constructor; [now apply new_chunk_agrees | constructor]. }
  destruct (current_file st) as [f|] eqn:E; [| exact Hst].
  destruct (chunks f) as [|c0 cs] eqn:C; [split; [exact Hf | now rewrite E] |].
  unfold file_agrees in Hc. rewrite C in Hc.
  destruct (Py.startswith line "+");
    [| destruct (Py.startswith line "-")];
    (split; [exact Hf |]);
    cbn [current_file]; unfold file_agrees; cbn [chunks];
    (apply update_last_Forall; [intros x; apply append_line_agrees | exact Hc]).
Qed.

Lemma fold_parse_agrees (lines : list string) :
  forall st, state_agrees st -> state_agrees (fold_left parse_line lines st).
Proof.
  induction lines as [|l lines IH]; intros st H; [exact H |].
  cbn [fold_left]. apply IH. now apply parse_line_agrees.
Qed.

End ParserFacts.

(** C8, as amended: [parse_unified_diff] makes no check of the line
    counts.  For every diff text it returns a parsed diff, whose
    [total_files] is the number of its files and in which every chunk
    records the start and count numbers that its header line declares,
    whatever the number of lines that follow the header. *)
Theorem parse_unified_diff_keeps_declared_counts (diff_content : string) :
  let p := PatchParser.parse_unified_diff diff_content in
  PatchParser.total_files p = length (PatchParser.files p) /\
  forall f c,
    In f (PatchParser.files p) -> In c (PatchParser.chunks f) ->
    PatchParser._parse_chunk_header (PatchParser.header c) =
    Some {| PatchParser.ci_old_start := PatchParser.old_start c;
            PatchParser.ci_old_count := PatchParser.old_count c;
            PatchParser.ci_new_start := PatchParser.new_start c;
            PatchParser.ci_new_count := PatchParser.new_count c |}.
Proof.
  intros p. split; [reflexivity |].
  intros f c Hf Hc.
  assert (A : Forall PatchParser.file_agrees (PatchParser.files p)).
  { apply flush_agrees, fold_parse_agrees. split; constructor. }
  rewrite Forall_forall in A. specialize (A f Hf).
  unfold PatchParser.file_agrees in A. rewrite Forall_forall in A.
  exact (A c Hc).
Qed.

Lemma parse_unified_diff_keeps_declared_counts_witness :
  exists f c,
    In f (PatchParser.files (PatchParser.parse_unified_diff Examples.short_chunk)) /\
    In c (PatchParser.chunks f) /\
    PatchParser._parse_chunk_header (PatchParser.header c) =
    Some {| PatchParser.ci_old_start := 1%N; PatchParser.ci_old_count := 5%N;
            PatchParser.ci_new_start := 1%N; PatchParser.ci_new_count := 5%N |} /\
    length (PatchParser.lines c) = 2.
Proof.
  eexists. eexists.
  assert (Hf : In (hd (PatchParser.mk_file "" None [] 0 0)
                      (PatchParser.files (PatchParser.parse_unified_diff Examples.short_chunk)))
                  (PatchParser.files (PatchParser.parse_unified_diff Examples.short_chunk))).
  { vm_compute. left. reflexivity. }
  split; [exact Hf |].
  assert (Hc : In (PatchParser.mk_chunk "@@ -1,5 +1,5 @@" 1 5 1 5
                     [PatchParser.mk_line PatchParser.deletion "x=1";
                      PatchParser.mk_line PatchParser.addition "x=2"])
                  (PatchParser.chunks
                     (hd (PatchParser.mk_file "" None [] 0 0)
                         (PatchParser.files
                            (PatchParser.parse_unified_diff Examples.short_chunk))))).
  { vm_compute. left. reflexivity. }
  split; [exact Hc |].
  split; [| reflexivity].
  exact (proj2 (parse_unified_diff_keeps_declared_counts Examples.short_chunk) _ _ Hf Hc).
Defined.

(** The claim as stated fails: the chunk below declares five old and
    five new lines, has one deletion and one addition, and is parsed
    into a diff with one file all the same. *)
Lemma parse_unified_diff_counterexample :
  PatchParser.all_counts_match (PatchParser.parse_unified_diff Examples.short_chunk) = false
  /\ PatchParser.total_files (PatchParser.parse_unified_diff Examples.short_chunk) = 1
  /\ PatchParser.parse_unified_diff Examples.short_chunk <> PatchParser.empty_parsed
  /\ PatchValidator.validate_patch_format (PyStr Examples.short_chunk) =
       PatchValidator.FormatOk "unified_diff".
Proof. repeat split; try (vm_compute; reflexivity). vm_compute. discriminate. Qed.

(** ** The apply gate *)

Lemma low_confidence_fails :
  PrimFloat.leb ProposalService.confidence_threshold 0.5%float = false.
Proof. vm_compute. reflexivity. Qed.

(** The combined flag is the conjunction of the three checks. *)
Lemma v_is_safe_iff (W : world) (p : Proposal) :
  ProposalService.v_is_safe (ProposalService.validate_proposal_safety W p) = true <->
  PatchValidator.valid (PatchValidator.validate_patch_format (PyStr (patch_diff p))) = true
  /\ PatchValidator.is_safe (PatchValidator.validate_patch_safety (PyStr (patch_diff p))) = true
  /\ PrimFloat.leb 0.7%float (confidence_score p) = true.
Proof.
  unfold ProposalService.validate_proposal_safety.
  cbn [ProposalService.v_is_safe].
  rewrite !andb_true_iff. unfold ProposalService.confidence_threshold. tauto.
Qed.

Lemma v_is_safe_false (W : world) (p : Proposal) :
  PatchValidator.valid (PatchValidator.validate_patch_format (PyStr (patch_diff p))) = false
  \/ PatchValidator.is_safe (PatchValidator.validate_patch_safety (PyStr (patch_diff p))) = false
  \/ PrimFloat.leb 0.7%float (confidence_score p) = false ->
  ProposalService.v_is_safe (ProposalService.validate_proposal_safety W p) = false.
Proof.
  intros H.
  destruct (ProposalService.v_is_safe (ProposalService.validate_proposal_safety W p)) eqn:E;
    [| reflexivity].
  apply v_is_safe_iff in E. destruct E as (E1 & E2 & E3).
  destruct H as [H | [H | H]]; congruence.
Qed.

(** A proposal that fails the validation is turned down by
    [apply_proposal_direct] before anything is done. *)
Lemma direct_refused (W : world) (p : Proposal) (u : User) (h : list event) :
  ProposalService.v_is_safe (ProposalService.validate_proposal_safety W p) = false ->
  ProposalService.apply_proposal_direct W p u h =
  (ProposalService.DirectFailed "Proposal failed safety validation"
     (Some (ProposalService.v_issues (ProposalService.validate_proposal_safety W p))),
   []).
Proof.
  intros H. unfold ProposalService.apply_proposal_direct. now rewrite H.
Qed.

(** C1: the validation behind the apply gate reports [is_safe] exactly
    when the patch is format-valid, the safety check says [is_safe] and
    the confidence score is at least 0.7.  In particular a proposal with
    confidence 0.5 whose patch is format-valid and safe gets
    [is_safe = false], its issues hold the low-confidence entry, and
    [apply_proposal_direct] turns it down. *)
Theorem validate_proposal_safety_gate (W : world) (p : Proposal) :
  let v := ProposalService.validate_proposal_safety W p in
  let f := PatchValidator.validate_patch_format (PyStr (patch_diff p)) in
  let s := PatchValidator.validate_patch_safety (PyStr (patch_diff p)) in
  (ProposalService.v_is_safe v = true <->
     PatchValidator.valid f = true /\ PatchValidator.is_safe s = true /\
     PrimFloat.leb 0.7%float (confidence_score p) = true)
  /\ (confidence_score p = 0.5%float ->
      PatchValidator.valid f = true -> PatchValidator.is_safe s = true ->
      ProposalService.v_is_safe v = false
      /\ In {| PatchValidator.i_type := "confidence";
               PatchValidator.i_pattern := None;
               PatchValidator.i_description :=
                 "Low confidence score: " ++ float_str W 0.5%float |}
            (ProposalService.v_issues v)
      /\ forall u h,
           ProposalService.apply_proposal_direct W p u h =
           (ProposalService.DirectFailed "Proposal failed safety validation"
              (Some (ProposalService.v_issues v)), [])).
Proof.
  intros v f s. split; [apply v_is_safe_iff |].
  intros Hc Hf Hs.
  assert (Hv : ProposalService.v_is_safe v = false).
  { apply v_is_safe_false. right. right. rewrite Hc. exact low_confidence_fails. }
  split; [exact Hv |]. split.
  - subst v. unfold ProposalService.validate_proposal_safety.
    cbn [ProposalService.v_issues]. rewrite Hc, low_confidence_fails.
    apply in_or_app. right. apply in_or_app. right. left. reflexivity.
  - intros u h. now apply direct_refused.
Qed.

Lemma validate_proposal_safety_gate_witness :
  ProposalService.v_is_safe
    (ProposalService.validate_proposal_safety Examples.world_ok
       Examples.low_confidence) = false
  /\ In {| PatchValidator.i_type := "confidence";
           PatchValidator.i_pattern := None;
           PatchValidator.i_description := "Low confidence score: 0.5" |}
        (ProposalService.v_issues
           (ProposalService.validate_proposal_safety Examples.world_ok
              Examples.low_confidence)).
Proof.
  destruct (proj2 (validate_proposal_safety_gate Examples.world_ok Examples.low_confidence))
    as (H1 & H2 & _).
  - reflexivity.
  - vm_compute. reflexivity.
  - vm_compute. reflexivity.
  - split; [exact H1 | exact H2].
Defined.



(** The apply endpoint never gets a proposal: [_get_proposal_by_id]
    looks up a name that the module does not bind. *)
Lemma get_proposal_by_id_None (query : list event -> string + option Proposal)
    (h : list event) :
  Api._get_proposal_by_id query h = (None, []).
Proof. reflexivity. Qed.




(** ** The git workflow *)

Lemma run_git_command_eq (W : world) (cmd : list string) (cwd : option string)
    (t : Z) (h : list event) :
  GitOperationsService._run_git_command W cmd cwd t h =
  (GitOperationsService.result_of (subprocess W h cmd cwd t) t, [EvGit cmd cwd t]).
Proof. reflexivity. Qed.

(** Unfolding the services down to the answers of the world. *)
Ltac unfold_services :=
  unfold ProposalService.apply_proposal_direct,
         ProposalService.record_applied,
         GitHubService.create_proposal_pr,
         GitHubService.post_pull_request,
         GitHubService._create_branch_with_proposal_changes,
         GitOperationsService.clone_repository,
         GitOperationsService.create_branch,
         GitOperationsService.apply_patch,
         GitOperationsService._validate_patch,
         GitOperationsService._create_backup,
         GitOperationsService._rollback_from_backup,
         GitOperationsService.commit_changes,
         GitOperationsService.push_branch,
         GitOperationsService.cleanup_repository,
         GitOperationsService.write,
         GitOperationsService.remove,
         GitOperationsService._run_git_command,
         bind, ret, emit, ask in *.

Ltac run_services :=
  cbn -[GitOperationsService.result_of ProposalService.validate_proposal_safety
        Py.str_of_Z Py.str_of_nat PyMore.replace Py.split Py.strip
        GitOperationsService._prepare_clone_url String.append] in *.

(** Case analysis on the next answer that the run waits for: an answer
    of the world, or what an attribute read gives. *)
Ltac next_answer :=
  match goal with
  | |- context [if negb (GitOperationsService.success ?r) then _ else _] =>
      destruct (GitOperationsService.success r) eqn:?
  | |- context [if GitOperationsService.success ?r then _ else _] =>
      destruct (GitOperationsService.success r) eqn:?
  | |- context [if path_exists ?W ?h ?p then _ else _] =>
      destruct (path_exists W h p) eqn:?
  | |- context [if (resp_status ?r =? 201) then _ else _] =>
      destruct (resp_status r =? 201) eqn:?
  | |- context [match write_file ?W ?h ?p ?c with _ => _ end] =>
      destruct (write_file W h p c) eqn:?
  | |- context [match remove_file ?W ?h ?p with _ => _ end] =>
      destruct (remove_file W h p) eqn:?
  | |- context [match db_execute ?W ?h with _ => _ end] =>
      destruct (db_execute W h) eqn:?
  | |- context [match db_commit ?W ?h with _ => _ end] =>
      destruct (db_commit W h) eqn:?
  | |- context [match http_post ?W ?h ?u ?t ?d with _ => _ end] =>
      destruct (http_post W h u t d) eqn:?
  | |- context [match ProposalService.name_or ?u ?f with _ => _ end] =>
      destruct (ProposalService.name_or u f) eqn:?
  | |- context [match ProposalService.access_token ?u with _ => _ end] =>
      destruct (ProposalService.access_token u) eqn:?
  | |- context [match github_access_token ?u with _ => _ end] =>
      destruct (github_access_token u) eqn:?
  | |- context [match repository ?f with _ => _ end] =>
      destruct (repository f) eqn:?
  | |- context [match GitHubService._generate_pr_description ?W ?p ?d with _ => _ end] =>
      destruct (GitHubService._generate_pr_description W p d) eqn:?
  end; run_services.








(** ** The status of a proposal during an attempt *)















(** ** Time limits of the git commands *)

(** Whatever the command, the result says [timed out] only when the
    process interface itself raised [asyncio.TimeoutError] or handed
    that very text back: the function sets no timer of its own. *)
Lemma timeout_diagnostic_origin (W : world) (cmd : list string) (cwd : option string)
    (t : Z) (h : list event) :
  GitOperationsService.error
    (fst (GitOperationsService._run_git_command W cmd cwd t h)) =
  GitOperationsService.timeout_error t ->
  subprocess W h cmd cwd t = RaisedTimeoutError
  \/ subprocess W h cmd cwd t = RaisedException (GitOperationsService.timeout_error t)
  \/ exists rc out,
       subprocess W h cmd cwd t = Completed rc out (GitOperationsService.timeout_error t).
Proof.
  rewrite run_git_command_eq. cbn [fst].
  destruct (subprocess W h cmd cwd t) as [rc out err | | msg];
    cbn [GitOperationsService.result_of GitOperationsService.error]; intros H.
  - right. right. exists rc, out. now rewrite H.
  - now left.
  - right. left. now rewrite H.
Qed.

(** C7 (the code departs from the claim): with the process interface of
    the Python library, where [create_subprocess_exec] rejects the
    keyword [timeout], every git command, whatever its time limit, ends
    at once in the general failure with the text of that [TypeError];
    the result never is the timeout diagnostic. *)
Theorem run_git_command_timeout_unenforced (cmd : list string) (cwd : option string)
    (t : Z) (h : list event) :
  let r := fst (GitOperationsService._run_git_command Examples.world_python cmd cwd t h) in
  r = {| GitOperationsService.success := false;
         GitOperationsService.output := "";
         GitOperationsService.error := Examples.popen_type_error;
         GitOperationsService.returncode := (-1)%Z |}
  /\ GitOperationsService.error r <> GitOperationsService.timeout_error t
  /\ fst (GitOperationsService.clone_repository Examples.world_python
            Examples.demo_repository "main" (Some "token") h) = None.
Proof.
  split; [reflexivity |]. split; [discriminate | reflexivity].
Qed.

(** ** Webhook checks *)

(** What the two checks compute: with a secret configured, acceptance
    is equality with the expected value, provided both texts are ASCII;
    without a secret nothing is accepted. *)
Lemma verify_webhook_accepts (hmac_hex : string -> string -> string)
    (webhook_secret payload signature token : string) :
  (Webhook.verify_webhook_signature hmac_hex webhook_secret payload signature = Some true <->
     webhook_secret <> "" /\
     Webhook.is_ascii signature = true /\
     Webhook.is_ascii ("sha256=" ++ hmac_hex webhook_secret payload) = true /\
     signature = ("sha256=" ++ hmac_hex webhook_secret payload)%string)
  /\ (Webhook.verify_webhook_token webhook_secret token = Some true <->
        webhook_secret <> "" /\
        Webhook.is_ascii token = true /\ Webhook.is_ascii webhook_secret = true /\
        token = webhook_secret).
Proof.
  unfold Webhook.verify_webhook_signature, Webhook.verify_webhook_token,
    Webhook.compare_digest.
  split.
  - destruct webhook_secret as [|c s]; [split; [discriminate | intros [H _]; now destruct H] |].
    set (expected := ("sha256=" ++ hmac_hex (String c s) payload)%string).
    destruct (Webhook.is_ascii signature), (Webhook.is_ascii expected); cbn [andb];
      try (split; [discriminate | intros (_ & H1 & H2 & _); discriminate]).
    split.
    + intros H. injection H as H. apply String.eqb_eq in H.
      repeat split; [discriminate | exact H].
    + intros (_ & _ & _ & ->). now rewrite String.eqb_refl.
  - destruct webhook_secret as [|c s]; [split; [discriminate | intros [H _]; now destruct H] |].
    destruct (Webhook.is_ascii token), (Webhook.is_ascii (String c s)); cbn [andb];
      try (split; [discriminate | intros (_ & H1 & H2 & _); discriminate]).
    split.
    + intros H. injection H as H. apply String.eqb_eq in H.
      repeat split; [discriminate | exact H].
    + intros (_ & _ & _ & ->). now rewrite String.eqb_refl.
Qed.

(* ===================================================================== *)
(** * Further properties *)
(* ===================================================================== *)

(** ** What the parser counts *)

Section ParserCounts.

Import PatchParser PatchSummary.

Lemma list_sum_cons (x : nat) (l : list nat) : list_sum (x :: l) = x + list_sum l.
Proof. reflexivity. Qed.

Lemma count_type_append (t : line_type) (dl : diff_line) (c : chunk) :
  count_type t (append_line dl c) =
  count_type t c + match l_type dl, t with
                   | addition, addition | deletion, deletion | context, context => 1
                   | _, _ => 0
                   end.
Proof.
  unfold count_type, append_line. cbn [lines].
  rewrite filter_app, length_app. cbn [filter].
  destruct (l_type dl), t; reflexivity.
Qed.

Lemma recorded_update_last (t : line_type) (dl : diff_line) (cs : list chunk) :
  cs <> [] ->
  list_sum (map (count_type t) (update_last (append_line dl) cs)) =
  list_sum (map (count_type t) cs) +
  match l_type dl, t with
  | addition, addition | deletion, deletion | context, context => 1
  | _, _ => 0
  end.
Proof.
  induction cs as [|c cs IH]; [contradiction |]. intros _.
  destruct cs as [|c' cs].
  - change (update_last (append_line dl) [c]) with [append_line dl c].
    rewrite !map_cons, !list_sum_cons, count_type_append. cbn. lia.
  - change (update_last (append_line dl) (c :: c' :: cs))
      with (c :: update_last (append_line dl) (c' :: cs)).
    rewrite (map_cons _ c), !list_sum_cons, IH by discriminate.
    rewrite (map_cons _ c), list_sum_cons. lia.
Qed.

Lemma all_files_current (st : loop_state) (f : file_diff) :
  current_file st = Some f -> all_files st = (st_files st ++ [f])%list.
Proof. intros H. unfold all_files, flush. now rewrite H. Qed.

Lemma all_files_none (st : loop_state) :
  current_file st = None -> all_files st = st_files st.
Proof. intros H. unfold all_files, flush. now rewrite H. Qed.

(** Replacing the current file by one with the same counts, or with both
    sides one higher, keeps the state counted. *)
Lemma state_counted_replace (st : loop_state) (f g : file_diff) (da dd : nat) :
  state_counted st ->
  current_file st = Some f ->
  additions g = additions f + da -> deletions g = deletions f + dd ->
  recorded addition g = recorded addition f + da ->
  recorded deletion g = recorded deletion f + dd ->
  state_counted {| st_files := st_files st;
                   st_additions := st_additions st + da;
                   st_deletions := st_deletions st + dd;
                   current_file := Some g |}.
Proof.
  intros (Ha & Hd & Hf) E Ga Gd Ra Rd.
  rewrite (all_files_current st f E) in Ha, Hd, Hf.
  apply Forall_app in Hf as [Hfs Hf1]. inversion Hf1 as [|? ? [Fa Fd] _]; subst.
  unfold state_counted, all_files, flush.
  cbn [current_file st_files st_additions st_deletions].
  rewrite !map_app, !list_sum_app in *. rewrite !map_cons, !list_sum_cons in *.
  cbn [map list_sum fold_right] in *.
  repeat split; try lia.
  apply Forall_app. split; [exact Hfs |].
  constructor; [| constructor]. split; lia.
Qed.

Lemma state_counted_new_file (st : loop_state) (path : string) :
  state_counted st ->
  state_counted {| st_files := flush st;
                   st_additions := st_additions st;
                   st_deletions := st_deletions st;
                   current_file := Some {| old_path := path; new_path := None;
                                           chunks := []; additions := 0;
                                           deletions := 0 |} |}.
Proof.
  intros (Ha & Hd & Hf). unfold all_files in *.
  remember (flush st) as F eqn:EF.
  unfold state_counted, all_files, flush.
  cbn [current_file st_files st_additions st_deletions].
  rewrite !map_app, !list_sum_app, Forall_app.
  rewrite !map_cons, !list_sum_cons. cbn [map list_sum fold_right additions deletions].
  split; [lia |]. split; [lia |]. split; [exact Hf |].
  constructor; [| constructor]. split; reflexivity.
Qed.

Lemma parse_line_counted (st : loop_state) (line : string) :
  state_counted st -> state_counted (parse_line st line).
Proof.
  intros Hst. unfold parse_line.
  destruct (Py.startswith line "--- a/").
  { now apply state_counted_new_file. }
  destruct (Py.startswith line "+++ b/").
  { destruct (current_file st) as [f|] eqn:E; [| exact Hst].
    pose proof (state_counted_replace st f
      {| old_path := old_path f; new_path := Some (Py.drop 6 line);
         chunks := chunks f; additions := additions f; deletions := deletions f |}
      0 0 Hst E) as R.
    rewrite !Nat.add_0_r in R. apply R; reflexivity. }
  destruct (Py.startswith line "@@").
  { destruct (current_file st) as [f|] eqn:E; [| exact Hst].
    destruct (_parse_chunk_header line) as [ci|]; [| exact Hst].
    match goal with
    | |- state_counted {| current_file := Some ?g |} =>
        pose proof (state_counted_replace st f g 0 0 Hst E) as R
    end.
    rewrite !Nat.add_0_r in R. apply R; try reflexivity;
      unfold recorded; cbn [chunks]; rewrite map_app, list_sum_app; cbn; lia. }
  destruct (current_file st) as [f|] eqn:E; [| exact Hst].
  destruct (chunks f) as [|c0 cs] eqn:C; [exact Hst |].
  assert (NE : c0 :: cs <> []) by discriminate.
  destruct (Py.startswith line "+"); [| destruct (Py.startswith line "-")].
  - match goal with
    | |- state_counted {| current_file := Some ?g |} =>
        pose proof (state_counted_replace st f g 1 0 Hst E) as R
    end.
    rewrite !Nat.add_0_r in R. apply R; try reflexivity;
      unfold recorded; cbn [chunks]; rewrite C, recorded_update_last by exact NE;
      cbn [l_type]; lia.
  - match goal with
    | |- state_counted {| current_file := Some ?g |} =>
        pose proof (state_counted_replace st f g 0 1 Hst E) as R
    end.
    rewrite !Nat.add_0_r in R. apply R; try reflexivity;
      unfold recorded; cbn [chunks]; rewrite C, recorded_update_last by exact NE;
      cbn [l_type]; lia.
  - match goal with
    | |- state_counted {| current_file := Some ?g |} =>
        pose proof (state_counted_replace st f g 0 0 Hst E) as R
    end.
    rewrite !Nat.add_0_r in R. apply R; try reflexivity;
      unfold recorded; cbn [chunks]; rewrite C, recorded_update_last by exact NE;
      cbn [l_type]; lia.
Qed.

Lemma fold_parse_counted (ls : list string) :
  forall st, state_counted st -> state_counted (fold_left parse_line ls st).
Proof.
  induction ls as [|l ls IH]; intros st H; [exact H |].
  cbn [fold_left]. apply IH. now apply parse_line_counted.
Qed.

Lemma parse_counted (text : string) :
  state_counted (fold_left parse_line (lines_of text) initial_state).
Proof.
  apply fold_parse_counted. unfold state_counted, initial_state. cbn.
  repeat split; constructor.
Qed.

End ParserCounts.

Lemma parse_totals (diff_content : string) :
  let p := PatchParser.parse_unified_diff diff_content in
  PatchParser.total_additions p =
    list_sum (map PatchParser.additions (PatchParser.files p))
  /\ PatchParser.total_deletions p =
       list_sum (map PatchParser.deletions (PatchParser.files p)).
Proof.
  intros p. destruct (parse_counted diff_content) as (Ha & Hd & _).
  split; [exact Ha | exact Hd].
Qed.

(** X1: in every parsed diff the totals are the sums over the files:
    [total_additions] is the sum of the files' [additions] and
    [total_deletions] the sum of their [deletions]. *)
Theorem parse_totals_are_sums (diff_content : string) :
  let p := PatchParser.parse_unified_diff diff_content in
  PatchParser.total_additions p =
    list_sum (map PatchParser.additions (PatchParser.files p))
  /\ PatchParser.total_deletions p =
       list_sum (map PatchParser.deletions (PatchParser.files p)).
Proof. exact (parse_totals diff_content). Qed.

(** X2: every file of a parsed diff counts what its chunks hold: its
    [additions] is the number of addition lines recorded in its chunks
    and its [deletions] the number of deletion lines. *)
Theorem parse_file_counts_lines (diff_content : string) (f : PatchParser.file_diff) :
  In f (PatchParser.files (PatchParser.parse_unified_diff diff_content)) ->
  PatchParser.additions f = PatchSummary.recorded PatchParser.addition f
  /\ PatchParser.deletions f = PatchSummary.recorded PatchParser.deletion f.
Proof.
  intros H. destruct (parse_counted diff_content) as (_ & _ & Hf).
  rewrite Forall_forall in Hf. exact (Hf f H).
Qed.

Lemma parse_file_counts_lines_witness :
  let f := hd (PatchParser.mk_file "" None [] 0 0)
              (PatchParser.files (PatchParser.parse_unified_diff Examples.sample_patch)) in
  PatchParser.additions f = PatchSummary.recorded PatchParser.addition f
  /\ PatchParser.deletions f = PatchSummary.recorded PatchParser.deletion f.
Proof.
  apply (parse_file_counts_lines Examples.sample_patch).
  vm_compute. left. reflexivity.
Defined.

(** ** The files of a parsed diff *)

Section ParserFiles.

Import PatchParser PatchSummary.

Lemma parse_line_paths (st : loop_state) (line : string) :
  map old_path (all_files (parse_line st line)) =
  (map old_path (all_files st)
   ++ (if Py.startswith line "--- a/" then [Py.drop 6 line] else []))%list.
Proof.
  unfold parse_line.
  destruct (Py.startswith line "--- a/").
  { unfold all_files at 1. unfold flush at 1. cbn [current_file st_files].
    rewrite map_app. reflexivity. }
  rewrite app_nil_r.
  destruct (Py.startswith line "+++ b/").
  { destruct (current_file st) as [f|] eqn:E; [| reflexivity].
    unfold all_files, flush. cbn [current_file st_files]. rewrite E.
    rewrite !map_app. reflexivity. }
  destruct (Py.startswith line "@@").
  { destruct (current_file st) as [f|] eqn:E; [| reflexivity].
    destruct (_parse_chunk_header line) as [ci|]; [| reflexivity].
    unfold all_files, flush. cbn [current_file st_files]. rewrite E.
    rewrite !map_app. reflexivity. }
  destruct (current_file st) as [f|] eqn:E; [| reflexivity].
  destruct (chunks f) as [|c0 cs] eqn:C; [reflexivity |].
  destruct (Py.startswith line "+"); [| destruct (Py.startswith line "-")];
    unfold all_files, flush; cbn [current_file st_files]; rewrite E;
    rewrite !map_app; reflexivity.
Qed.

Lemma fold_parse_paths (ls : list string) :
  forall st,
    map old_path (all_files (fold_left parse_line ls st)) =
    (map old_path (all_files st)
     ++ map (Py.drop 6) (filter (fun line => Py.startswith line "--- a/") ls))%list.
Proof.
  induction ls as [|l ls IH]; intros st; cbn [fold_left filter map].
  - now rewrite app_nil_r.
  - rewrite IH, parse_line_paths, <- app_assoc.
    destruct (Py.startswith l "--- a/"); reflexivity.
Qed.

End ParserFiles.

Lemma parse_files_headers (diff_content : string) :
  let p := PatchParser.parse_unified_diff diff_content in
  map PatchParser.old_path (PatchParser.files p) =
    map (Py.drop 6) (PatchSummary.file_header_lines diff_content)
  /\ PatchParser.total_files p = length (PatchSummary.file_header_lines diff_content).
Proof.
  intros p.
  assert (E : map PatchParser.old_path (PatchParser.files p) =
              map (Py.drop 6) (PatchSummary.file_header_lines diff_content)).
  { exact (fold_parse_paths (PatchSummary.lines_of diff_content) PatchParser.initial_state). }
  split; [exact E |].
  change (PatchParser.total_files p) with (length (PatchParser.files p)).
  rewrite <- (length_map PatchParser.old_path), E. apply length_map.
Qed.

(** X3: the files of a parsed diff are the lines that start with
    [--- a/], in their order: the old paths are those lines without the
    six-character prefix, and [total_files] is their number.  Other
    header forms (for instance [--- old.py]) open no file. *)
Theorem parse_files_are_header_lines (diff_content : string) :
  let p := PatchParser.parse_unified_diff diff_content in
  map PatchParser.old_path (PatchParser.files p) =
    map (Py.drop 6) (PatchSummary.file_header_lines diff_content)
  /\ PatchParser.total_files p = length (PatchSummary.file_header_lines diff_content).
Proof. exact (parse_files_headers diff_content). Qed.

(** X4: a text none of whose lines starts with [--- a/] parses to the
    empty result, whatever else it holds: no file, no addition, no
    deletion. *)
Theorem parse_without_header_is_empty (diff_content : string) :
  PatchSummary.file_header_lines diff_content = [] ->
  PatchParser.parse_unified_diff diff_content = PatchParser.empty_parsed.
Proof.
  intros H.
  destruct (parse_files_headers diff_content) as [E _].
  destruct (parse_totals diff_content) as [Ha Hd].
  rewrite H in E. cbn [map] in E. apply map_eq_nil in E.
  unfold PatchParser.parse_unified_diff in *. fold (PatchSummary.lines_of diff_content) in *.
  cbn [PatchParser.files PatchParser.total_additions PatchParser.total_deletions] in *.
  rewrite E in *. cbn in Ha, Hd. rewrite Ha, Hd. reflexivity.
Qed.

Lemma parse_without_header_is_empty_witness :
  PatchParser.parse_unified_diff MoreExamples.other_header = PatchParser.empty_parsed.
Proof.
  apply (parse_without_header_is_empty MoreExamples.other_header).
  vm_compute. reflexivity.
Defined.

(** X5: [get_patch_summary] reports the number of [--- a/] lines as
    [files_changed], the numbers of addition and deletion lines recorded
    in the chunks of the parsed files as [additions] and [deletions],
    and their difference, which may be negative, as [net_change]. *)
Theorem get_patch_summary_counts (patch_content : string) :
  let s := PatchSummary.get_patch_summary patch_content in
  let fs := PatchParser.files (PatchParser.parse_unified_diff patch_content) in
  PatchSummary.files_changed s = length (PatchSummary.file_header_lines patch_content)
  /\ PatchSummary.summary_additions s = PatchSummary.recorded_in PatchParser.addition fs
  /\ PatchSummary.summary_deletions s = PatchSummary.recorded_in PatchParser.deletion fs
  /\ PatchSummary.net_change s =
       (Z.of_nat (PatchSummary.recorded_in PatchParser.addition fs)
        - Z.of_nat (PatchSummary.recorded_in PatchParser.deletion fs))%Z.
Proof.
  intros s fs.
  destruct (parse_totals patch_content) as [Ha Hd].
  destruct (parse_counted patch_content) as (_ & _ & Hf).
  assert (A : list_sum (map PatchParser.additions fs) =
              PatchSummary.recorded_in PatchParser.addition fs
              /\ list_sum (map PatchParser.deletions fs) =
                 PatchSummary.recorded_in PatchParser.deletion fs).
  { unfold PatchSummary.recorded_in.
    change (Forall PatchSummary.file_counted fs) in Hf. clear Ha Hd.
    induction Hf as [|f l [Fa Fd] _ [IHa IHd]]; [split; reflexivity |].
    rewrite !map_cons, !list_sum_cons. split; congruence. }
  destruct A as [Aa Ad].
  split; [apply parse_files_headers |].
  unfold s, PatchSummary.get_patch_summary.
  cbn [PatchSummary.summary_additions PatchSummary.summary_deletions PatchSummary.net_change].
  fold fs in Ha, Hd. rewrite Ha, Hd, Aa, Ad. repeat split.
Qed.

(** ** Surrounding whitespace *)

Lemma rstrip_blank (t : string) : Py.is_blank t = true -> Py.rstrip t = "".
Proof.
  induction t as [|c t IH]; cbn; [reflexivity |].
  intros H. apply andb_true_iff in H as [Hc Ht]. now rewrite (IH Ht), Hc.
Qed.

Lemma rstrip_app_blank (s t : string) :
  Py.is_blank t = true -> Py.rstrip (s ++ t) = Py.rstrip s.
Proof.
  intros H. induction s as [|c s IH]; cbn [append Py.rstrip].
  - now apply rstrip_blank.
  - now rewrite IH.
Qed.

Lemma lstrip_app_blank (s t : string) :
  Py.is_blank s = true -> Py.lstrip (s ++ t) = Py.lstrip t.
Proof.
  induction s as [|c s IH]; cbn; [reflexivity |].
  intros H. apply andb_true_iff in H as [Hc Hs]. rewrite Hc. now apply IH.
Qed.

Lemma lstrip_app (s t : string) :
  Py.is_blank s = false -> Py.lstrip (s ++ t) = (Py.lstrip s ++ t)%string.
Proof.
  induction s as [|c s IH]; cbn; [discriminate |].
  destruct (Py.isspace c); cbn; [exact IH | reflexivity].
Qed.

Lemma is_blank_app (s t : string) :
  Py.is_blank (s ++ t) = Py.is_blank s && Py.is_blank t.
Proof.
  induction s as [|c s IH]; cbn; [reflexivity |]. now rewrite IH, andb_assoc.
Qed.

(** [strip] does not see whitespace added around a text. *)
Lemma strip_padding (before text after : string) :
  Py.is_blank before = true -> Py.is_blank after = true ->
  Py.strip (before ++ text ++ after) = Py.strip text.
Proof.
  intros Hb Ha. unfold Py.strip. rewrite (lstrip_app_blank _ _ Hb).
  destruct (Py.is_blank text) eqn:B.
  - rewrite (lstrip_app_blank _ _ B).
    apply lstrip_blank in B. rewrite B.
    assert (Ha' : Py.lstrip after = "") by now apply lstrip_blank.
    now rewrite Ha'.
  - rewrite (lstrip_app _ _ B). now apply rstrip_app_blank.
Qed.

(** X6: whitespace (blanks, tabs, line breaks) before and after a diff
    text changes neither the verdict of [validate_patch_format] nor the
    result of [parse_unified_diff]. *)
Theorem surrounding_whitespace_is_ignored (before text after : string) :
  Py.is_blank before = true -> Py.is_blank after = true ->
  PatchValidator.validate_patch_format (PyStr (before ++ text ++ after)) =
    PatchValidator.validate_patch_format (PyStr text)
  /\ PatchParser.parse_unified_diff (before ++ text ++ after) =
       PatchParser.parse_unified_diff text.
Proof.
  intros Hb Ha. pose proof (strip_padding before text after Hb Ha) as E.
  unfold PatchValidator.validate_patch_format, PatchParser.parse_unified_diff.
  rewrite E. split; reflexivity.
Qed.

Lemma surrounding_whitespace_is_ignored_witness :
  PatchValidator.validate_patch_format
    (PyStr (MoreExamples.padding_before ++ Examples.sample_patch
            ++ MoreExamples.padding_after)) =
    PatchValidator.validate_patch_format (PyStr Examples.sample_patch)
  /\ PatchParser.parse_unified_diff
       (MoreExamples.padding_before ++ Examples.sample_patch
        ++ MoreExamples.padding_after) =
     PatchParser.parse_unified_diff Examples.sample_patch.
Proof.
  apply (surrounding_whitespace_is_ignored MoreExamples.padding_before
           Examples.sample_patch MoreExamples.padding_after).
  - vm_compute. reflexivity.
  - vm_compute. reflexivity.
Defined.

(** ** Format-valid texts and the parser *)

Lemma chunk_errors_nil_inv (lines : list string) :
  forall k,
    PatchValidator.chunk_errors k lines = [] ->
    forall line, In line lines -> Py.startswith line "@@" = true ->
                 Re.match_ false PatchValidator.chunk_header_re line = true.
Proof.
  induction lines as [|l lines IH]; intros k H line Hin Hs; [destruct Hin |].
  cbn [PatchValidator.chunk_errors] in H.
  destruct Hin as [-> | Hin].
  - rewrite Hs in H.
    destruct (Re.match_ false PatchValidator.chunk_header_re line); [reflexivity |].
    discriminate.
  - destruct (Py.startswith l "@@");
      [destruct (negb (Re.match_ false PatchValidator.chunk_header_re l));
       [discriminate |] |];
      now apply (IH (S k)).
Qed.

(** X7: a text that [validate_patch_format] accepts is not blank, has a
    line starting with [--- ], and every one of its lines that starts
    with [@@] and has at most 4300 characters is read by
    [_parse_chunk_header]: the parser drops no such chunk header of a
    format-valid text.  (A longer header can hold a number that [int]
    refuses, and is then dropped.) *)
Theorem format_valid_headers_parse (text fmt : string) :
  PatchValidator.validate_patch_format (PyStr text) = PatchValidator.FormatOk fmt ->
  fmt = "unified_diff"
  /\ Py.is_blank text = false
  /\ existsb (fun line => Py.startswith line "--- ") (PatchSummary.lines_of text) = true
  /\ forall line,
       In line (PatchSummary.lines_of text) -> Py.startswith line "@@" = true ->
       String.length line <= Py.max_str_digits ->
       PatchParser._parse_chunk_header line <> None.
Proof.
  intros H.
  destruct (Py.is_blank text) eqn:B.
  { apply strip_blank in B. unfold PatchValidator.validate_patch_format in H.
    rewrite B in H. discriminate. }
  assert (NB : Py.strip text <> "").
  { intros E. apply strip_blank in E. congruence. }
  rewrite (validate_patch_format_nonblank text NB) in H. cbv zeta in H.
  fold (PatchSummary.lines_of text) in H.
  destruct (existsb (fun line => Py.startswith line "--- ") (PatchSummary.lines_of text)) eqn:Hf;
    [| discriminate].
  destruct (existsb (fun line => Py.startswith line "@@") (PatchSummary.lines_of text));
    [| discriminate].
  cbn [andb negb] in H.
  destruct (PatchValidator.chunk_errors 0 (PatchSummary.lines_of text)) eqn:E;
    [| discriminate].
  injection H as <-.
  split; [reflexivity |]. split; [reflexivity |]. split; [reflexivity |].
  intros line Hin Hs Hl. apply parse_chunk_header_short; [| exact Hl].
  rewrite <- chunk_header_patterns_agree.
  exact (chunk_errors_nil_inv _ 0 E line Hin Hs).
Qed.

Lemma format_valid_headers_parse_witness :
  Py.is_blank Examples.sample_patch = false
  /\ PatchParser._parse_chunk_header "@@ -1,1 +1,2 @@" <> None.
Proof.
  destruct (format_valid_headers_parse Examples.sample_patch "unified_diff")
    as (_ & B & _ & H).
  - vm_compute. reflexivity.
  - split; [exact B |]. apply H.
    + vm_compute. right. right. left. reflexivity.
    + reflexivity.
    + apply Nat.leb_le. vm_compute. reflexivity.
Defined.

(** ** Chunk headers written in decimal *)

Lemma string_of_uint_digits (d : Decimal.uint) :
  PatchParser.all_digits (NilEmpty.string_of_uint d) = true.
Proof. induction d; cbn; auto. Qed.

Lemma str_of_nat_number (n : nat) : PatchParser.is_number (Py.str_of_nat n).
Proof.
  unfold PatchParser.is_number, Py.str_of_nat. split; [| apply string_of_uint_digits].
  assert (N : Nat.to_uint n <> Decimal.Nil).
  { rewrite <- (DecimalNat.Unsigned.of_to n) at 1.
    rewrite DecimalNat.Unsigned.to_of. apply DecimalFacts.unorm_nonnil. }
  destruct (Nat.to_uint n); [contradiction | | | | | | | | | |]; discriminate.
Qed.

Lemma int_of_string_of_uint (d : Decimal.uint) :
  forall a : nat,
    Py.int_of_digits_acc (N.of_nat a) (NilEmpty.string_of_uint d) =
    N.of_nat (Nat.of_uint_acc d a).
Proof.
  induction d; intros a; cbn [NilEmpty.string_of_uint Py.int_of_digits_acc Nat.of_uint_acc];
    [reflexivity | ..];
    rewrite <- IHd; f_equal; rewrite Nat.tail_mul_spec;
    match goal with
    | |- context [(N_of_ascii ?c - 48)%N] =>
        let v := eval vm_compute in (N_of_ascii c - 48)%N in
        change (N_of_ascii c - 48)%N with v
    end; lia.
Qed.

(** Reading back a number written in decimal gives the number. *)
Lemma int_of_str_of_nat (n : nat) : Py.int_of_digits (Py.str_of_nat n) = N.of_nat n.
Proof.
  unfold Py.int_of_digits, Py.str_of_nat.
  change 0%N with (N.of_nat 0).
  rewrite (int_of_string_of_uint (Nat.to_uint n) 0).
  change (Nat.of_uint_acc (Nat.to_uint n) 0) with (Nat.of_uint (Nat.to_uint n)).
  now rewrite DecimalNat.Unsigned.of_to.
Qed.

(** X8: [_parse_chunk_header] reads back the numbers of a header written
    in decimal, whatever follows the closing [@@], as long as each
    number has at most 4300 digits: all four numbers of
    [@@ -a,b +c,d @@], and for the short form [@@ -a +c @@] the two
    starts with both counts set to 1.  A header whose first number has
    more than 4300 digits is not read: [int] refuses it. *)
Theorem parse_chunk_header_round_trip (a b c d : nat) (rest : string) :
  String.length (Py.str_of_nat a) <= Py.max_str_digits ->
  String.length (Py.str_of_nat b) <= Py.max_str_digits ->
  String.length (Py.str_of_nat c) <= Py.max_str_digits ->
  String.length (Py.str_of_nat d) <= Py.max_str_digits ->
  PatchParser._parse_chunk_header
    ("@@ -" ++ Py.str_of_nat a ++ "," ++ Py.str_of_nat b
     ++ " +" ++ Py.str_of_nat c ++ "," ++ Py.str_of_nat d ++ " @@" ++ rest) =
  Some {| PatchParser.ci_old_start := N.of_nat a; PatchParser.ci_old_count := N.of_nat b;
          PatchParser.ci_new_start := N.of_nat c; PatchParser.ci_new_count := N.of_nat d |}
  /\ PatchParser._parse_chunk_header
       ("@@ -" ++ Py.str_of_nat a ++ " +" ++ Py.str_of_nat c ++ " @@" ++ rest) =
     Some {| PatchParser.ci_old_start := N.of_nat a; PatchParser.ci_old_count := 1%N;
             PatchParser.ci_new_start := N.of_nat c; PatchParser.ci_new_count := 1%N |}
  /\ forall long,
       PatchParser.is_number long -> Py.max_str_digits < String.length long ->
       PatchParser._parse_chunk_header
         ("@@ -" ++ long ++ " +" ++ Py.str_of_nat c ++ " @@" ++ rest) = None.
Proof.
  intros La Lb Lc Ld. split; [| split].
  - pose proof (parse_chunk_header_word (Py.str_of_nat a) ("," ++ Py.str_of_nat b)
                  (Py.str_of_nat c) ("," ++ Py.str_of_nat d) rest
                  (str_of_nat_number a)
                  (or_intror (ex_intro _ _ (conj eq_refl (str_of_nat_number b))))
                  (str_of_nat_number c)
                  (or_intror (ex_intro _ _ (conj eq_refl (str_of_nat_number d))))) as H.
    cbn [append] in H |- *.
    rewrite H. cbn [PatchParser.count_of PatchParser.group_of].
    rewrite !int_of_str_Some by assumption. now rewrite !int_of_str_of_nat.
  - pose proof (parse_chunk_header_word (Py.str_of_nat a) "" (Py.str_of_nat c) "" rest
                  (str_of_nat_number a) (or_introl eq_refl)
                  (str_of_nat_number c) (or_introl eq_refl)) as H.
    cbn [append] in H |- *. rewrite H. cbn [PatchParser.count_of PatchParser.group_of].
    rewrite !int_of_str_Some by assumption. now rewrite !int_of_str_of_nat.
  - intros long Hn Hl.
    pose proof (parse_chunk_header_word long "" (Py.str_of_nat c) "" rest
                  Hn (or_introl eq_refl)
                  (str_of_nat_number c) (or_introl eq_refl)) as H.
    cbn [append] in H |- *. rewrite H.
    apply int_of_str_None in Hl. now rewrite Hl.
Qed.

Lemma parse_chunk_header_round_trip_witness :
  PatchParser._parse_chunk_header "@@ -12,7 +12,6 @@ def f():" =
  Some {| PatchParser.ci_old_start := 12%N; PatchParser.ci_old_count := 7%N;
          PatchParser.ci_new_start := 12%N; PatchParser.ci_new_count := 6%N |}.
Proof.
  apply (parse_chunk_header_round_trip 12 7 12 6 " def f():");
    apply Nat.leb_le; vm_compute; reflexivity.
Defined.

(** ** The safety score and the quick check *)

Lemma reachable_counts_In (n m : nat) :
  n <= 9 -> m <= 5 -> In (n, m) reachable_counts.
Proof. intros Hn Hm. apply in_prod; apply in_seq; lia. Qed.

Lemma score_range_table :
  forallb (fun nm => PrimFloat.leb 0%float (PatchValidator.score (fst nm) (snd nm))
                     && PrimFloat.leb (PatchValidator.score (fst nm) (snd nm)) 1%float)
          reachable_counts = true.
Proof. vm_compute. reflexivity. Qed.

(** X9: the safety score of every result lies between 0 and 1, for a
    text and for the result of the error branch alike. *)
Theorem safety_score_in_unit_interval (patch_content : pyobj) :
  let r := PatchValidator.validate_patch_safety patch_content in
  PrimFloat.leb 0%float (PatchValidator.safety_score r) = true
  /\ PrimFloat.leb (PatchValidator.safety_score r) 1%float = true.
Proof.
  destruct patch_content as [text |]; [| split; reflexivity].
  intros r. pose proof score_range_table as T. rewrite forallb_forall in T.
  specialize (T (length (PatchValidator.issues r), length (PatchValidator.warnings r))
                (reachable_counts_In _ _ (issues_bound text) (warnings_bound text))).
  apply andb_true_iff in T. exact T.
Qed.

Lemma score_few_warnings (m : nat) :
  m <= 5 ->
  PrimFloat.ltb 0.7%float (PatchValidator.score 0 m) = (m <=? 2).
Proof.
  intros H.
  assert (C : m = 0 \/ m = 1 \/ m = 2 \/ m = 3 \/ m = 4 \/ m = 5) by lia.
  destruct C as [-> | [-> | [-> | [-> | [-> | ->]]]]]; vm_compute; reflexivity.
Qed.

(** X10: [is_safe_patch] accepts a text exactly when it draws no issue
    and at most two warnings. *)
Theorem is_safe_patch_iff (text : string) :
  let r := PatchValidator.validate_patch_safety (PyStr text) in
  is_safe_patch (PyStr text) = true <->
  PatchValidator.issues r = [] /\ length (PatchValidator.warnings r) <= 2.
Proof.
  intros r. unfold is_safe_patch. fold r.
  change (PatchValidator.is_safe r) with (length (PatchValidator.issues r) =? 0).
  change (PatchValidator.safety_score r)
    with (PatchValidator.score (length (PatchValidator.issues r))
                               (length (PatchValidator.warnings r))).
  rewrite andb_true_iff, Nat.eqb_eq.
  pose proof (warnings_bound text) as Hw. fold r in Hw.
  split.
  - intros [H0 H]. rewrite H0 in H.
    rewrite (score_few_warnings _ Hw) in H.
    apply Nat.leb_le in H. split; [now apply length_zero_iff_nil | exact H].
  - intros [H0 H]. rewrite H0. split; [reflexivity |]. cbn [length].
    rewrite (score_few_warnings _ Hw). now apply Nat.leb_le.
Qed.

(** ** Text around a finding *)

Section Embedding.

Variables before text after : string.

Lemma search_embedded (r : Re.regex) :
  Re.search true r text = true -> Re.search true r (before ++ text ++ after) = true.
Proof.
  rewrite !search_spec. intros (pre & w & post & -> & H).
  exists (before ++ pre)%string, w, (post ++ after)%string.
  split; [| exact H]. now rewrite !append_assoc.
Qed.

(** Every entry found in the text is found in the larger text, in the
    same order. *)
Lemma scan_embedded (kind : string) (patterns : list (string * Re.regex * string)) :
  incl (PatchValidator.scan kind patterns text)
       (PatchValidator.scan kind patterns (before ++ text ++ after))
  /\ length (PatchValidator.scan kind patterns text)
     <= length (PatchValidator.scan kind patterns (before ++ text ++ after)).
Proof.
  induction patterns as [|[[p r] d] rest [IHi IHl]]; cbn [PatchValidator.scan].
  - split; [apply incl_refl | apply le_n].
  - destruct (Re.search true r text) eqn:E.
    + rewrite (search_embedded r E). split.
      * apply incl_cons; [now left | now apply incl_tl].
      * cbn [length]. lia.
    + destruct (Re.search true r (before ++ text ++ after)); split;
        try (now apply incl_tl); try exact IHi; cbn [length]; lia.
Qed.

End Embedding.

Lemma score_antitone_table :
  forallb (fun a => forallb (fun b =>
             implb ((fst a <=? fst b) && (snd a <=? snd b))
                   (PrimFloat.leb (PatchValidator.score (fst b) (snd b))
                                  (PatchValidator.score (fst a) (snd a))))
             reachable_counts) reachable_counts = true.
Proof. vm_compute. reflexivity. Qed.

(** X11: text added before or after a patch never hides a finding.
    Every issue and every warning of the patch is reported for the
    larger text too; so an unsafe patch stays unsafe, and the safety
    score does not go up. *)
Theorem findings_survive_embedding (before text after : string) :
  let small := PatchValidator.validate_patch_safety (PyStr text) in
  let large := PatchValidator.validate_patch_safety (PyStr (before ++ text ++ after)) in
  incl (PatchValidator.issues small) (PatchValidator.issues large)
  /\ incl (PatchValidator.warnings small) (PatchValidator.warnings large)
  /\ (PatchValidator.is_safe small = false -> PatchValidator.is_safe large = false)
  /\ PrimFloat.leb (PatchValidator.safety_score large)
                   (PatchValidator.safety_score small) = true.
Proof.
  intros small large.
  destruct (scan_embedded before text after "security" PatchValidator.dangerous_patterns)
    as [Ii Il].
  destruct (scan_embedded before text after "quality" PatchValidator.mistake_patterns)
    as [Wi Wl].
  split; [exact Ii |]. split; [exact Wi |]. split.
  - change (PatchValidator.is_safe small) with (length (PatchValidator.issues small) =? 0).
    change (PatchValidator.is_safe large) with (length (PatchValidator.issues large) =? 0).
    rewrite !Nat.eqb_neq.
    change (PatchValidator.issues small)
      with (PatchValidator.scan "security" PatchValidator.dangerous_patterns text).
    change (PatchValidator.issues large)
      with (PatchValidator.scan "security" PatchValidator.dangerous_patterns
              (before ++ text ++ after)).
    lia.
  - pose proof score_antitone_table as T. rewrite forallb_forall in T.
    specialize (T (length (PatchValidator.issues small), length (PatchValidator.warnings small))
                  (reachable_counts_In _ _ (issues_bound text) (warnings_bound text))).
    rewrite forallb_forall in T.
    specialize (T (length (PatchValidator.issues large), length (PatchValidator.warnings large))
                  (reachable_counts_In _ _ (issues_bound _) (warnings_bound _))).
    cbn [fst snd] in T.
    assert (L : (length (PatchValidator.issues small) <=? length (PatchValidator.issues large))
                && (length (PatchValidator.warnings small) <=? length (PatchValidator.warnings large))
                = true).
    { apply andb_true_iff. split; apply Nat.leb_le; assumption. }
    rewrite L in T. exact T.
Qed.

(** ** The case of letters *)

Lemma lower_idempotent (a : ascii) : Py.lower (Py.lower a) = Py.lower a.
Proof. destruct a as [[] [] [] [] [] [] [] []]; reflexivity. Qed.

Lemma isspace_lower (a : ascii) : Py.isspace (Py.lower a) = Py.isspace a.
Proof. destruct a as [[] [] [] [] [] [] [] []]; reflexivity. Qed.

Lemma isdigit_lower (a : ascii) : Py.isdigit (Py.lower a) = Py.isdigit a.
Proof. destruct a as [[] [] [] [] [] [] [] []]; reflexivity. Qed.

Lemma cmatch_lower (cl : Re.cclass) (a : ascii) :
  Re.cmatch true cl (Py.lower a) = Re.cmatch true cl a.
Proof.
  destruct cl; cbn [Re.cmatch Re.fold];
    rewrite ?lower_idempotent, ?isspace_lower, ?isdigit_lower; reflexivity.
Qed.

Lemma deriv_lower (a : ascii) (r : Re.regex) :
  Re.deriv true (Py.lower a) r = Re.deriv true a r.
Proof.
  induction r as [| | cl | r1 IH1 r2 IH2 | r1 IH1 r2 IH2 | r1 IH1]; cbn [Re.deriv];
    rewrite ?cmatch_lower, ?IH1, ?IH2; reflexivity.
Qed.

Lemma match_lower (s : string) :
  forall r, Re.match_ true r (lower_text s) = Re.match_ true r s.
Proof.
  induction s as [|a s IH]; intros r; cbn [lower_text Re.match_]; [reflexivity |].
  now rewrite deriv_lower, IH.
Qed.

Lemma search_lower (r : Re.regex) (s : string) :
  Re.search true r (lower_text s) = Re.search true r s.
Proof.
  induction s as [|a s IH]; cbn [lower_text Re.search].
  - reflexivity.
  - rewrite IH. f_equal. exact (match_lower (String a s) r).
Qed.

Lemma scan_lower (kind : string) (patterns : list (string * Re.regex * string))
    (s : string) :
  PatchValidator.scan kind patterns (lower_text s) = PatchValidator.scan kind patterns s.
Proof.
  induction patterns as [|[[p r] d] rest IH]; cbn [PatchValidator.scan]; [reflexivity |].
  now rewrite search_lower, IH.
Qed.

(** X12: the safety check does not look at the case of letters: two
    texts that become equal when their ASCII capital letters are made
    small get the same result, issue by issue and warning by warning. *)
Theorem safety_ignores_letter_case (text1 text2 : string) :
  lower_text text1 = lower_text text2 ->
  PatchValidator.validate_patch_safety (PyStr text1) =
  PatchValidator.validate_patch_safety (PyStr text2).
Proof.
  intros H. unfold PatchValidator.validate_patch_safety.
  rewrite <- (scan_lower "security" _ text1), <- (scan_lower "quality" _ text1).
  rewrite <- (scan_lower "security" _ text2), <- (scan_lower "quality" _ text2).
  now rewrite H.
Qed.

Lemma safety_ignores_letter_case_witness :
  PatchValidator.validate_patch_safety (PyStr "+RM -RF Build") =
  PatchValidator.validate_patch_safety (PyStr "+rm -rf build").
Proof.
  apply (safety_ignores_letter_case "+RM -RF Build" "+rm -rf build").
  vm_compute. reflexivity.
Defined.

(** ** Issues of the combined validation *)

(** X13: [validate_proposal_safety] gives a reason for every refusal:
    its issue list is empty exactly when [is_safe] is true. *)
Theorem refusal_has_an_issue (W : world) (p : Proposal) :
  let v := ProposalService.validate_proposal_safety W p in
  ProposalService.v_issues v = [] <-> ProposalService.v_is_safe v = true.
Proof.
  intros v. subst v. unfold ProposalService.validate_proposal_safety.
  cbn [ProposalService.v_issues ProposalService.v_is_safe].
  set (s := PatchValidator.validate_patch_safety (PyStr (patch_diff p))).
  set (f := PatchValidator.validate_patch_format (PyStr (patch_diff p))).
  assert (S : PatchValidator.is_safe s = false -> PatchValidator.issues s <> []).
  { change (PatchValidator.is_safe s) with (length (PatchValidator.issues s) =? 0).
    rewrite Nat.eqb_neq. intros H E. apply H. now rewrite E. }
  destruct (PatchValidator.is_safe s) eqn:Es; cbn [negb andb].
  - destruct f as [fmt | err]; cbn [PatchValidator.valid andb].
    + destruct (PrimFloat.leb ProposalService.confidence_threshold (confidence_score p));
        cbn; split; (reflexivity || discriminate).
    + split; discriminate.
  - split; [| discriminate].
    intros H. apply app_eq_nil in H as [H _]. now destruct (S eq_refl).
Qed.

(** ** The order of the steps of an attempt *)

(** The steps found in a run, when they are an initial part of the
    pipeline of six. *)
Ltac initial_part :=
  first [ exists 0; reflexivity | exists 1; reflexivity | exists 2; reflexivity
        | exists 3; reflexivity | exists 4; reflexivity | exists 5; reflexivity
        | exists 6; reflexivity ].

Lemma direct_phases (W : world) (p : Proposal) (u : User) (h : list event) :
  (exists k, Trace.phases (snd (ProposalService.apply_proposal_direct W p u h)) = seq 0 k)
  /\ (ProposalService.direct_success
        (fst (ProposalService.apply_proposal_direct W p u h)) = true ->
      Trace.phases (snd (ProposalService.apply_proposal_direct W p u h)) = seq 0 6).
Proof.
  unfold ProposalService.apply_proposal_direct.
  destruct (ProposalService.v_is_safe (ProposalService.validate_proposal_safety W p));
    [| split; [exists 0; reflexivity | discriminate]].
  unfold_services. run_services.
  repeat next_answer; (split; [initial_part | intros H; solve [discriminate | reflexivity]]).
Qed.


(** X14: the git steps of a direct attempt are an initial part of the
    pipeline clone, dry run, backup, real apply, commit, push: each is
    run at most once, in this order, and none without all the ones
    before it.  An attempt that reports success has run all six. *)
Theorem direct_steps_in_order (W : world) (p : Proposal) (u : User) (h : list event) :
  let r := ProposalService.apply_proposal_direct W p u h in
  (exists k, Trace.phases (snd r) = seq 0 k)
  /\ (ProposalService.direct_success (fst r) = true -> Trace.phases (snd r) = seq 0 6).
Proof. exact (direct_phases W p u h). Qed.


(** ** The clone directory *)





(** X17: a direct attempt that got its clone ends by removing it,
    whatever happened in between, provided the directory is there: the
    removal of the clone directory is the last event and the only
    removal.  The attempt gets to the clone when the proposal passes
    the validation, its analysis has a repository and the user has the
    token attributes. *)
Theorem direct_clone_is_removed (W : world) (p : Proposal) (u : User)
    (h : list event) (r : Repository) (token : option string) (path : string) :
  ProposalService.v_is_safe (ProposalService.validate_proposal_safety W p) = true ->
  repository (finding p) = Has r ->
  ProposalService.access_token u = inr token ->
  fst (GitOperationsService.clone_repository W r (default_branch r) token h) = Some path ->
  (forall h', path_exists W h' path = true) ->
  exists body,
    snd (ProposalService.apply_proposal_direct W p u h) = (body ++ [EvRmtree path])%list
    /\ existsb Trace.is_rmtree body = false.
Proof.
  unfold ProposalService.apply_proposal_direct. intros Hv Hr Ht.
  rewrite Hv, Hr, Ht. cbn [negb].
  unfold_services. run_services.
  repeat next_answer; intros Hc Hex; try discriminate; injection Hc as <-;
    try match goal with
        | E : path_exists _ _ _ = false |- _ => rewrite Hex in E; discriminate
        end;
    match goal with
    | |- exists body, ?l = _ /\ _ => exists (removelast l); split; reflexivity
    end.
Qed.

Lemma direct_clone_is_removed_witness :
  exists body,
    snd (ProposalService.apply_proposal_direct Examples.world_ok Examples.good_proposal
           Examples.demo_user []) = (body ++ [EvRmtree MoreExamples.clone_path])%list
    /\ existsb Trace.is_rmtree body = false.
Proof.
  apply (direct_clone_is_removed Examples.world_ok Examples.good_proposal
           Examples.demo_user [] Examples.demo_repository (Some "token")
           MoreExamples.clone_path).
  - vm_compute. reflexivity.
  - reflexivity.
  - reflexivity.
  - vm_compute. reflexivity.
  - intros h'. reflexivity.
Defined.

(** The same on the pull-request path. *)
Lemma pr_branch_clone_is_removed (W : world) (r : Repository) (b : string)
    (p : Proposal) (u : User) (h : list event) (token : option string)
    (path : string) :
  github_access_token u = Has token ->
  fst (GitOperationsService.clone_repository W r
         (GitHubService.or_main (default_branch r)) token h) = Some path ->
  (forall h', path_exists W h' path = true) ->
  exists body,
    snd (GitHubService._create_branch_with_proposal_changes W r b p u h) =
      (body ++ [EvRmtree path])%list
    /\ existsb Trace.is_rmtree body = false.
Proof.
  unfold GitHubService._create_branch_with_proposal_changes. intros Ht. rewrite Ht.
  unfold_services. run_services.
  repeat next_answer; intros Hc Hex; try discriminate; injection Hc as <-;
    try match goal with
        | E : path_exists _ _ _ = false |- _ => rewrite Hex in E; discriminate
        end;
    match goal with
    | |- exists body, ?l = _ /\ _ => exists (removelast l); split; reflexivity
    end.
Qed.

(** X18: [_create_branch_with_proposal_changes] too ends by removing
    the clone it got, as its last event and only removal, provided the
    directory is there; the request for the pull request comes after.
    It gets to the clone when the user has the token attribute. *)
Theorem pr_clone_is_removed (W : world) (r : Repository) (b : string)
    (p : Proposal) (u : User) (h : list event) (token : option string)
    (path : string) :
  github_access_token u = Has token ->
  fst (GitOperationsService.clone_repository W r
         (GitHubService.or_main (default_branch r)) token h) = Some path ->
  (forall h', path_exists W h' path = true) ->
  exists body,
    snd (GitHubService._create_branch_with_proposal_changes W r b p u h) =
      (body ++ [EvRmtree path])%list
    /\ existsb Trace.is_rmtree body = false.
Proof. apply pr_branch_clone_is_removed. Qed.

Lemma pr_clone_is_removed_witness :
  exists body,
    snd (GitHubService._create_branch_with_proposal_changes Examples.world_ok
           Examples.demo_repository "refactoriq-fix-42" Examples.good_proposal
           Examples.demo_user []) = (body ++ [EvRmtree MoreExamples.clone_path])%list
    /\ existsb Trace.is_rmtree body = false.
Proof.
  apply (pr_clone_is_removed Examples.world_ok Examples.demo_repository
           "refactoriq-fix-42" Examples.good_proposal Examples.demo_user []
           (Some "token") MoreExamples.clone_path).
  - reflexivity.
  - vm_compute. reflexivity.
  - intros h'. reflexivity.
Defined.

(** ** The answers of the endpoints *)

(** X19: the apply and the reject endpoint answer every request with
    their 500 error and touch nothing, whatever the database holds:
    [_get_proposal_by_id] builds its query from the name [Analysis],
    which the module does not bind, so it returns [None] for every
    identifier.  Had it returned something, the body of the apply
    endpoint would still fail for no proposal and for a proposal that
    is not PENDING, and its only answers other than the 500 error say
    success. *)
Theorem endpoints_answer_500 (W : world) (query : list event -> string + option Proposal)
    (request : Api.ProposalApplyRequest) (u : User) (h : list event) :
  Api._get_proposal_by_id query h = (None, [])
  /\ Api.apply_proposal W query request u h = (Api.failed, [])
  /\ Api.reject_proposal W query h =
       (inl (Api.HTTPError 500 "Failed to reject proposal"), [])
  /\ forall loaded,
       let r := Api.apply_loaded W loaded request u h in
       (loaded = None -> r = (Api.failed, []))
       /\ (forall p, loaded = Some p -> status p <> PENDING -> r = (Api.failed, []))
       /\ (forall response,
             fst r = inr response ->
             Api.resp_success response = true
             /\ exists p, loaded = Some p /\ status p = PENDING).
Proof.
  split; [reflexivity |]. split; [reflexivity |]. split; [reflexivity |].
  intros loaded r. subst r. split; [intros ->; reflexivity |]. split.
  - intros p -> N. unfold Api.apply_loaded.
    destruct (status p); try reflexivity. now destruct N.
  - intros response. unfold Api.apply_loaded, Api.respond.
    destruct loaded as [p |]; [| discriminate].
    destruct (ProposalStatus_eqb (status p) PENDING) eqn:S; cbn [negb]; [| discriminate].
    assert (P : status p = PENDING) by (destruct (status p); discriminate || reflexivity).
    unfold bind, ask.
    destruct (services_start W h); [discriminate |].
    destruct (Api.auto_apply request).
    + destruct (ProposalService.apply_proposal_direct W p u (h ++ [])%list) as [a d1].
      destruct (from_orm W p); cbn [ret fst snd]; intros H; [discriminate |].
      injection H as <-. split; [reflexivity | now exists p].
    + destruct (Api.create_pr request).
      * destruct (GitHubService.create_proposal_pr W p u _ _ (h ++ [])%list) as [a d1].
        destruct (from_orm W p); cbn [ret fst snd]; intros H; [discriminate |].
        injection H as <-. split; [reflexivity | now exists p].
      * unfold emit. cbn [fst snd app].
        destruct (db_commit W _); cbn [ret fst snd]; [discriminate |].
        destruct (from_orm W p); cbn [ret fst snd]; intros H; [discriminate |].
        injection H as <-. split; [reflexivity | now exists p].
Qed.
(** ** The patch applier *)

Lemma backup_name_differs (file_path : string) (pid : Z) :
  String.eqb (PatchApplier.backup_name file_path pid) file_path = false.
Proof.
  apply String.eqb_neq. intros E. apply (f_equal String.length) in E.
  unfold PatchApplier.backup_name in E. rewrite !length_append in E.
  cbn [String.length] in E. lia.
Qed.

(** Wherever the backup goes, it is not the file itself. *)
Lemma copy_target_differs (fs : PatchApplier.files) (file_path : string) (pid : Z) :
  file_path <>
  PatchApplier.copy_target fs file_path (PatchApplier.backup_name file_path pid).
Proof.
  intros E. apply (f_equal String.length) in E.
  unfold PatchApplier.copy_target, PatchApplier.backup_name, PyMore.path_join in E.
  destruct (fs _) as [[|]|]; rewrite !length_append in E;
    cbn [String.length] in E; lia.
Qed.

Lemma put_same (fs : PatchApplier.files) (path : string) (e : option PatchApplier.entry) :
  PatchApplier.put fs path e path = e.
Proof. unfold PatchApplier.put. now rewrite String.eqb_refl. Qed.

Lemma put_other (fs : PatchApplier.files) (path p : string) (e : option PatchApplier.entry) :
  p <> path -> PatchApplier.put fs path e p = fs p.
Proof. intros H. unfold PatchApplier.put. apply String.eqb_neq in H. now rewrite H. Qed.

(** [shutil.copy2]: only the target can change; it raises nothing
    exactly when the source is a regular file other than the target
    and the copy goes through, and then the target holds the content of
    the source. *)
Lemma copy2_spec (copy_ends : PatchApplier.files -> string -> string -> PatchApplier.copy_outcome)
    (refused : string -> string -> string) (fs : PatchApplier.files) (src dst : string) :
  let target := PatchApplier.copy_target fs src dst in
  let raised := fst (PatchApplier.copy2 copy_ends refused fs src dst) in
  let fs' := snd (PatchApplier.copy2 copy_ends refused fs src dst) in
  (forall p, p <> target -> fs' p = fs p)
  /\ (raised = None <->
      src <> target /\ copy_ends fs src dst = PatchApplier.Copied
      /\ exists content, fs src = Some (PatchApplier.File content))
  /\ (raised = None -> fs' target = fs src).
Proof.
  cbv zeta. unfold PatchApplier.copy2.
  destruct (fs src) as [[content |] |] eqn:F; cbn [fst snd].
  - destruct (String.eqb src (PatchApplier.copy_target fs src dst)) eqn:E; cbn [fst snd].
    + apply String.eqb_eq in E.
      split; [reflexivity |].
      split; [split; [discriminate | intros (N & _); contradiction] | discriminate].
    + apply String.eqb_neq in E.
      destruct (copy_ends fs src dst) as [| e remains] eqn:C; cbn [fst snd].
      * split; [intros p Hp; now apply put_other |].
        split; [| intros _; apply put_same].
        split; [intros _ | reflexivity].
        split; [exact E |]. split; [reflexivity | now exists content].
      * split; [intros p Hp; now apply put_other |].
        split; [| discriminate].
        split; [discriminate | intros (_ & H & _); discriminate].
  - split; [reflexivity |].
    split; [| discriminate].
    split; [discriminate | intros (_ & _ & c & H); discriminate].
  - split; [reflexivity |].
    split; [| discriminate].
    split; [discriminate | intros (_ & _ & c & H); discriminate].
Qed.

(** X21: [apply_patch_safe] never changes the file it is asked to
    patch.  Whatever the patch, the outcome and the way the copy ends,
    what is at [file_path] after the call is what was there before;
    the only path that can change is the one the backup is copied to,
    and without [backup] nothing changes.  When the copy goes through
    it is there afterwards also when the patch is refused.  A success
    reports at least one modified file all the same.  (Paths are taken
    as names of distinct files.) *)
Theorem apply_patch_safe_leaves_file
    (copy_ends : PatchApplier.files -> string -> string -> PatchApplier.copy_outcome)
    (refused : string -> string -> string)
    (pid : Z) (file_path patch_content : string)
    (backup : bool) (fs : PatchApplier.files) :
  let r := fst (PatchApplier.apply_patch_safe copy_ends refused pid file_path
                  patch_content backup fs) in
  let fs' := snd (PatchApplier.apply_patch_safe copy_ends refused pid file_path
                    patch_content backup fs) in
  let backup_path := PatchApplier.backup_name file_path pid in
  let target := PatchApplier.copy_target fs file_path backup_path in
  fs' file_path = fs file_path
  /\ (forall p, p <> target -> fs' p = fs p)
  /\ (backup = false -> forall p, fs' p = fs p)
  /\ (forall content,
        fs file_path = Some (PatchApplier.File content) -> backup = true ->
        copy_ends fs file_path backup_path = PatchApplier.Copied ->
        fs' target = Some (PatchApplier.File content))
  /\ (fs file_path = None -> r = PatchApplier.ApplyError "File does not exist")
  /\ (forall b m a d, r = PatchApplier.ApplyOk b m a d -> 1 <= m).
Proof.
  cbv zeta.
  pose proof (copy_target_differs fs file_path pid) as D.
  assert (K : forall (b : option string) (fs1 : PatchApplier.files) b' m a d,
            fst (match PatchValidator.validate_patch_format (PyStr patch_content) with
                 | PatchValidator.FormatError err => (PatchApplier.ApplyError err, fs1)
                 | PatchValidator.FormatOk _ =>
                     if PatchParser.total_files
                          (PatchParser.parse_unified_diff patch_content) =? 0
                     then (PatchApplier.ApplyError "No files in patch", fs1)
                     else (PatchApplier.ApplyOk b
                             (PatchParser.total_files
                                (PatchParser.parse_unified_diff patch_content))
                             (PatchParser.total_additions
                                (PatchParser.parse_unified_diff patch_content))
                             (PatchParser.total_deletions
                                (PatchParser.parse_unified_diff patch_content)), fs1)
                 end) = PatchApplier.ApplyOk b' m a d -> 1 <= m).
  { intros b fs1 b' m a d.
    destruct (PatchValidator.validate_patch_format (PyStr patch_content));
      [| discriminate].
    destruct (PatchParser.total_files (PatchParser.parse_unified_diff patch_content))
      as [|n]; cbn [Nat.eqb fst]; [discriminate |].
    intros [= _ <- _ _]. lia. }
  assert (S : forall (b : option string) (fs1 : PatchApplier.files),
            snd (match PatchValidator.validate_patch_format (PyStr patch_content) with
                 | PatchValidator.FormatError err => (PatchApplier.ApplyError err, fs1)
                 | PatchValidator.FormatOk _ =>
                     if PatchParser.total_files
                          (PatchParser.parse_unified_diff patch_content) =? 0
                     then (PatchApplier.ApplyError "No files in patch", fs1)
                     else (PatchApplier.ApplyOk b
                             (PatchParser.total_files
                                (PatchParser.parse_unified_diff patch_content))
                             (PatchParser.total_additions
                                (PatchParser.parse_unified_diff patch_content))
                             (PatchParser.total_deletions
                                (PatchParser.parse_unified_diff patch_content)), fs1)
                 end) = fs1).
  { intros b fs1.
    destruct (PatchValidator.validate_patch_format (PyStr patch_content));
      [| reflexivity].
    now destruct (PatchParser.total_files _ =? 0). }
  unfold PatchApplier.apply_patch_safe.
  destruct (fs file_path) as [e |] eqn:F; cbn [fst snd].
  2:{ split; [exact F |]. split; [reflexivity |]. split; [reflexivity |].
      split; [discriminate |]. split; [reflexivity | discriminate]. }
  destruct backup.
  - destruct (copy2_spec copy_ends refused fs file_path
                (PatchApplier.backup_name file_path pid)) as (A & B & C).
    destruct (PatchApplier.copy2 copy_ends refused fs file_path
                (PatchApplier.backup_name file_path pid)) as [raised fs1].
    cbn [fst snd] in A, B, C.
    destruct raised as [err |].
    + cbn [fst snd].
      split; [rewrite A by exact D; exact F |]. split; [exact A |].
      split; [discriminate |].
      split; [| split; discriminate].
      intros content Hc _ Hk.
      assert (X : Some err = None).
      { apply B. split; [exact D |]. split; [exact Hk |]. exists content. congruence. }
      discriminate X.
    + rewrite S.
      split; [rewrite A by exact D; exact F |]. split; [exact A |].
      split; [discriminate |].
      split; [intros content Hc _ _; rewrite C by reflexivity; congruence |].
      split; [discriminate | intros b m a d; exact (K _ _ b m a d)].
  - rewrite S.
    split; [exact F |]. split; [reflexivity |]. split; [reflexivity |].
    split; [discriminate |]. split; [discriminate | intros b m a d; exact (K _ _ b m a d)].
Qed.

(** X22: backup and rollback are inverse when the copies and the
    removal go through.  After [apply_patch_safe] with [backup] set on
    a regular file, the backup path not being a directory, whatever is
    then written to the file, [rollback_patch] with the backup path
    returns [True], puts the original content back, removes the backup
    and leaves every other path as it was. *)
Theorem rollback_restores_backup
    (copy_ends : PatchApplier.files -> string -> string -> PatchApplier.copy_outcome)
    (remove_raises : PatchApplier.files -> string -> option string)
    (refused : string -> string -> string)
    (pid : Z) (file_path patch_content content changed : string)
    (fs : PatchApplier.files) :
  let backup_path := PatchApplier.backup_name file_path pid in
  let fs1 := snd (PatchApplier.apply_patch_safe copy_ends refused pid file_path
                    patch_content true fs) in
  let fs1' := PatchApplier.put fs1 file_path (Some (PatchApplier.File changed)) in
  fs file_path = Some (PatchApplier.File content) ->
  fs backup_path <> Some PatchApplier.Directory ->
  copy_ends fs file_path backup_path = PatchApplier.Copied ->
  copy_ends fs1' backup_path file_path = PatchApplier.Copied ->
  remove_raises (PatchApplier.put fs1' file_path (Some (PatchApplier.File content)))
    backup_path = None ->
  let r := PatchApplier.rollback_patch copy_ends remove_raises refused
             file_path backup_path fs1' in
  fst r = true
  /\ snd r file_path = Some (PatchApplier.File content)
  /\ snd r backup_path = None
  /\ forall p, p <> file_path -> p <> backup_path -> snd r p = fs p.
Proof.
  intros backup_path fs1 fs1' F ND Hcopy.
  assert (NE : backup_path <> file_path).
  { intros E. pose proof (backup_name_differs file_path pid) as H.
    fold backup_path in H. rewrite E, String.eqb_refl in H. discriminate. }
  assert (T : PatchApplier.copy_target fs file_path backup_path = backup_path).
  { unfold PatchApplier.copy_target.
    destruct (fs backup_path) as [[|]|]; congruence. }
  assert (E : fs1 = PatchApplier.put fs backup_path (Some (PatchApplier.File content))).
  { unfold fs1, PatchApplier.apply_patch_safe, PatchApplier.copy2.
    fold backup_path. rewrite F, T.
    assert (X : String.eqb file_path backup_path = false)
      by (apply String.eqb_neq; congruence).
    rewrite X, Hcopy.
    destruct (PatchValidator.validate_patch_format (PyStr patch_content));
      [destruct (PatchParser.total_files _ =? 0) |]; reflexivity. }
  assert (B1 : fs1' backup_path = Some (PatchApplier.File content)).
  { unfold fs1'. rewrite put_other by exact NE. rewrite E. apply put_same. }
  assert (T' : PatchApplier.copy_target fs1' backup_path file_path = file_path).
  { unfold PatchApplier.copy_target, fs1'. now rewrite put_same. }
  intros Hback R r. subst r.
  unfold PatchApplier.rollback_patch, PatchApplier.copy2, PatchApplier.remove.
  rewrite B1, T'.
  assert (X : String.eqb backup_path file_path = false)
    by (apply String.eqb_neq; exact NE).
  rewrite X, Hback, R. cbn [fst snd].
  split; [reflexivity |].
  split; [rewrite put_other by congruence; apply put_same |].
  split; [apply put_same |].
  intros p H1 H2. rewrite put_other by exact H2. rewrite put_other by exact H1.
  unfold fs1'. rewrite put_other by exact H1. rewrite E. now apply put_other.
Qed.

Lemma rollback_restores_backup_witness :
  let r :=
    PatchApplier.rollback_patch MoreExamples.copies MoreExamples.removes
      MoreExamples.refused "a.py" (PatchApplier.backup_name "a.py" 4242)
      (PatchApplier.put
         (snd (PatchApplier.apply_patch_safe MoreExamples.copies MoreExamples.refused
                 4242 "a.py" Examples.sample_patch true MoreExamples.one_file))
         "a.py" (Some (PatchApplier.File "x=2"))) in
  fst r = true
  /\ snd r "a.py" = Some (PatchApplier.File "x=1")
  /\ snd r (PatchApplier.backup_name "a.py" 4242) = None
  /\ forall p, p <> "a.py" -> p <> PatchApplier.backup_name "a.py" 4242 ->
               snd r p = MoreExamples.one_file p.
Proof.
  apply (rollback_restores_backup MoreExamples.copies MoreExamples.removes
           MoreExamples.refused 4242 "a.py" Examples.sample_patch "x=1" "x=2"
           MoreExamples.one_file).
  - reflexivity.
  - vm_compute. discriminate.
  - reflexivity.
  - reflexivity.
  - reflexivity.
Defined.

(** X23: when [apply_patch_safe] reports success.  On an existing path
    it does so exactly when the backup, if one is asked for, is copied
    without an exception, [validate_patch_format] accepts the patch and
    some line of it starts with [--- a/].  A patch that is accepted
    with another header form is answered with [No files in patch], and
    an exception of the copy is answered with its text, before the
    patch is looked at. *)
Theorem apply_patch_safe_success
    (copy_ends : PatchApplier.files -> string -> string -> PatchApplier.copy_outcome)
    (refused : string -> string -> string)
    (pid : Z) (file_path patch_content : string) (e : PatchApplier.entry)
    (backup : bool) (fs : PatchApplier.files) :
  fs file_path = Some e ->
  let r := fst (PatchApplier.apply_patch_safe copy_ends refused pid file_path
                  patch_content backup fs) in
  let accepted := PatchValidator.valid
                    (PatchValidator.validate_patch_format (PyStr patch_content)) in
  let raised := fst (PatchApplier.copy2 copy_ends refused fs file_path
                       (PatchApplier.backup_name file_path pid)) in
  ((exists b m a d, r = PatchApplier.ApplyOk b m a d) <->
   (backup = true -> raised = None)
   /\ accepted = true /\ PatchSummary.file_header_lines patch_content <> [])
  /\ ((backup = true -> raised = None) ->
      accepted = true -> PatchSummary.file_header_lines patch_content = [] ->
      r = PatchApplier.ApplyError "No files in patch")
  /\ (forall err, backup = true -> raised = Some err -> r = PatchApplier.ApplyError err).
Proof.
  intros F r accepted raised. subst r accepted raised.
  unfold PatchApplier.apply_patch_safe. rewrite F.
  destruct (parse_files_headers patch_content) as [_ E]. cbv zeta in E. rewrite E.
  assert (K : forall (b : option string) (fs1 : PatchApplier.files),
            let r := fst (match PatchValidator.validate_patch_format (PyStr patch_content) with
                          | PatchValidator.FormatError err => (PatchApplier.ApplyError err, fs1)
                          | PatchValidator.FormatOk _ =>
                              if length (PatchSummary.file_header_lines patch_content) =? 0
                              then (PatchApplier.ApplyError "No files in patch", fs1)
                              else (PatchApplier.ApplyOk b
                                      (length (PatchSummary.file_header_lines patch_content))
                                      (PatchParser.total_additions
                                         (PatchParser.parse_unified_diff patch_content))
                                      (PatchParser.total_deletions
                                         (PatchParser.parse_unified_diff patch_content)), fs1)
                          end) in
            ((exists b m a d, r = PatchApplier.ApplyOk b m a d) <->
             PatchValidator.valid
               (PatchValidator.validate_patch_format (PyStr patch_content)) = true
             /\ PatchSummary.file_header_lines patch_content <> [])
            /\ (PatchValidator.valid
                  (PatchValidator.validate_patch_format (PyStr patch_content)) = true ->
                PatchSummary.file_header_lines patch_content = [] ->
                r = PatchApplier.ApplyError "No files in patch")).
  { intros b fs1. cbv zeta.
    destruct (PatchValidator.validate_patch_format (PyStr patch_content)) as [fmt | err];
      cbn [PatchValidator.valid fst].
    - destruct (PatchSummary.file_header_lines patch_content) as [|l ls] eqn:L;
        cbn [length Nat.eqb fst].
      + split; [| reflexivity].
        split; [intros (b' & m & a & d & H); discriminate | intros [_ H]; now elim H].
      + split; [| discriminate].
        split; [intros _; split; [reflexivity | discriminate] |].
        intros _. eexists _, _, _, _. reflexivity.
    - split; [| discriminate].
      split; [intros (b' & m & a & d & H); discriminate | intros [H _]; discriminate]. }
  destruct backup.
  - destruct (PatchApplier.copy2 copy_ends refused fs file_path
                (PatchApplier.backup_name file_path pid)) as [[err |] fs1]; cbn [fst snd].
    + split; [split; [intros (b & m & a & d & H); discriminate
                     | intros (H & _); discriminate (H eq_refl)] |].
      split; [intros H; discriminate (H eq_refl) |].
      intros err' _ [= <-]. reflexivity.
    + destruct (K (Some (PatchApplier.backup_name file_path pid)) fs1) as [K1 K2].
      split; [| split; [intros _; exact K2 | discriminate]].
      rewrite K1. split; [intros H; split; [reflexivity | exact H] | intros [_ H]; exact H].
  - destruct (K None fs) as [K1 K2].
    split; [| split; [intros _; exact K2 | discriminate]].
    rewrite K1. split; [intros H; split; [discriminate | exact H] | intros [_ H]; exact H].
Qed.

Lemma apply_patch_safe_success_witness :
  fst (PatchApplier.apply_patch_safe MoreExamples.copies MoreExamples.refused
         4242 "a.py" MoreExamples.other_header true
         MoreExamples.one_file) = PatchApplier.ApplyError "No files in patch".
Proof.
  destruct (apply_patch_safe_success MoreExamples.copies MoreExamples.refused
              4242 "a.py" MoreExamples.other_header (PatchApplier.File "x=1") true
              MoreExamples.one_file) as (_ & H & _).
  - reflexivity.
  - apply H.
    + intros _. vm_compute. reflexivity.
    + vm_compute. reflexivity.
    + vm_compute. reflexivity.
Defined.

(** ** Conflicts and the application of a diff to a text *)

(** X24: [detect_conflicts] never reports a conflict: for every base
    content and every patch the list it returns is empty, because the
    check of a chunk always answers [None]. *)
Theorem detect_conflicts_finds_none (conflict : Type) (base_content patch_content : string) :
  ConflictResolver.detect_conflicts conflict base_content patch_content = [].
Proof.
  unfold ConflictResolver.detect_conflicts. cbv zeta.
  generalize (PatchParser.files (PatchParser.parse_unified_diff patch_content)).
  intros fs. induction fs as [|f fs IH]; [reflexivity |].
  cbn [fold_left].
  assert (E : forall cs (acc : list conflict),
            fold_left (fun conflicts chunk =>
                         match ConflictResolver._check_chunk_conflict conflict
                                 base_content chunk with
                         | Some c => (conflicts ++ [c])%list
                         | None => conflicts
                         end) cs acc = acc).
  { induction cs as [|c cs IHc]; intros acc; [reflexivity | exact (IHc acc)]. }
  rewrite E. exact IH.
Qed.

Lemma join_cons (sep l : string) (ls : list string) :
  ls <> [] -> Py.join sep (l :: ls) = l ++ sep ++ Py.join sep ls.
Proof. destruct ls; [congruence | reflexivity]. Qed.

Lemma splitlines_nil (s : string) :
  DiffGenerator.splitlines_from false s = [] -> s = "".
Proof.
  destruct s as [|c s]; [reflexivity |]. cbn [DiffGenerator.splitlines_from andb].
  destruct (DiffGenerator.is_linebreak c); [discriminate |].
  destruct (DiffGenerator.splitlines_from false s); discriminate.
Qed.

Lemma without_final_newline_cons (c : ascii) (s : string) :
  s <> "" ->
  DiffGenerator.without_final_newline (String c s) =
  String c (DiffGenerator.without_final_newline s).
Proof. destruct s; [congruence | reflexivity]. Qed.

Lemma join_splitlines (s : string) :
  DiffGenerator.lf_only s = true ->
  Py.join PyMore.nl (DiffGenerator.splitlines s) = DiffGenerator.without_final_newline s.
Proof.
  unfold DiffGenerator.splitlines.
  induction s as [|c s IH]; [reflexivity |].
  cbn [DiffGenerator.lf_only]. intros H. apply andb_prop in H as [Hc Hs].
  specialize (IH Hs).
  cbn [DiffGenerator.splitlines_from andb].
  destruct (DiffGenerator.is_linebreak c) eqn:L.
  - cbn [negb] in Hc. rewrite orb_false_r in Hc.
    apply Ascii.eqb_eq in Hc. subst c.
    change (Ascii.eqb Py.newline DiffGenerator.carriage_return) with false.
    destruct s as [|d s]; [reflexivity |].
    rewrite without_final_newline_cons by discriminate.
    rewrite join_cons.
    + rewrite IH. reflexivity.
    + intros E. apply splitlines_nil in E. discriminate.
  - destruct s as [|d s]; [cbn; destruct (Ascii.eqb c Py.newline) eqn:E;
                            [apply Ascii.eqb_eq in E; subst c; discriminate | reflexivity] |].
    rewrite without_final_newline_cons by discriminate.
    destruct (DiffGenerator.splitlines_from false (String d s)) as [|l ls] eqn:E.
    + apply splitlines_nil in E. discriminate.
    + rewrite <- IH. destruct ls; reflexivity.
Qed.

(** X25: [apply_diff_to_content] does not apply the diff.  It answers
    [None] exactly when no line of the diff starts with [--- a/];
    otherwise its answer does not depend on the diff, and for a text
    whose only line boundary is the line feed it is the original text,
    less one final line feed. *)
Theorem apply_diff_to_content_keeps_text (original_content diff_content : string) :
  (DiffGenerator.apply_diff_to_content original_content diff_content = None <->
   PatchSummary.file_header_lines diff_content = [])
  /\ (forall other result,
        DiffGenerator.apply_diff_to_content original_content diff_content = Some result ->
        PatchSummary.file_header_lines other <> [] ->
        DiffGenerator.apply_diff_to_content original_content other = Some result)
  /\ (forall result,
        DiffGenerator.lf_only original_content = true ->
        DiffGenerator.apply_diff_to_content original_content diff_content = Some result ->
        result = DiffGenerator.without_final_newline original_content).
Proof.
  assert (F : forall d,
            PatchParser.files (PatchParser.parse_unified_diff d) = [] <->
            PatchSummary.file_header_lines d = []).
  { intros d. destruct (parse_files_headers d) as [E _]. cbv zeta in E.
    split; intros H.
    - rewrite H in E. cbn [map] in E. symmetry in E. now apply map_eq_nil in E.
    - rewrite H in E. cbn [map] in E. now apply map_eq_nil in E. }
  unfold DiffGenerator.apply_diff_to_content. cbv zeta.
  split; [| split].
  - rewrite <- F.
    destruct (PatchParser.files (PatchParser.parse_unified_diff diff_content));
      split; congruence.
  - intros other result H Ho. rewrite <- F in Ho.
    destruct (PatchParser.files (PatchParser.parse_unified_diff other)); [congruence |].
    destruct (PatchParser.files (PatchParser.parse_unified_diff diff_content));
      [discriminate | exact H].
  - intros result L H.
    destruct (PatchParser.files (PatchParser.parse_unified_diff diff_content));
      [discriminate |].
    injection H as <-. now apply join_splitlines.
Qed.


(** ** The confidence score *)

Lemma ltb_leb (x y : float) : PrimFloat.ltb x y = true -> PrimFloat.leb x y = true.
Proof.
  rewrite FloatAxioms.ltb_spec, FloatAxioms.leb_spec.
  unfold SpecFloat.SFltb, SpecFloat.SFleb.
  destruct (SpecFloat.SFcompare (Prim2SF x) (Prim2SF y)) as [[| |]|];
    congruence.
Qed.

Lemma SFcompare_refl (s : SpecFloat.spec_float) :
  s <> SpecFloat.S754_nan -> SpecFloat.SFcompare s s = Some Eq.
Proof.
  destruct s as [[|]|[|]| |[|] m e]; intros H; cbn [SpecFloat.SFcompare];
    try reflexivity; try congruence.
  - rewrite Z.compare_refl, Pos.compare_refl. reflexivity.
  - rewrite Z.compare_refl, Pos.compare_refl. reflexivity.
Qed.

Lemma nan_not_below (x y : float) :
  PrimFloat.is_nan x = true -> PrimFloat.ltb x y = false.
Proof.
  unfold PrimFloat.is_nan. rewrite FloatAxioms.eqb_spec, FloatAxioms.ltb_spec.
  unfold SpecFloat.SFeqb, SpecFloat.SFltb. intros N.
  destruct (Prim2SF x) as [s|s| |s m e] eqn:E; [| | reflexivity |];
    rewrite SFcompare_refl in N by discriminate; discriminate.
Qed.

Lemma clamp_range (x : float) :
  PrimFloat.leb 0%float (Confidence.clamp x) = true
  /\ PrimFloat.leb (Confidence.clamp x) 1%float = true.
Proof.
  unfold Confidence.clamp, Confidence.min1, PatchValidator.max0.
  destruct (PrimFloat.ltb x 1%float) eqn:A.
  - destruct (PrimFloat.ltb 0%float x) eqn:B.
    + split; now apply ltb_leb.
    + split; reflexivity.
  - split; reflexivity.
Qed.

Lemma clamp_inside (x : float) :
  PrimFloat.ltb 0%float x = true -> PrimFloat.ltb x 1%float = true ->
  Confidence.clamp x = x.
Proof.
  intros A B. unfold Confidence.clamp, Confidence.min1, PatchValidator.max0.
  now rewrite B, A.
Qed.

(** X26: whatever the AI call answers and whatever number its text
    reads as, the score computed from it lies between 0.0 and 1.0; a
    number strictly between the two is returned as it is, a text that
    is no number gives 0.5, and a text that reads as not-a-number
    gives 1.0. *)
Theorem confidence_score_is_clamped (py_float : string -> option float)
    (answer : Confidence.ai_answer) :
  let s := Confidence.score_of_answer py_float answer in
  PrimFloat.leb 0%float s = true
  /\ PrimFloat.leb s 1%float = true
  /\ (forall text x, answer = Confidence.AiReturned (Some text) ->
        py_float text = Some x ->
        (PrimFloat.ltb 0%float x = true -> PrimFloat.ltb x 1%float = true -> s = x)
        /\ (PrimFloat.is_nan x = true -> s = 1%float))
  /\ (forall text, answer = Confidence.AiReturned (Some text) ->
        py_float text = None -> s = 0.5%float).
Proof.
  intros s. subst s.
  split; [| split; [| split]].
  - destruct answer as [|r]; cbn [Confidence.score_of_answer]; [reflexivity |].
    destruct (py_float _); [apply clamp_range | reflexivity].
  - destruct answer as [|r]; cbn [Confidence.score_of_answer]; [reflexivity |].
    destruct (py_float _); [apply clamp_range | reflexivity].
  - intros text x -> P. cbn [Confidence.score_of_answer]. rewrite P. split.
    + apply clamp_inside.
    + intros N. unfold Confidence.clamp, Confidence.min1.
      rewrite (nan_not_below x 1%float N). reflexivity.
  - intros text -> P. cbn [Confidence.score_of_answer]. now rewrite P.
Qed.

(** X27: the class [AIService] has no attribute [analyze_text], so the
    call inside [score_proposal_confidence] raises and the function
    answers 0.5 for every proposal and context; a proposal that is given
    this score is below the threshold of [validate_proposal_safety]. *)
Theorem score_proposal_confidence_is_constant (py_float : string -> option float)
    (analyze_text : string -> Confidence.ai_answer) (prompt : string) :
  Confidence.score_proposal_confidence py_float analyze_text prompt = 0.5%float
  /\ PrimFloat.leb ProposalService.confidence_threshold
       (Confidence.score_proposal_confidence py_float analyze_text prompt) = false.
Proof. split; reflexivity. Qed.

(** ** The signature check of the webhook endpoint *)

Lemma prefix_drop (p s : string) :
  String.prefix p s = true -> s = p ++ Py.drop (String.length p) s.
Proof.
  revert s. induction p as [|a p IH]; intros s H; [reflexivity |].
  destruct s as [|b s]; [discriminate |]. cbn [String.prefix] in H.
  destruct (Ascii.ascii_dec a b) as [-> |]; [| discriminate].
  cbn [String.length Py.drop append]. f_equal. now apply IH.
Qed.

Lemma prefix_append (p s : string) : String.prefix p (p ++ s) = true.
Proof.
  induction p as [|a p IH]; cbn [String.prefix append]; [now destruct s |].
  destruct (Ascii.ascii_dec a a); [exact IH | congruence].
Qed.

Lemma drop_append (p s : string) : Py.drop (String.length p) (p ++ s) = s.
Proof. induction p as [|a p IH]; [reflexivity | exact IH]. Qed.

Lemma is_ascii_append (a b : string) :
  Webhook.is_ascii (a ++ b) = Webhook.is_ascii a && Webhook.is_ascii b.
Proof.
  unfold Webhook.is_ascii. induction a as [|c a IH]; [reflexivity |].
  cbn [append list_ascii_of_string forallb]. now rewrite IH, andb_assoc.
Qed.

(** X28: the check of the webhook endpoint against the check of the
    service.  With a secret configured, [verify_github_signature]
    accepts a signature exactly when, both texts being ASCII, it is the
    digest with the prefix [sha256=], or the bare digest; every
    signature that [verify_webhook_signature] accepts is accepted by
    the endpoint's check as well, and the bare digest is accepted by
    the endpoint's check and refused by the service's. *)
Theorem endpoint_signature_check (hmac_hex : string -> string -> string)
    (secret payload signature : string) :
  let digest := hmac_hex secret payload in
  (WebhookEndpoint.verify_github_signature hmac_hex secret payload signature = Some true <->
     secret <> "" /\ Webhook.is_ascii digest = true /\
     ((signature = "sha256=" ++ digest)
      \/ (signature = digest /\ Py.startswith digest "sha256=" = false)))
  /\ (Webhook.verify_webhook_signature hmac_hex secret payload signature = Some true ->
      WebhookEndpoint.verify_github_signature hmac_hex secret payload signature = Some true)
  /\ (secret <> "" -> Webhook.is_ascii digest = true ->
      Py.startswith digest "sha256=" = false ->
      WebhookEndpoint.verify_github_signature hmac_hex secret payload digest = Some true
      /\ Webhook.verify_webhook_signature hmac_hex secret payload digest = Some false).
Proof.
  intros digest.
  assert (A : secret <> "" -> Webhook.is_ascii digest = true ->
              WebhookEndpoint.verify_github_signature hmac_hex secret payload
                ("sha256=" ++ digest) = Some true).
  { intros S D. unfold WebhookEndpoint.verify_github_signature.
    destruct secret as [|c s]; [congruence |]. fold digest.
    unfold Py.startswith. rewrite prefix_append.
    change 7 with (String.length "sha256="). rewrite drop_append.
    unfold Webhook.compare_digest. now rewrite D, String.eqb_refl. }
  assert (B : secret <> "" -> Webhook.is_ascii digest = true ->
              Py.startswith digest "sha256=" = false ->
              WebhookEndpoint.verify_github_signature hmac_hex secret payload digest
              = Some true).
  { intros S D P. unfold WebhookEndpoint.verify_github_signature.
    destruct secret as [|c s]; [congruence |]. fold digest. rewrite P.
    unfold Webhook.compare_digest. now rewrite D, String.eqb_refl. }
  split; [split |].
  - intros H. unfold WebhookEndpoint.verify_github_signature in H.
    destruct secret as [|c s]; [discriminate |]. fold digest in H.
    split; [discriminate |].
    unfold Webhook.compare_digest in H.
    destruct (Py.startswith signature "sha256=") eqn:P.
    + destruct (Webhook.is_ascii (Py.drop 7 signature)); [| discriminate].
      destruct (Webhook.is_ascii digest); [| discriminate].
      split; [reflexivity |]. left. cbn [andb] in H. injection H as H.
      apply String.eqb_eq in H. rewrite <- H.
      exact (prefix_drop "sha256=" signature P).
    + destruct (Webhook.is_ascii signature); [| discriminate].
      destruct (Webhook.is_ascii digest); [| discriminate].
      split; [reflexivity |]. right. cbn [andb] in H. injection H as H.
      apply String.eqb_eq in H. subst signature. split; [reflexivity | exact P].
  - intros (S & D & [-> | [-> P]]); [now apply A | now apply B].
  - split.
    + intros H. unfold Webhook.verify_webhook_signature in H.
      destruct secret as [|c s] eqn:Es; [discriminate |]. fold digest in H.
      unfold Webhook.compare_digest in H.
      destruct (Webhook.is_ascii signature); [| discriminate].
      destruct (Webhook.is_ascii ("sha256=" ++ digest)) eqn:D; [| discriminate].
      cbn [andb] in H. injection H as H. apply String.eqb_eq in H. subst signature.
      rewrite is_ascii_append in D. apply andb_prop in D as [_ D].
      apply A; [discriminate | exact D].
    + intros S D P. split; [now apply B |].
      unfold Webhook.verify_webhook_signature.
      destruct secret as [|c s]; [congruence |]. fold digest.
      unfold Webhook.compare_digest. rewrite is_ascii_append, D.
      change (Webhook.is_ascii "sha256=") with true. cbn [andb].
      f_equal. apply String.eqb_neq. intros E.
      unfold Py.startswith in P. rewrite E, prefix_append in P. discriminate.
Qed.

(** ** The merge-request path *)

Lemma create_branch_requests (http : list GitLabService.request -> GitLabService.request
                                      -> GitLabService.answer)
    (project_path branch_name : string) (p : Proposal) (u : User)
    (token : option string) (h : list GitLabService.request) :
  gitlab_access_token u = Has token ->
  exists rest,
    snd (GitLabService._create_branch_with_changes http project_path branch_name p u h) =
      (GitLabService.Get (GitLabService.api_base ++ "/projects/" ++ project_path
                            ++ "/repository/branches/main") token :: rest)
    /\ length rest <= 1
    /\ forallb (fun r => negb (GitLabService.is_merge_request r)) rest = true.
Proof.
  intros T. unfold GitLabService._create_branch_with_changes. rewrite T.
  destruct (http h _) as [e | status [e | b]];
    try destruct (status =? 200);
    try (exists []; split; [reflexivity | split; [cbn; lia | reflexivity]]).
  destruct (GitLabService.commit_id b) as [sha|];
    [| exists []; split; [reflexivity | split; [cbn; lia | reflexivity]]].
  destruct (http _ _) as [e | st j];
    [| destruct (negb (st =? 201))];
    eexists [_]; (split; [reflexivity | split; [cbn; lia | reflexivity]]).
Qed.

(** X29: the merge-request path of the GitLab service.  It sends no
    request and reports the failure when the analysis of the proposal
    has no [repository], when [urlparse] refuses the name of the
    repository, or when the user has no [gitlab_access_token]; the
    first is the case for an object of the class that
    [models/analysis.py] declares.  Otherwise, whatever the provider
    answers, it first asks for the branch [main] of the project,
    whatever the default branch of the repository is, and ends with
    the request that opens the merge request against the default
    branch; that request is sent also when the branch could not be
    created, and its answer alone decides the result.  The patch of
    the proposal plays no part: with any other patch the requests and
    the result are the same. *)
Theorem create_proposal_mr_requests
    (http : list GitLabService.request -> GitLabService.request -> GitLabService.answer)
    (urlparse_path : string -> string + string) (p : Proposal) (u : User)
    (t d : option string) (h : list GitLabService.request) :
  let r := fst (GitLabService.create_proposal_mr http urlparse_path p u t d h) in
  let sent := snd (GitLabService.create_proposal_mr http urlparse_path p u t d h) in
  (forall e, repository (finding p) = NoAttribute e ->
     r = GitLabService.MrFailed e /\ sent = [])
  /\ (declared_finding (finding p) ->
      r = GitLabService.MrFailed (no_attribute "Analysis" "repository") /\ sent = [])
  /\ (forall repo e,
        repository (finding p) = Has repo -> urlparse_path (full_name repo) = inl e ->
        r = GitLabService.MrFailed e /\ sent = [])
  /\ (forall repo path e,
        repository (finding p) = Has repo -> urlparse_path (full_name repo) = inr path ->
        gitlab_access_token u = NoAttribute e ->
        r = GitLabService.MrFailed e /\ sent = [])
  /\ (forall repo path token,
        repository (finding p) = Has repo -> urlparse_path (full_name repo) = inr path ->
        gitlab_access_token u = Has token ->
        let project := PyMore.replace (GitHubService.strip_slash path) "/" "%2F" in
        let get := GitLabService.Get (GitLabService.api_base ++ "/projects/" ++ project
                                        ++ "/repository/branches/main") token in
        exists middle title description,
          let post := GitLabService.PostMergeRequest
                        (GitLabService.api_base ++ "/projects/" ++ project
                           ++ "/merge_requests")
                        token ("refactoriq-fix-" ++ Py.str_of_Z (id p))
                        (default_branch repo) title description in
          sent = (get :: middle ++ [post])%list
          /\ length middle <= 1
          /\ forallb (fun q => negb (GitLabService.is_merge_request q)) middle = true
          /\ forall mr_url mr_iid,
               r = GitLabService.MrCreated mr_url mr_iid <->
               exists b,
                 http (h ++ get :: middle)%list post = GitLabService.Answered 201 (inr b)
                 /\ GitLabService.web_url b = mr_url /\ GitLabService.iid b = mr_iid)
  /\ forall patch,
       GitLabService.create_proposal_mr http urlparse_path
         (GitLabService.with_patch p patch) u t d h = (r, sent).
Proof.
  cbv zeta.
  assert (A : forall e, repository (finding p) = NoAttribute e ->
            GitLabService.create_proposal_mr http urlparse_path p u t d h =
            (GitLabService.MrFailed e, [])).
  { intros e H. unfold GitLabService.create_proposal_mr. now rewrite H. }
  split; [intros e H; now rewrite (A e H) |].
  split; [intros H; now rewrite (A _ H) |].
  split.
  { intros repo e H U. unfold GitLabService.create_proposal_mr. now rewrite H, U. }
  split.
  { intros repo path e H U T. unfold GitLabService.create_proposal_mr.
    rewrite H, U. unfold GitLabService._create_branch_with_changes. now rewrite T. }
  split.
  - intros repo path token H U T.
    unfold GitLabService.create_proposal_mr. rewrite H, U.
    set (project := PyMore.replace _ "/" "%2F").
    set (branch := "refactoriq-fix-" ++ Py.str_of_Z (id p)).
    destruct (create_branch_requests http project branch p u token h T)
      as (middle & E & L & F).
    destruct (GitLabService._create_branch_with_changes http project branch p u h)
      as [ok sent]. cbn [snd] in E. subst sent. rewrite T. cbn [fst snd].
    exists middle, (GitLabService.or_text t ("Fix: " ++ title p)),
      (GitLabService.or_text d (description p)).
    split; [reflexivity |]. split; [exact L |]. split; [exact F |].
    intros mr_url mr_iid.
    destruct (http _ _) as [e | status [e | b]].
    + split; [discriminate | intros (b & X & _); discriminate].
    + destruct (status =? 201);
        (split; [discriminate | intros (b & X & _); discriminate]).
    + destruct (status =? 201) eqn:S.
      * apply Nat.eqb_eq in S. subst status. split.
        -- intros [= <- <-]. exists b. repeat split.
        -- intros (b' & [= <-] & <- & <-). reflexivity.
      * split; [discriminate |]. intros (b' & [= -> _] & _).
        rewrite Nat.eqb_refl in S. discriminate.
  - intros patch.
    change (GitLabService.create_proposal_mr http urlparse_path
              (GitLabService.with_patch p patch) u t d h)
      with (GitLabService.create_proposal_mr http urlparse_path p u t d h).
    now destruct (GitLabService.create_proposal_mr http urlparse_path p u t d h).
Qed.
